(** * pingtest: the multi-stream quality decision core

  A shallow embedding of [js/multi-stream-stats.js]
  (class [MultiStreamStatsCollector]) and [js/smart-quality-controller.js]
  (class [SmartQualityController]), followed by the properties of the
  specification that concern them.

  Conventions of the embedding:
  - a JS number that may be fractional (bitrate, fps, loss, jitter, score,
    confidence) is a rational [Q]; a timestamp, a pixel count, a counter or
    an index is a [Z].  Comparisons and sums of doubles are read on their
    exact values; NaN and infinities are outside the model;
  - a JS string is a [string]; [null]/[undefined] is [None];
  - [Date.now()] is the argument [now] of every operation that reads it;
  - a JS [Map] that is iterated is an association list in insertion order,
    a [Map] that is only read by key is a [gmap];
  - the human-readable [reason] texts, [console] output and the listener
    fan-out ([emit]) take no part in any decision and are left out. *)

From Stdlib Require Import ZArith QArith Qround Lia Lqa.
From stdpp Require Import gmap strings list fin_maps.

(** ** JavaScript primitives used by the two classes *)

Module JS.

(** A call either completes normally or abruptly with a named error. *)
Inductive completion (A : Type) : Type :=
| Normal (a : A)
| Throw (error : string).
Global Arguments Normal {A} a.
Global Arguments Throw {A} error.

Definition bind {A B} (c : completion A) (k : A -> completion B) : completion B :=
  match c with
  | Normal a => k a
  | Throw e => Throw e
  end.

(** Reading a property of [null]/[undefined]. *)
Definition deref {A} (o : option A) : completion A :=
  match o with
  | Some a => Normal a
  | None => Throw "TypeError"
  end.

Fixpoint mapC {A B} (f : A -> completion B) (l : list A) : completion (list B) :=
  match l with
  | [] => Normal []
  | x :: l' => bind (f x) (fun y => bind (mapC f l') (fun ys => Normal (y :: ys)))
  end.

(** [x < y] and [x > y] on numbers. *)
Definition ltb (x y : Q) : bool :=
  match (x ?= y)%Q with Lt => true | _ => false end.
Definition gtb (x y : Q) : bool := ltb y x.

(** [Math.max] and [Math.min] of two numbers. *)
Definition Math_max (x y : Q) : Q := if ltb x y then y else x.
Definition Math_min (x y : Q) : Q := if ltb y x then y else x.

(** [x || d] on numbers: [0] is falsy. *)
Definition or_else (x d : Q) : Q := if Qeq_bool x 0 then d else x.

(** [!h] on an optional number: [undefined] and [0] are falsy. *)
Definition falsyZ (h : option Z) : bool :=
  match h with
  | None => true
  | Some z => (z =? 0)%Z
  end.

(** [Math.round]: the nearest integer, ties towards +infinity. *)
Definition Math_round (x : Q) : Z := Qfloor (x + (1 # 2)).

(** [x.toFixed(d)] read back as a number: the nearest multiple of
    [10^-d], ties away from zero. *)
Definition toFixed (d : nat) (x : Q) : Q :=
  let scale := inject_Z (10 ^ Z.of_nat d) in
  let n := if ltb x 0 then (- Qfloor (- x * scale + (1 # 2)))%Z
           else Qfloor (x * scale + (1 # 2)) in
  (inject_Z n / scale)%Q.

(** [Array.prototype.indexOf] on an array of strings. *)
Fixpoint indexOf_from (l : list string) (x : string) (i : Z) : Z :=
  match l with
  | [] => (-1)%Z
  | y :: l' => if String.eqb y x then i else indexOf_from l' x (i + 1)%Z
  end.
Definition indexOf (l : list string) (x : string) : Z := indexOf_from l x 0.

(** [l[i]] for a numeric index. *)
Definition at_index {A} (l : list A) (i : Z) : option A :=
  if (i <? 0)%Z then None else l !! Z.to_nat i.

(** An insertion-ordered [Map]: [get], [set] (an existing key keeps its
    place), [delete]. *)
Section OrderedMap.
Context {V : Type}.

Fixpoint map_get (k : string) (m : list (string * V)) : option V :=
  match m with
  | [] => None
  | (k', v) :: m' => if String.eqb k' k then Some v else map_get k m'
  end.

Fixpoint map_set (k : string) (v : V) (m : list (string * V)) : list (string * V) :=
  match m with
  | [] => [(k, v)]
  | (k', v') :: m' =>
      if String.eqb k' k then (k, v) :: m' else (k', v') :: map_set k v m'
  end.

Fixpoint map_delete (k : string) (m : list (string * V)) : list (string * V) :=
  match m with
  | [] => []
  | (k', v') :: m' =>
      if String.eqb k' k then m' else (k', v') :: map_delete k m'
  end.
End OrderedMap.

End JS.

Notation "x <- c ;; k" := (JS.bind c (fun x => k))
(at level 100, c at next level, right associativity, only parsing).

(** ** Telemetry shared by the collector and the controller *)

Module Telemetry.

Inductive Level := excellent | good | fair | poor.
Inductive BandwidthState := sufficient | bw_moderate | overloaded.
Inductive StabilityState := stable | st_moderate | unstable.
Inductive StressLevel := stress_low | stress_medium | stress_high.

Record Resolution := { width : Z; height : Z }.

(** The snapshot a [WebRTCStatsCollector] hands over ([data.stats]). *)
Record RawStats := {
  raw_videoBitrate : Q;      (* kbps *)
  raw_videoFps : Q;
  raw_resolution : option Resolution;
  raw_packetLossRate : Q;    (* percent *)
  raw_jitter : Q             (* ms *)
}.

(** [data.quality], the result of [evaluateQuality]. *)
Record QualityEval := { status : string; score : Q }.

(** [streamInfo.currentStats]: the snapshot plus the fields
    [updateStreamStats] adds. *)
Record Stats := {
  videoBitrate : Q;
  videoFps : Q;
  resolution : option Resolution;
  packetLossRate : Q;
  jitter : Q;
  timestamp : Z;
  qualityStatus : string;
  qualityScore : Q
}.

Record Metadata := { viewIndex : Z; quality : string; priority : string }.

Record QualityEvent := { qe_status : string; qe_score : Q; qe_timestamp : Z }.

Record StreamInfo := {
  id : string;
  metadata : Metadata;
  currentStats : option Stats;
  lastUpdate : Z;
  qualityHistory : list QualityEvent;
  isActive : bool
}.

(** [stats.resolution?.height] *)
Definition height_of (s : Stats) : option Z := height <$> resolution s.

Record NetworkMetrics := {
  totalBandwidthUsage : Q;   (* Mbps, one decimal *)
  averageQualityScore : Z;
  networkStressLevel : StressLevel
}.

Record NetworkAssessment := {
  overall : Level;
  bandwidth : BandwidthState;
  stability : StabilityState;
  net_metrics : NetworkMetrics
}.

End Telemetry.

(** ** [MultiStreamStatsCollector] (js/multi-stream-stats.js) *)

Module MultiStreamStatsCollector.
Import JS Telemetry.

Record BandwidthThresholds := { high : Q; medium : Q; low : Q }.

Record Config := {
  interval : Z;
  historyDuration : Z;
  bandwidthThresholds : BandwidthThresholds
}.

Definition default_config : Config :=
  {| interval := 2000;
     historyDuration := 60000;
     bandwidthThresholds := {| high := 10; medium := 5; low := 2 |} |}.

Record QualityDistribution := {
  n_excellent : Z; n_good : Z; n_fair : Z; n_poor : Z
}.

Record AggregatedStats := {
  totalStreams : Z;
  totalBandwidth : Q;          (* kbps *)
  averageFps : Z;
  averagePacketLoss : Q;       (* two decimals *)
  averageJitter : Z;
  totalResolution : Resolution;
  qualityDistribution : QualityDistribution;
  networkUtilization : Z
}.

Record Metrics := {
  m_packetLoss : Q; m_jitter : Q; m_fps : Q; m_qualityScore : Q
}.

(** The object literal built at the end of [generateStreamRecommendation].
    Its keys are streamId, type, currentQuality, recommendedQuality, reason,
    confidence, timestamp and metrics; [action] records the read
    [lastRecommendation?.action] of a key the literal does not define. *)
Record Recommendation := {
  streamId : string;
  rec_type : string;
  currentQuality : string;
  recommendedQuality : string;
  confidence : Q;
  rec_timestamp : Z;
  metrics : Metrics;
  action : option string
}.

(** The literal built by [generateGlobalOptimization]. *)
Record GlobalRecommendation := {
  g_type : string;
  g_action : string;
  g_confidence : Q;
  g_timestamp : Z
}.

Record Collector := {
  config : Config;
  streamStats : list (string * StreamInfo);
  historicalData : gmap string (list Stats);
  aggregatedStats : option AggregatedStats;
  networkAssessment : option NetworkAssessment;
  lastUpdateTime : Z;
  lastRecommendations : gmap string Recommendation
}.

Definition new (cfg : Config) (now : Z) : Collector :=
  {| config := cfg;
     streamStats := [];
     historicalData := ∅;
     aggregatedStats := None;
     networkAssessment := None;
     lastUpdateTime := now;
     lastRecommendations := ∅ |}.

(** The [metadata] argument of [addStream]; a missing key is [None]. *)
Record MetadataArg := {
  arg_viewIndex : option Z;
  arg_quality : option string;
  arg_priority : option string
}.

(** [addStream(streamId, statsCollector, metadata)].  The listener it
    attaches to [statsCollector] is the caller of [updateStreamStats]. *)
Definition addStream (streamId : string) (md : MetadataArg) (now : Z)
    (c : Collector) : completion Collector :=
  let streamInfo :=
    {| id := streamId;
       metadata := {| viewIndex := default 0%Z (arg_viewIndex md);
                      quality := default "auto" (arg_quality md);
                      priority := default "normal" (arg_priority md) |};
       currentStats := None;
       lastUpdate := now;
       qualityHistory := [];
       isActive := true |} in
  Normal {| config := config c;
            streamStats := map_set streamId streamInfo (streamStats c);
            historicalData := <[streamId := []]> (historicalData c);
            aggregatedStats := aggregatedStats c;
            networkAssessment := networkAssessment c;
            lastUpdateTime := lastUpdateTime c;
            lastRecommendations := lastRecommendations c |}.

(** [removeStream(streamId)] *)
Definition removeStream (streamId : string) (c : Collector) : Collector :=
  match map_get streamId (streamStats c) with
  | Some _ =>
      {| config := config c;
         streamStats := map_delete streamId (streamStats c);
         historicalData := historicalData c;
         aggregatedStats := aggregatedStats c;
         networkAssessment := networkAssessment c;
         lastUpdateTime := lastUpdateTime c;
         lastRecommendations := lastRecommendations c |}
  | None => c
  end.

(** The [while] loop of [addToHistory]: drop expired records at the head. *)
Fixpoint evict (cutoffTime : Z) (history : list Stats) : list Stats :=
  match history with
  | [] => []
  | s :: rest =>
      if (timestamp s <? cutoffTime)%Z then evict cutoffTime rest else history
  end.

(** [addToHistory(streamId, stats)] on the [historicalData] map. *)
Definition addToHistory (streamId : string) (stats : Stats) (now : Z)
    (cfg : Config) (h : gmap string (list Stats)) : gmap string (list Stats) :=
  match h !! streamId with
  | None => h
  | Some history =>
      let cutoffTime := (now - historyDuration cfg)%Z in
      <[streamId := evict cutoffTime (history ++ [stats])]> h
  end.

(** The [qualityHistory] update of [updateStreamStats]. *)
Definition pushQuality (q : QualityEval) (now : Z) (qh : list QualityEvent)
    : list QualityEvent :=
  let changed :=
    match last qh with
    | None => true
    | Some lastQuality => negb (String.eqb (qe_status lastQuality) (status q))
    end in
  if changed then
    let qh' := qh ++ [{| qe_status := status q; qe_score := score q;
                         qe_timestamp := now |}] in
    if (20 <? Z.of_nat (length qh'))%Z then tail qh' else qh'
  else qh.

(** [updateStreamStats(streamId, data)] with [data = {stats, quality}]. *)
Definition updateStreamStats (streamId : string) (stats : RawStats)
    (q : QualityEval) (now : Z) (c : Collector) : Collector :=
  match map_get streamId (streamStats c) with
  | None => c
  | Some streamInfo =>
      if negb (isActive streamInfo) then c else
      let cur :=
        {| videoBitrate := raw_videoBitrate stats;
           videoFps := raw_videoFps stats;
           resolution := raw_resolution stats;
           packetLossRate := raw_packetLossRate stats;
           jitter := raw_jitter stats;
           timestamp := now;
           qualityStatus := status q;
           qualityScore := score q |} in
      let streamInfo' :=
        {| id := id streamInfo;
           metadata := metadata streamInfo;
           currentStats := Some cur;
           lastUpdate := now;
           qualityHistory := pushQuality q now (qualityHistory streamInfo);
           isActive := isActive streamInfo |} in
      {| config := config c;
         streamStats := map_set streamId streamInfo' (streamStats c);
         historicalData := addToHistory streamId cur now (config c) (historicalData c);
         aggregatedStats := aggregatedStats c;
         networkAssessment := networkAssessment c;
         lastUpdateTime := lastUpdateTime c;
         lastRecommendations := lastRecommendations c |}
  end.

(** [getActiveStreams()]: the entries that are active and have a
    snapshot, in the order of the map. *)
Definition has_snapshot (s : StreamInfo) : bool :=
  isActive s && (match currentStats s with Some _ => true | None => false end).

Definition getActiveStreams (c : Collector) : list StreamInfo :=
  List.filter has_snapshot (snd <$> streamStats c).

(** [getStreamHistory(streamId, duration)] *)
Definition getStreamHistory (streamId : string) (duration : Z) (now : Z)
    (c : Collector) : list Stats :=
  match historicalData c !! streamId with
  | None => []
  | Some history =>
      let cutoffTime := (now - duration)%Z in
      List.filter (fun d => (cutoffTime <=? timestamp d)%Z) history
  end.

(** *** Aggregation *)

Definition sumQ (l : list Q) : Q := fold_left Qplus l 0%Q.

Definition lengthQ {A} (l : list A) : Q := inject_Z (Z.of_nat (length l)).

Definition orZ (x d : Z) : Z := if (x =? 0)%Z then d else x.

Definition maxResolution (acc : Resolution) (s : Stats) : Resolution :=
  match resolution s with
  | None => acc
  | Some r => {| width := Z.max (width acc) (orZ (width r) 0);
                 height := Z.max (height acc) (orZ (height r) 0) |}
  end.

(** [currentStats.qualityStatus || 'fair'] counted into its bucket. *)
Definition countStatus (acc : QualityDistribution) (s : Stats) : QualityDistribution :=
  let st := if String.eqb (qualityStatus s) "" then "fair" else qualityStatus s in
  if String.eqb st "excellent" then
    {| n_excellent := n_excellent acc + 1; n_good := n_good acc;
       n_fair := n_fair acc; n_poor := n_poor acc |}
  else if String.eqb st "good" then
    {| n_excellent := n_excellent acc; n_good := n_good acc + 1;
       n_fair := n_fair acc; n_poor := n_poor acc |}
  else if String.eqb st "fair" then
    {| n_excellent := n_excellent acc; n_good := n_good acc;
       n_fair := n_fair acc + 1; n_poor := n_poor acc |}
  else if String.eqb st "poor" then
    {| n_excellent := n_excellent acc; n_good := n_good acc;
       n_fair := n_fair acc; n_poor := n_poor acc + 1 |}
  else acc.

Definition utilization (bandwidthMbps : Q) : Z :=
  if ltb bandwidthMbps 2 then 30
  else if ltb bandwidthMbps 5 then 60
  else if ltb bandwidthMbps 10 then 80
  else 95.

(** The body of [generateAggregatedStats] once every [currentStats] has
    been read. *)
Definition aggregate (stats : list Stats) : AggregatedStats :=
  let n := lengthQ stats in
  let totalBandwidth := sumQ ((fun s => or_else (videoBitrate s) 0) <$> stats) in
  let totalFps := sumQ ((fun s => or_else (videoFps s) 0) <$> stats) in
  let totalPacketLoss := sumQ ((fun s => or_else (packetLossRate s) 0) <$> stats) in
  let totalJitter := sumQ ((fun s => or_else (jitter s) 0) <$> stats) in
  let nonempty := (0 <? Z.of_nat (length stats))%Z in
  {| totalStreams := Z.of_nat (length stats);
     totalBandwidth := totalBandwidth;
     averageFps := if nonempty then Math_round (totalFps / n) else 0;
     averagePacketLoss := if nonempty then toFixed 2 (totalPacketLoss / n) else 0;
     averageJitter := if nonempty then Math_round (totalJitter / n) else 0;
     totalResolution := fold_left maxResolution stats {| width := 0; height := 0 |};
     qualityDistribution :=
       fold_left countStatus stats
         {| n_excellent := 0; n_good := 0; n_fair := 0; n_poor := 0 |};
     networkUtilization := utilization (totalBandwidth / 1000) |}.

(** [generateAggregatedStats(activeStreams)] *)
Definition generateAggregatedStats (activeStreams : list StreamInfo)
    : completion AggregatedStats :=
  stats <- mapC (fun s => deref (currentStats s)) activeStreams ;;
  Normal (aggregate stats).

(** *** Network assessment *)

Definition classifyBandwidth (cfg : Config) (bandwidthMbps : Q) : BandwidthState :=
  if gtb bandwidthMbps (high (bandwidthThresholds cfg)) then overloaded
  else if gtb bandwidthMbps (medium (bandwidthThresholds cfg)) then bw_moderate
  else sufficient.

Definition problematic (s : Stats) : bool :=
  gtb (packetLossRate s) 2 || gtb (jitter s) 60.

Definition classifyStability (nProblematic nActive : nat) : StabilityState :=
  if gtb (inject_Z (Z.of_nat nProblematic)) (inject_Z (Z.of_nat nActive) * (1 # 2))
  then unstable
  else if (0 <? Z.of_nat nProblematic)%Z then st_moderate
  else stable.

Definition classifyStress (cfg : Config) (bandwidthMbps : Q) (nProblematic : nat)
    : StressLevel :=
  if gtb bandwidthMbps (high (bandwidthThresholds cfg))
     || (2 <? Z.of_nat nProblematic)%Z then stress_high
  else if gtb bandwidthMbps (medium (bandwidthThresholds cfg))
          || (0 <? Z.of_nat nProblematic)%Z then stress_medium
  else stress_low.

(** The final [if] chain of [assessNetworkConditions]. *)
Definition bw_eqb (a b : BandwidthState) : bool :=
  match a, b with
  | sufficient, sufficient | bw_moderate, bw_moderate | overloaded, overloaded => true
  | _, _ => false
  end.

Definition st_eqb (a b : StabilityState) : bool :=
  match a, b with
  | stable, stable | st_moderate, st_moderate | unstable, unstable => true
  | _, _ => false
  end.

Definition combine (b : BandwidthState) (st : StabilityState) (avgScore : Z) : Level :=
  if bw_eqb b overloaded || st_eqb st unstable then poor
  else if bw_eqb b bw_moderate || st_eqb st st_moderate then fair
  else if (80 <? avgScore)%Z then excellent
  else good.

(** The [assessment] object as initialised. *)
Definition initial_assessment : NetworkAssessment :=
  {| overall := good;
     bandwidth := sufficient;
     stability := stable;
     net_metrics := {| totalBandwidthUsage := 0;
                       averageQualityScore := 0;
                       networkStressLevel := stress_low |} |}.

Definition assess (cfg : Config) (stats : list Stats) : NetworkAssessment :=
  let totalBandwidth := sumQ ((fun s => or_else (videoBitrate s) 0) <$> stats) in
  let usage := toFixed 1 (totalBandwidth / 1000) in
  let totalQualityScore := sumQ ((fun s => or_else (qualityScore s) 50) <$> stats) in
  let avg := Math_round (totalQualityScore / lengthQ stats) in
  let bandwidthMbps := usage in
  let b := classifyBandwidth cfg bandwidthMbps in
  let nProblematic := length (List.filter problematic stats) in
  let st := classifyStability nProblematic (length stats) in
  {| overall := combine b st avg;
     bandwidth := b;
     stability := st;
     net_metrics := {| totalBandwidthUsage := usage;
                       averageQualityScore := avg;
                       networkStressLevel := classifyStress cfg bandwidthMbps nProblematic |} |}.

(** [assessNetworkConditions(activeStreams)] *)
Definition assessNetworkConditions (cfg : Config) (activeStreams : list StreamInfo)
    : completion NetworkAssessment :=
  match activeStreams with
  | [] => Normal initial_assessment
  | _ =>
      stats <- mapC (fun s => deref (currentStats s)) activeStreams ;;
      Normal (assess cfg stats)
  end.

(** *** Per-stream recommendations *)

(** [canUpgradeBasedOnBandwidth()] *)
Definition canUpgradeBasedOnBandwidth (c : Collector) : bool :=
  match aggregatedStats c with
  | None => false
  | Some a =>
      let currentBandwidthMbps := (totalBandwidth a / 1000)%Q in
      ltb currentBandwidthMbps (medium (bandwidthThresholds (config c)))
  end.

(** [getQualityFromResolution(height)] of the collector. *)
Definition getQualityFromResolution (h : option Z) : string :=
  if falsyZ h then "unknown" else
  let height := default 0%Z h in
  if (1080 <=? height)%Z then "1080p"
  else if (720 <=? height)%Z then "720p"
  else if (480 <=? height)%Z then "480p"
  else "low".

(** Truthiness of an optional string. *)
Definition truthy (o : option string) : bool :=
  match o with
  | Some s => negb (String.eqb s "")
  | None => false
  end.

(** The two threshold tests of [generateStreamRecommendation]. *)
Definition needsDowngrade (packetLoss jitter fps : Q) : bool :=
  gtb packetLoss 3 || gtb jitter 80 || ltb fps 20.

Definition mayUpgrade (packetLoss jitter fps qualityScore : Q) : bool :=
  ltb packetLoss 1 && ltb jitter 30 && gtb fps 28 && gtb qualityScore 80.

(** The branch structure that picks [recommendedQuality] and
    [confidence]; [None] when [recommendedQuality] stays [null]. *)
Definition chooseQuality (c : Collector) (stats : Stats) (md : Metadata)
    : option (string * Q) :=
  let packetLoss := or_else (packetLossRate stats) 0 in
  let jitter := or_else (jitter stats) 0 in
  let fps := or_else (videoFps stats) 0 in
  let qualityScore := or_else (qualityScore stats) 50 in
  if needsDowngrade packetLoss jitter fps then
    let currentResolution := orZ (default 0%Z (height_of stats)) 720 in
    if (720 <? currentResolution)%Z then Some ("720p", 0.8%Q)
    else if (480 <? currentResolution)%Z then Some ("480p", 0.9%Q)
    else None
  else if mayUpgrade packetLoss jitter fps qualityScore then
    let currentResolution := orZ (default 0%Z (height_of stats)) 480 in
    if (currentResolution <? 720)%Z && canUpgradeBasedOnBandwidth c
    then Some ("720p", 0.7%Q)
    else if (currentResolution <? 1080)%Z && canUpgradeBasedOnBandwidth c
            && String.eqb (priority md) "high"
    then Some ("1080p", 0.6%Q)
    else None
  else None.

Definition cache (r : Recommendation) (c : Collector) : Collector :=
  {| config := config c;
     streamStats := streamStats c;
     historicalData := historicalData c;
     aggregatedStats := aggregatedStats c;
     networkAssessment := networkAssessment c;
     lastUpdateTime := lastUpdateTime c;
     lastRecommendations := <[streamId r := r]> (lastRecommendations c) |}.

(** [generateStreamRecommendation(stream)]: the recommendation, if any,
    and the collector with its cache updated. *)
Definition generateStreamRecommendation (stream : StreamInfo) (now : Z)
    (c : Collector) : completion (option Recommendation * Collector) :=
  let lastRecommendation := lastRecommendations c !! id stream in
  let timeSinceLastRecommendation :=
    (now - orZ (default 0 (rec_timestamp <$> lastRecommendation)) 0)%Z in
  if (timeSinceLastRecommendation <? 5000)%Z
     && truthy (lastRecommendation ≫= action)
  then Normal (None, c)
  else
    stats <- deref (currentStats stream) ;;
    match chooseQuality c stats (metadata stream) with
    | Some (recommendedQuality, confidence) =>
        let recommendation :=
          {| streamId := id stream;
             rec_type := "quality_switch";
             currentQuality := getQualityFromResolution (height_of stats);
             recommendedQuality := recommendedQuality;
             confidence := confidence;
             rec_timestamp := now;
             metrics := {| m_packetLoss := or_else (packetLossRate stats) 0;
                           m_jitter := or_else (jitter stats) 0;
                           m_fps := or_else (videoFps stats) 0;
                           m_qualityScore := or_else (qualityScore stats) 50 |};
             action := None |} in
        Normal (Some recommendation, cache recommendation c)
    | None => Normal (None, c)
    end.

(** [generateGlobalOptimization(activeStreams)] *)
Definition generateGlobalOptimization (cfg : Config) (activeStreams : list StreamInfo)
    (now : Z) : completion (option GlobalRecommendation) :=
  if (Z.of_nat (length activeStreams) <? 2)%Z then Normal None else
  stats <- mapC (fun s => deref (currentStats s)) activeStreams ;;
  let totalBandwidth := sumQ ((fun s => or_else (videoBitrate s) 0) <$> stats) in
  let bandwidthMbps := (totalBandwidth / 1000)%Q in
  if gtb bandwidthMbps (high (bandwidthThresholds cfg)) then
    Normal (Some {| g_type := "global_optimization"; g_action := "reduce_quality";
                    g_confidence := 0.9; g_timestamp := now |})
  else if ltb bandwidthMbps (low (bandwidthThresholds cfg))
          && (Z.of_nat (length activeStreams) <=? 4)%Z then
    let lowQualityStreams :=
      List.filter (fun s => (orZ (default 0%Z (height_of s)) 480 <? 720)%Z) stats in
    if (0 <? Z.of_nat (length lowQualityStreams))%Z then
      Normal (Some {| g_type := "global_optimization"; g_action := "improve_quality";
                      g_confidence := 0.7; g_timestamp := now |})
    else Normal None
  else Normal None.

(** An entry of the array [generateQualityRecommendations] returns. *)
Inductive Advice :=
| ForStream (r : Recommendation)
| Global (g : GlobalRecommendation).

(** The [forEach] of [generateQualityRecommendations]. *)
Fixpoint streamRecommendations (activeStreams : list StreamInfo) (now : Z)
    (c : Collector) : completion (list Advice * Collector) :=
  match activeStreams with
  | [] => Normal ([], c)
  | stream :: rest =>
      rc <- generateStreamRecommendation stream now c ;;
      rs <- streamRecommendations rest now (snd rc) ;;
      Normal (match fst rc with
              | Some r => ForStream r :: fst rs
              | None => fst rs
              end, snd rs)
  end.

(** [generateQualityRecommendations(activeStreams)] *)
Definition generateQualityRecommendations (activeStreams : list StreamInfo)
    (now : Z) (c : Collector) : completion (list Advice * Collector) :=
  rs <- streamRecommendations activeStreams now c ;;
  g <- generateGlobalOptimization (config c) activeStreams now ;;
  Normal (match g with
          | Some globalRecommendation => fst rs ++ [Global globalRecommendation]
          | None => fst rs
          end, snd rs).

(** The payload of the [statsUpdate] event. *)
Record StatsUpdate := {
  su_timestamp : Z;
  su_activeStreams : Z;
  su_aggregated : AggregatedStats;
  su_network : NetworkAssessment;
  su_recommendations : list Advice
}.

(** [collectAndAnalyze()]: the event published, if any, and the
    collector afterwards. *)
Definition collectAndAnalyze (now : Z) (c : Collector)
    : completion (option StatsUpdate * Collector) :=
  let activeStreams := getActiveStreams c in
  match activeStreams with
  | [] => Normal (None, c)
  | _ =>
      agg <- generateAggregatedStats activeStreams ;;
      net <- assessNetworkConditions (config c) activeStreams ;;
      let c1 := {| config := config c;
                   streamStats := streamStats c;
                   historicalData := historicalData c;
                   aggregatedStats := Some agg;
                   networkAssessment := Some net;
                   lastUpdateTime := lastUpdateTime c;
                   lastRecommendations := lastRecommendations c |} in
      rs <- generateQualityRecommendations activeStreams now c1 ;;
      let c2 := snd rs in
      Normal (Some {| su_timestamp := now;
                      su_activeStreams := Z.of_nat (length activeStreams);
                      su_aggregated := agg;
                      su_network := net;
                      su_recommendations := fst rs |},
              {| config := config c2;
                 streamStats := streamStats c2;
                 historicalData := historicalData c2;
                 aggregatedStats := aggregatedStats c2;
                 networkAssessment := networkAssessment c2;
                 lastUpdateTime := now;
                 lastRecommendations := lastRecommendations c2 |})
  end.

(** [destroy()] *)
Definition destroy (c : Collector) : Collector :=
  {| config := config c;
     streamStats := [];
     historicalData := ∅;
     aggregatedStats := aggregatedStats c;
     networkAssessment := networkAssessment c;
     lastUpdateTime := lastUpdateTime c;
     lastRecommendations := ∅ |}.

End MultiStreamStatsCollector.

(** ** [SmartQualityController] (js/smart-quality-controller.js) *)

Module SmartQualityController.
Import JS Telemetry.
Local Open Scope Z_scope.

Record Profile := {
  p_width : Z; p_height : Z; bitrate : Q; minBandwidth : Q; p_priority : Z
}.

(** A [layoutStrategies] entry; [single] defines no primaryStreamQuality. *)
Record LayoutStrategy := {
  maxQuality : string;
  preferredQuality : string;
  primaryStreamQuality : option string;
  fallbackStrategy : string
}.

Record LayoutStrategies := {
  single : LayoutStrategy;
  grid4 : LayoutStrategy;
  grid9 : LayoutStrategy
}.

Record Config := {
  qualityProfiles : list (string * Profile);
  layoutStrategies : LayoutStrategies;
  switchCooldown : Z;
  stabilityPeriod : Z
}.

Definition default_config : Config :=
  {| qualityProfiles :=
       [("1080p", {| p_width := 1920; p_height := 1080; bitrate := 4000;
                     minBandwidth := 5.0; p_priority := 4 |});
        ("720p", {| p_width := 1280; p_height := 720; bitrate := 2500;
                    minBandwidth := 3.0; p_priority := 3 |});
        ("480p", {| p_width := 854; p_height := 480; bitrate := 1200;
                    minBandwidth := 1.5; p_priority := 2 |});
        ("360p", {| p_width := 640; p_height := 360; bitrate := 800;
                    minBandwidth := 1.0; p_priority := 1 |})];
     layoutStrategies :=
       {| single := {| maxQuality := "1080p"; preferredQuality := "1080p";
                       primaryStreamQuality := None;
                       fallbackStrategy := "graceful_degradation" |};
          grid4 := {| maxQuality := "720p"; preferredQuality := "720p";
                      primaryStreamQuality := Some "1080p";
                      fallbackStrategy := "mixed_quality" |};
          grid9 := {| maxQuality := "480p"; preferredQuality := "480p";
                      primaryStreamQuality := Some "720p";
                      fallbackStrategy := "uniform_quality" |} |};
     switchCooldown := 10000;
     stabilityPeriod := 5000 |}.

(** [this.config.layoutStrategies[layout]] *)
Definition strategyFor (cfg : Config) (layout : string) : option LayoutStrategy :=
  if String.eqb layout "single" then Some (single (layoutStrategies cfg))
  else if String.eqb layout "grid4" then Some (grid4 (layoutStrategies cfg))
  else if String.eqb layout "grid9" then Some (grid9 (layoutStrategies cfg))
  else None.

Record PerformanceMetrics := {
  successfulSwitches : Z;
  failedSwitches : Z;
  userOverrides : Z
}.

Record Strategy := {
  strategy_type : string;
  strategy_priority : string;
  strategy_confidence : Q
}.

Record Decision := {
  d_timestamp : Z;
  d_layout : string;
  d_strategy : Strategy;
  d_recommendationCount : Z;
  d_networkLevel : option Level;
  d_performanceLevel : Level
}.

Inductive NetworkMonitor := network_monitor.

(** The controller's own fields.  [this.multiStreamStats] is a reference
    to a live collector: the operations that read it take the collector's
    current state as the argument [mss]. *)
Record Controller := {
  config : Config;
  networkMonitor : option NetworkMonitor;
  currentLayout : string;
  primaryIndex : Z;
  lastSwitchTimes : gmap string Z;
  userPreferences : gmap string (string * Z);
  decisionHistory : list Decision;
  performanceMetrics : PerformanceMetrics
}.

Definition new (cfg : Config) : Controller :=
  {| config := cfg;
     networkMonitor := None;
     currentLayout := "single";
     primaryIndex := 0;
     lastSwitchTimes := ∅;
     userPreferences := ∅;
     decisionHistory := [];
     performanceMetrics := {| successfulSwitches := 0; failedSwitches := 0;
                              userOverrides := 0 |} |}.

Definition setNetworkMonitor (m : NetworkMonitor) (ctl : Controller) : Controller :=
  {| config := config ctl; networkMonitor := Some m;
     currentLayout := currentLayout ctl; primaryIndex := primaryIndex ctl;
     lastSwitchTimes := lastSwitchTimes ctl; userPreferences := userPreferences ctl;
     decisionHistory := decisionHistory ctl;
     performanceMetrics := performanceMetrics ctl |}.

(** [updateLayout(layout)] *)
Definition updateLayout (layout : string) (ctl : Controller) : Controller :=
  {| config := config ctl; networkMonitor := networkMonitor ctl;
     currentLayout := layout; primaryIndex := primaryIndex ctl;
     lastSwitchTimes := lastSwitchTimes ctl; userPreferences := userPreferences ctl;
     decisionHistory := decisionHistory ctl;
     performanceMetrics := performanceMetrics ctl |}.

(** [setPrimaryIndex(index)] *)
Definition setPrimaryIndex (index : Z) (ctl : Controller) : Controller :=
  {| config := config ctl; networkMonitor := networkMonitor ctl;
     currentLayout := currentLayout ctl; primaryIndex := index;
     lastSwitchTimes := lastSwitchTimes ctl; userPreferences := userPreferences ctl;
     decisionHistory := decisionHistory ctl;
     performanceMetrics := performanceMetrics ctl |}.

(** *** The quality ladder *)

Definition qualityOrder : list string := ["360p"; "480p"; "720p"; "1080p"].

(** [upgradeQuality(currentQuality)] *)
Definition upgradeQuality (currentQuality : string) : string :=
  let currentIndex := indexOf qualityOrder currentQuality in
  if (0 <=? currentIndex)%Z && (currentIndex <? Z.of_nat (length qualityOrder) - 1)%Z
  then default currentQuality (at_index qualityOrder (currentIndex + 1))
  else currentQuality.

(** [downgradeQuality(currentQuality, levels = 1)] *)
Definition downgradeQuality (currentQuality : string) (levels : Z) : string :=
  let currentIndex := indexOf qualityOrder currentQuality in
  if (0 <=? currentIndex)%Z then
    let newIndex := Z.max 0 (currentIndex - levels) in
    default currentQuality (at_index qualityOrder newIndex)
  else currentQuality.

(** [validateQuality(quality)] *)
Definition validateQuality (cfg : Config) (quality : string) : string :=
  let validQualities := fst <$> qualityProfiles cfg in
  if (0 <=? indexOf validQualities quality)%Z then quality else "480p".

(** [getQualityFromResolution(height)] of the controller. *)
Definition getQualityFromResolution (h : option Z) : string :=
  if falsyZ h then "480p" else
  let height := default 0%Z h in
  if (1080 <=? height)%Z then "1080p"
  else if (720 <=? height)%Z then "720p"
  else if (480 <=? height)%Z then "480p"
  else "360p".

(** [networkQualityMap[networkLevel]]: (adjustment, canUpgrade). *)
Definition networkQualityMap (l : Level) : Z * bool :=
  match l with
  | excellent => (1, true)
  | good => (0, false)
  | fair => (-1, false)
  | poor => (-2, false)
  end.

(** [determineOptimalQuality(baseQuality, networkAssessment, {isPrimary})] *)
Definition determineOptimalQuality (cfg : Config) (baseQuality : string)
    (networkAssessment : option NetworkAssessment) (isPrimary : bool) : string :=
  match networkAssessment with
  | None => baseQuality
  | Some na =>
      let '(adjustment, canUpgrade) := networkQualityMap (overall na) in
      let targetQuality :=
        if (0 <? adjustment)%Z && canUpgrade && isPrimary
        then upgradeQuality baseQuality
        else if (adjustment <? 0)%Z
        then downgradeQuality baseQuality (Z.abs adjustment)
        else baseQuality in
      validateQuality cfg targetQuality
  end.

(** [getBestQualityForNetwork(networkAssessment)] *)
Definition getBestQualityForNetwork (networkAssessment : option NetworkAssessment)
    : string :=
  match networkAssessment with
  | None => "720p"
  | Some na =>
      let bandwidthMbps := or_else (totalBandwidthUsage (net_metrics na)) 0 in
      match overall na with
      | excellent => if ltb bandwidthMbps 5 then "1080p" else "720p"
      | good => "720p"
      | fair => "480p"
      | poor => "360p"
      end
  end.

(** *** Layout tiering *)

Record QualityTiers := { tier0 : string; tier1 : string; tier2 : string }.

(** [calculateQualityTiers(streamCount, networkAssessment)] *)
Definition calculateQualityTiers (streamCount : Z)
    (networkAssessment : option NetworkAssessment) : QualityTiers :=
  let network := default fair (overall <$> networkAssessment) in
  match network with
  | excellent | good => {| tier0 := "720p"; tier1 := "480p"; tier2 := "360p" |}
  | fair | poor => {| tier0 := "480p"; tier1 := "360p"; tier2 := "360p" |}
  end.

(** [qualityTiers[tier]] *)
Definition tierQuality (t : QualityTiers) (tier : string) : option string :=
  if String.eqb tier "tier0" then Some (tier0 t)
  else if String.eqb tier "tier1" then Some (tier1 t)
  else if String.eqb tier "tier2" then Some (tier2 t)
  else None.

(** [getStreamTier(streamIndex)] *)
Definition getStreamTier (ctl : Controller) (streamIndex : Z) : string :=
  if (streamIndex =? primaryIndex ctl)%Z then "tier0"
  else if String.eqb (currentLayout ctl) "single" then "tier0"
  else if String.eqb (currentLayout ctl) "grid4" then "tier1"
  else if String.eqb (currentLayout ctl) "grid9"
  then (if (streamIndex <? 4)%Z then "tier1" else "tier2")
  else "tier1".

(** An entry of a bucket of the batch, or of a layout optimisation list.
    A key the literal does not define is [None]. *)
Record Item := {
  item_type : string;
  streamIndex : Z;
  streamId : option string;
  currentQuality : option string;
  recommendedQuality : option string;
  confidence : option Q;
  item_timestamp : option Z;
  tier : option string
}.

Definition layoutItem (type : string) (index : Z) (quality : option string)
    (tier : option string) : Item :=
  {| item_type := type; streamIndex := index; streamId := None;
     currentQuality := None; recommendedQuality := quality;
     confidence := None; item_timestamp := None; tier := tier |}.

(** [determineOptimalQuality] applied to a strategy entry that may be
    undefined: [indexOf(undefined)] is -1 and [validateQuality(undefined)]
    is '480p'. *)
Definition optimalQualityOf (cfg : Config) (baseQuality : option string)
    (networkAssessment : option NetworkAssessment) (isPrimary : bool)
    : option string :=
  match baseQuality with
  | Some q => Some (determineOptimalQuality cfg q networkAssessment isPrimary)
  | None => match networkAssessment with
            | None => None
            | Some _ => Some "480p"
            end
  end.

(** [optimizeGrid4Layout(activeStreams, networkAssessment)] *)
Definition optimizeGrid4Layout (ctl : Controller) (activeStreams : list StreamInfo)
    (networkAssessment : option NetworkAssessment) : list Item :=
  let strategy := grid4 (layoutStrategies (config ctl)) in
  let len := Z.of_nat (length activeStreams) in
  let primary := Z.min (primaryIndex ctl) (Z.max 0 (len - 1)) in
  let primaryItems :=
    if (0 <? len)%Z then
      [layoutItem "primary_stream_quality" primary
         (optimalQualityOf (config ctl) (primaryStreamQuality strategy)
            networkAssessment true) None]
    else [] in
  let others :=
    List.filter (fun i => negb (i =? primary)%Z)
      (Z.of_nat <$> seq 0 (Nat.min 4 (length activeStreams))%nat) in
  let secondary (i : Z) :=
    layoutItem "secondary_stream_quality" i
      (Some (determineOptimalQuality (config ctl) (preferredQuality strategy)
               networkAssessment false)) None in
  primaryItems ++ (secondary <$> others).

(** [optimizeGrid9Layout(activeStreams, networkAssessment)] *)
Definition optimizeGrid9Layout (ctl : Controller) (activeStreams : list StreamInfo)
    (networkAssessment : option NetworkAssessment) : list Item :=
  let strategy := grid9 (layoutStrategies (config ctl)) in
  let qualityTiers :=
    calculateQualityTiers (Z.of_nat (length activeStreams)) networkAssessment in
  let item (i : Z) :=
    let tier := getStreamTier ctl i in
    let recommendedQuality :=
      match tierQuality qualityTiers tier with
      | Some q => if String.eqb q "" then preferredQuality strategy else q
      | None => preferredQuality strategy
      end in
    layoutItem "multi_stream_optimization" i (Some recommendedQuality) (Some tier) in
  item <$> (Z.of_nat <$> seq 0 (Nat.min 9 (length activeStreams))%nat).

(** [generateLayoutOptimizations(layout)] *)
Definition generateLayoutOptimizations (ctl : Controller)
    (mss : option MultiStreamStatsCollector.Collector) (layout : string) : list Item :=
  match strategyFor (config ctl) layout, mss with
  | Some strategy, Some collector =>
      let activeStreams := MultiStreamStatsCollector.getActiveStreams collector in
      let networkAssessment := MultiStreamStatsCollector.networkAssessment collector in
      if String.eqb layout "single" then
        [layoutItem "single_stream_optimization" 0
           (Some (getBestQualityForNetwork networkAssessment)) None]
      else if String.eqb layout "grid4" then
        optimizeGrid4Layout ctl activeStreams networkAssessment
      else if String.eqb layout "grid9" then
        optimizeGrid9Layout ctl activeStreams networkAssessment
      else []
  | _, _ => []
  end.

(** *** Performance analysis *)

(** The object [generateStreamRecommendation(stream, index)] returns. *)
Record StreamRec := {
  sr_streamIndex : Z;
  sr_streamId : string;
  sr_currentQuality : string;
  sr_recommendedQuality : string;
  sr_confidence : Q;
  sr_timestamp : Z
}.

Definition nonEmpty (s : string) : bool := negb (String.eqb s "").

(** [generateStreamRecommendation(stream, index)] of the controller. *)
Definition generateStreamRecommendation (ctl : Controller) (stream : StreamInfo)
    (index : Z) (now : Z) : option StreamRec :=
  match currentStats stream with
  | None => None
  | Some stats =>
      let lastSwitchTime :=
        MultiStreamStatsCollector.orZ (default 0 (lastSwitchTimes ctl !! id stream)) 0 in
      if now - lastSwitchTime <? switchCooldown (config ctl) then None else
      let current := getQualityFromResolution (height_of stats) in
      let choice :=
        if gtb (packetLossRate stats) 3 then Some (downgradeQuality current 1, 0.9%Q)
        else if gtb (jitter stats) 100 then Some (downgradeQuality current 1, 0.8%Q)
        else if ltb (videoFps stats) 15 then Some (downgradeQuality current 1, 0.85%Q)
        else None in
      match choice with
      | Some (recommendedQuality, confidence) =>
          if nonEmpty recommendedQuality then
            Some {| sr_streamIndex := index;
                    sr_streamId := id stream;
                    sr_currentQuality := current;
                    sr_recommendedQuality := recommendedQuality;
                    sr_confidence := confidence;
                    sr_timestamp := now |}
          else None
      | None => None
      end
  end.

(** [activeStreams.forEach((stream, index) => ...)] restricted to the
    streams that pass [if (!stats) return]. *)
Definition withStats (activeStreams : list StreamInfo) : list (Z * StreamInfo * Stats) :=
  omap (fun x => x)
    (imap (fun i s => (fun st => (Z.of_nat i, s, st)) <$> currentStats s) activeStreams).

(** The test that identifies a problem stream. *)
Definition isProblem (stats : Stats) : bool :=
  gtb (packetLossRate stats) 2 || gtb (jitter stats) 80 || ltb (videoFps stats) 20.

(** [calculateBandwidthEfficiency(activeStreams)] *)
Definition calculateBandwidthEfficiency (cfg : Config) (activeStreams : list StreamInfo)
    : Z :=
  let counted :=
    List.filter (fun x => match resolution x.2 with Some _ => true | None => false end)
      (withStats activeStreams) in
  let actualBandwidth :=
    MultiStreamStatsCollector.sumQ ((fun x => or_else (videoBitrate x.2) 0) <$> counted) in
  let theoreticalBandwidth :=
    MultiStreamStatsCollector.sumQ
      ((fun x => match map_get (getQualityFromResolution (height_of x.2))
                               (qualityProfiles cfg) with
                 | Some profile => bitrate profile
                 | None => 0%Q
                 end) <$> counted) in
  if Qeq_bool theoreticalBandwidth 0 then 100
  else Z.min 100 (Math_round (actualBandwidth / theoreticalBandwidth * 100)).

Record AnalysisMetrics := {
  pm_averageQualityScore : Z;
  problemStreams : Z;
  bandwidthEfficiency : Z
}.

Record PerformanceAnalysis := {
  pa_overall : Level;
  issues : list Z;             (* the stream numbers reported *)
  pa_recommendations : list StreamRec;
  pa_metrics : AnalysisMetrics
}.

Definition classifyPerformance (problemStreams avg : Z) : Level :=
  if (problemStreams =? 0) && (80 <? avg) then excellent
  else if (problemStreams <=? 1) && (60 <? avg) then good
  else if (problemStreams <=? 2) && (40 <? avg) then fair
  else poor.

(** [analyzeCurrentPerformance(activeStreams)] *)
Definition analyzeCurrentPerformance (ctl : Controller)
    (activeStreams : list StreamInfo) (now : Z) : PerformanceAnalysis :=
  match activeStreams with
  | [] =>
      {| pa_overall := good; issues := []; pa_recommendations := [];
         pa_metrics := {| pm_averageQualityScore := 0; problemStreams := 0;
                          bandwidthEfficiency := 0 |} |}
  | _ =>
      let seen := withStats activeStreams in
      let totalQualityScore :=
        MultiStreamStatsCollector.sumQ
          ((fun x => or_else (qualityScore x.2) 50) <$> seen) in
      let problems := List.filter (fun x => isProblem x.2) seen in
      let problemStreams := Z.of_nat (length problems) in
      let avg :=
        Math_round (totalQualityScore / MultiStreamStatsCollector.lengthQ activeStreams) in
      {| pa_overall := classifyPerformance problemStreams avg;
         issues := (fun x => x.1.1 + 1) <$> problems;
         pa_recommendations :=
           omap (fun x => generateStreamRecommendation ctl x.1.2 x.1.1 now) problems;
         pa_metrics :=
           {| pm_averageQualityScore := avg;
              problemStreams := problemStreams;
              bandwidthEfficiency :=
                calculateBandwidthEfficiency (config ctl) activeStreams |} |}
  end.

(** *** Strategy, priority and confidence of a batch *)

(** [determineOptimizationStrategy(performanceAnalysis, networkAssessment)] *)
Definition level_eqb (a b : Level) : bool :=
  match a, b with
  | excellent, excellent | good, good | fair, fair | poor, poor => true
  | _, _ => false
  end.

Definition determineOptimizationStrategy (performanceAnalysis : PerformanceAnalysis)
    (networkAssessment : option NetworkAssessment) : string :=
  let networkLevel := default fair (overall <$> networkAssessment) in
  let performanceLevel := pa_overall performanceAnalysis in
  if level_eqb networkLevel poor
     || (2 <? problemStreams (pa_metrics performanceAnalysis))
  then "emergency_downgrade"
  else if level_eqb networkLevel fair || level_eqb performanceLevel fair
  then "conservative_optimization"
  else if level_eqb networkLevel excellent && level_eqb performanceLevel excellent
  then "quality_enhancement"
  else "balanced_optimization".

(** [calculateOptimizationPriority(performanceAnalysis)] *)
Definition calculateOptimizationPriority (performanceAnalysis : PerformanceAnalysis)
    : string :=
  if 2 <? problemStreams (pa_metrics performanceAnalysis) then "high"
  else if 0 <? problemStreams (pa_metrics performanceAnalysis) then "medium"
  else "low".

(** [getHistoricalSuccessRate()] *)
Definition getHistoricalSuccessRate (ctl : Controller) : Q :=
  let m := performanceMetrics ctl in
  let totalSwitches := successfulSwitches m + failedSwitches m in
  if totalSwitches =? 0 then 0.5%Q
  else (inject_Z (successfulSwitches m) / inject_Z totalSwitches)%Q.

(** [Math.min(1, Math.max(0, x))] *)
Definition clamp01 (x : Q) : Q := Math_min 1 (Math_max 0 x).

(** [calculateRecommendationConfidence(performanceAnalysis, networkAssessment)];
    reading [performanceAnalysis.metrics] of a missing analysis throws. *)
Definition calculateRecommendationConfidence (ctl : Controller)
    (performanceAnalysis : option PerformanceAnalysis)
    (networkAssessment : option NetworkAssessment) : completion Q :=
  let c0 := 0.5%Q in
  let c1 :=
    match performanceAnalysis, networkAssessment with
    | Some _, Some _ => (c0 + 0.2)%Q
    | _, _ => c0
    end in
  pa <- deref performanceAnalysis ;;
  let c2 := if 0 <? problemStreams (pa_metrics pa) then (c1 + 0.2)%Q else c1 in
  let successRate := getHistoricalSuccessRate ctl in
  let c3 := (c2 + (successRate - 0.5) * 0.2)%Q in
  Normal (clamp01 c3).

(** *** The batch and its buckets *)

Record Buckets := {
  immediate : list Item;
  gradual : list Item;
  fallback : list Item
}.

Record BatchRecommendation := {
  timestamp : Z;
  layout : string;
  totalStreams : Z;
  networkAssessment : option NetworkAssessment;
  performanceAnalysis : PerformanceAnalysis;
  recommendations : Buckets;
  strategy : Strategy
}.

(** [batchRecommendation.recommendations[bucket].push(item)] *)
Definition push (bucket : string) (item : Item) (b : Buckets) : Buckets :=
  if String.eqb bucket "immediate" then
    {| immediate := immediate b ++ [item]; gradual := gradual b; fallback := fallback b |}
  else if String.eqb bucket "gradual" then
    {| immediate := immediate b; gradual := gradual b ++ [item]; fallback := fallback b |}
  else
    {| immediate := immediate b; gradual := gradual b; fallback := fallback b ++ [item] |}.

(** The streams of [activeStreams.forEach((stream, index) => ...)]. *)
Definition indexed (activeStreams : list StreamInfo) : list (Z * StreamInfo) :=
  imap (fun i s => (Z.of_nat i, s)) activeStreams.

Definition streamItem (type : string) (index : Z) (currentQuality recommendedQuality : string)
    (confidence : Q) : Item :=
  {| item_type := type; streamIndex := index; streamId := None;
     currentQuality := Some currentQuality;
     recommendedQuality := Some recommendedQuality;
     confidence := Some confidence; item_timestamp := None; tier := None |}.

(** The literal pushed by [generateEmergencyRecommendations] for one stream. *)
Definition emergencyItem (x : Z * StreamInfo) : Item :=
  let currentQuality := getQualityFromResolution (currentStats x.2 ≫= height_of) in
  let emergencyQuality := downgradeQuality currentQuality 2 in
  streamItem "emergency_quality_reduction" x.1 currentQuality emergencyQuality 0.95.

(** [generateEmergencyRecommendations(batchRecommendation, activeStreams)] *)
Definition generateEmergencyRecommendations (b : Buckets)
    (activeStreams : list StreamInfo) : Buckets :=
  fold_left (fun acc x => push "immediate" (emergencyItem x) acc) (indexed activeStreams) b.

(** [generateConservativeRecommendations(batchRecommendation, activeStreams)] *)
Definition generateConservativeRecommendations (b : Buckets)
    (activeStreams : list StreamInfo) : Buckets :=
  fold_left
    (fun acc x =>
       match currentStats x.2 with
       | None => acc
       | Some stats =>
           if gtb (packetLossRate stats) 2 || gtb (jitter stats) 60 then
             let currentQuality := getQualityFromResolution (height_of stats) in
             let conservativeQuality := downgradeQuality currentQuality 1 in
             push "gradual"
               (streamItem "conservative_optimization" x.1 currentQuality
                  conservativeQuality 0.8) acc
           else acc
       end)
    (indexed activeStreams) b.

(** [generateEnhancementRecommendations(batchRecommendation, activeStreams)] *)
Definition generateEnhancementRecommendations (b : Buckets)
    (activeStreams : list StreamInfo) : Buckets :=
  fold_left
    (fun acc x =>
       match currentStats x.2 with
       | None => acc
       | Some stats =>
           if ltb (packetLossRate stats) 1 && ltb (jitter stats) 30
              && gtb (videoFps stats) 28 then
             let currentQuality := getQualityFromResolution (height_of stats) in
             let enhancedQuality := upgradeQuality currentQuality in
             if negb (String.eqb enhancedQuality currentQuality) then
               push "gradual"
                 (streamItem "quality_enhancement" x.1 currentQuality
                    enhancedQuality 0.7) acc
             else acc
           else acc
       end)
    (indexed activeStreams) b.

(** [determineRecommendationType(recommendation)] *)
Definition determineRecommendationType (recommendation : StreamRec) : string :=
  if gtb (sr_confidence recommendation) 0.8 then "immediate"
  else if gtb (sr_confidence recommendation) 0.6 then "gradual"
  else "fallback".

(** [{...recommendation, type: 'balanced_optimization'}] *)
Definition balancedItem (r : StreamRec) : Item :=
  {| item_type := "balanced_optimization"; streamIndex := sr_streamIndex r;
     streamId := Some (sr_streamId r);
     currentQuality := Some (sr_currentQuality r);
     recommendedQuality := Some (sr_recommendedQuality r);
     confidence := Some (sr_confidence r);
     item_timestamp := Some (sr_timestamp r); tier := None |}.

(** [generateBalancedRecommendations(batchRecommendation, activeStreams)] *)
Definition generateBalancedRecommendations (ctl : Controller) (b : Buckets)
    (activeStreams : list StreamInfo) (now : Z) : Buckets :=
  fold_left
    (fun acc x =>
       match generateStreamRecommendation ctl x.2 x.1 now with
       | Some recommendation =>
           push (determineRecommendationType recommendation)
                (balancedItem recommendation) acc
       | None => acc
       end)
    (indexed activeStreams) b.

(** [populateRecommendations(batchRecommendation, activeStreams, layoutOptimizations)] *)
Definition populateRecommendations (ctl : Controller) (strategyType : string)
    (b : Buckets) (activeStreams : list StreamInfo) (layoutOptimizations : list Item)
    (now : Z) : Buckets :=
  let b' :=
    if String.eqb strategyType "emergency_downgrade" then
      generateEmergencyRecommendations b activeStreams
    else if String.eqb strategyType "conservative_optimization" then
      generateConservativeRecommendations b activeStreams
    else if String.eqb strategyType "quality_enhancement" then
      generateEnhancementRecommendations b activeStreams
    else generateBalancedRecommendations ctl b activeStreams now in
  {| immediate := immediate b';
     gradual := gradual b' ++ layoutOptimizations;
     fallback := fallback b' |}.

(** [recordDecision(decision)] *)
Definition recordDecision (decision : BatchRecommendation) (ctl : Controller) : Controller :=
  let entry :=
    {| d_timestamp := timestamp decision;
       d_layout := layout decision;
       d_strategy := strategy decision;
       d_recommendationCount :=
         Z.of_nat (length (immediate (recommendations decision)))
         + Z.of_nat (length (gradual (recommendations decision)));
       d_networkLevel := overall <$> networkAssessment decision;
       d_performanceLevel := pa_overall (performanceAnalysis decision) |} in
  let h := decisionHistory ctl ++ [entry] in
  {| config := config ctl; networkMonitor := networkMonitor ctl;
     currentLayout := currentLayout ctl; primaryIndex := primaryIndex ctl;
     lastSwitchTimes := lastSwitchTimes ctl; userPreferences := userPreferences ctl;
     decisionHistory := if 100 <? Z.of_nat (length h) then tail h else h;
     performanceMetrics := performanceMetrics ctl |}.

(** [generateBatchRecommendations()]: the batch, or [None] for [null], and
    the controller with the decision recorded. *)
Definition generateBatchRecommendations (ctl : Controller)
    (mss : option MultiStreamStatsCollector.Collector) (now : Z)
    : completion (option BatchRecommendation * Controller) :=
  match mss, networkMonitor ctl with
  | Some collector, Some _ =>
      let activeStreams := MultiStreamStatsCollector.getActiveStreams collector in
      let networkAssessment := MultiStreamStatsCollector.networkAssessment collector in
      match activeStreams with
      | [] => Normal (None, ctl)
      | _ =>
          let performanceAnalysis := analyzeCurrentPerformance ctl activeStreams now in
          let layoutOptimizations :=
            generateLayoutOptimizations ctl mss (currentLayout ctl) in
          let type := determineOptimizationStrategy performanceAnalysis networkAssessment in
          confidence <- calculateRecommendationConfidence ctl (Some performanceAnalysis)
                          networkAssessment ;;
          let batchRecommendation :=
            {| timestamp := now;
               layout := currentLayout ctl;
               totalStreams := Z.of_nat (length activeStreams);
               networkAssessment := networkAssessment;
               performanceAnalysis := performanceAnalysis;
               recommendations :=
                 populateRecommendations ctl type
                   {| immediate := []; gradual := []; fallback := [] |}
                   activeStreams layoutOptimizations now;
               strategy :=
                 {| strategy_type := type;
                    strategy_priority := calculateOptimizationPriority performanceAnalysis;
                    strategy_confidence := confidence |} |} in
          Normal (Some batchRecommendation, recordDecision batchRecommendation ctl)
      end
  | _, _ => Normal (None, ctl)
  end.

(** *** Outcome reports *)

(** [reportSwitchResult(streamId, success, details)] *)
Definition reportSwitchResult (streamId : string) (success : bool) (now : Z)
    (ctl : Controller) : Controller :=
  let m := performanceMetrics ctl in
  {| config := config ctl; networkMonitor := networkMonitor ctl;
     currentLayout := currentLayout ctl; primaryIndex := primaryIndex ctl;
     lastSwitchTimes := <[streamId := now]> (lastSwitchTimes ctl);
     userPreferences := userPreferences ctl;
     decisionHistory := decisionHistory ctl;
     performanceMetrics :=
       if success then
         {| successfulSwitches := successfulSwitches m + 1;
            failedSwitches := failedSwitches m;
            userOverrides := userOverrides m |}
       else
         {| successfulSwitches := successfulSwitches m;
            failedSwitches := failedSwitches m + 1;
            userOverrides := userOverrides m |} |}.

(** [recordUserPreference(streamId, quality)] *)
Definition recordUserPreference (streamId : string) (quality : string) (now : Z)
    (ctl : Controller) : Controller :=
  let m := performanceMetrics ctl in
  {| config := config ctl; networkMonitor := networkMonitor ctl;
     currentLayout := currentLayout ctl; primaryIndex := primaryIndex ctl;
     lastSwitchTimes := lastSwitchTimes ctl;
     userPreferences := <[streamId := (quality, now)]> (userPreferences ctl);
     decisionHistory := decisionHistory ctl;
     performanceMetrics :=
       {| successfulSwitches := successfulSwitches m;
          failedSwitches := failedSwitches m;
          userOverrides := userOverrides m + 1 |} |}.

(** [destroy()] *)
Definition destroy (ctl : Controller) : Controller :=
  {| config := config ctl; networkMonitor := networkMonitor ctl;
     currentLayout := currentLayout ctl; primaryIndex := primaryIndex ctl;
     lastSwitchTimes := ∅; userPreferences := ∅; decisionHistory := [];
     performanceMetrics := performanceMetrics ctl |}.

End SmartQualityController.

(** * Scenarios

    Concrete streams, collectors and controllers on which the operations
    above are run. *)

Module MSS := MultiStreamStatsCollector.
Module SQC := SmartQualityController.
Import JS Telemetry.

Module Scenario.

Definition no_metadata : MSS.MetadataArg :=
  {| MSS.arg_viewIndex := None; MSS.arg_quality := None; MSS.arg_priority := None |}.

(** [addStream] followed by one telemetry callback of the stream. *)
Definition register (streamId : string) (now : Z) (c : MSS.Collector) : MSS.Collector :=
  match MSS.addStream streamId no_metadata now c with
  | Normal c' => c'
  | Throw _ => c
  end.

Definition raw (kbps fps : Q) (h : Z) (loss jitter : Q) : RawStats :=
  {| raw_videoBitrate := kbps; raw_videoFps := fps;
     raw_resolution := Some {| width := h * 16 / 9; height := h |};
     raw_packetLossRate := loss; raw_jitter := jitter |}.

Definition feed (streamId : string) (r : RawStats) (status : string) (score : Q)
    (now : Z) (c : MSS.Collector) : MSS.Collector :=
  MSS.updateStreamStats streamId r {| status := status; score := score |} now c.

(** One analysis cycle; an abrupt completion leaves the collector as it was. *)
Definition cycle (now : Z) (c : MSS.Collector) : MSS.Collector :=
  match MSS.collectAndAnalyze now c with
  | Normal (_, c') => c'
  | Throw _ => c
  end.

Definition controller : SQC.Controller :=
  SQC.setNetworkMonitor SQC.network_monitor (SQC.new SQC.default_config).

(** Three streams, two of them in trouble: the network is assessed poor. *)
Definition poor_collector : MSS.Collector :=
  cycle 1003000
    (feed "view_2" (raw 600 30 480 0.2 10) "excellent" 100 1002000
    (feed "view_1" (raw 900 25 720 5 90) "fair" 45 1002000
    (feed "view_0" (raw 1500 12 1080 6 120) "poor" 5 1002000
    (register "view_2" 1001000 (register "view_1" 1001000 (register "view_0" 1001000
      (MSS.new MSS.default_config 1000000))))))).

(** Seven streams, three of them losing 2.5% of their packets and nothing
    else wrong. *)
Definition lossy_collector : MSS.Collector :=
  cycle 1003000
    (feed "view_6" (raw 300 30 360 0 10) "excellent" 100 1002000
    (feed "view_5" (raw 300 30 360 0 10) "excellent" 100 1002000
    (feed "view_4" (raw 300 30 360 0 10) "excellent" 100 1002000
    (feed "view_3" (raw 300 30 360 0 10) "excellent" 100 1002000
    (feed "view_2" (raw 300 30 360 2.5 10) "good" 80 1002000
    (feed "view_1" (raw 300 30 360 2.5 10) "good" 80 1002000
    (feed "view_0" (raw 300 30 360 2.5 10) "good" 80 1002000
    (register "view_6" 1001000 (register "view_5" 1001000
    (register "view_4" 1001000 (register "view_3" 1001000
    (register "view_2" 1001000 (register "view_1" 1001000
    (register "view_0" 1001000
      (MSS.new MSS.default_config 1000000))))))))))))))).

(** One stream at 1080p losing 4% of its packets. *)
Definition single_collector : MSS.Collector :=
  cycle 1003000
    (feed "view_0" (raw 2500 25 1080 4 20) "good" 70 1002000
    (register "view_0" 1001000 (MSS.new MSS.default_config 1000000))).

(** A controller that has seen one successful switch of [view_0]. *)
Definition switched_controller : SQC.Controller :=
  SQC.reportSwitchResult "view_0" true 1000000 controller.

(** One healthy 480p stream on a link already carrying 6 Mbps. *)
Definition pressured_collector : MSS.Collector :=
  cycle 1003000
    (feed "view_0" (raw 6000 30 480 0.2 10) "excellent" 100 1002000
    (register "view_0" 1001000 (MSS.new MSS.default_config 1000000))).

(** Four healthy streams in a 2x2 grid. *)
Definition grid_collector : MSS.Collector :=
  cycle 1003000
    (feed "view_3" (raw 500 30 480 0 10) "excellent" 100 1002000
    (feed "view_2" (raw 500 30 480 0 10) "excellent" 100 1002000
    (feed "view_1" (raw 500 30 480 0 10) "excellent" 100 1002000
    (feed "view_0" (raw 500 30 480 0 10) "excellent" 100 1002000
    (register "view_3" 1001000 (register "view_2" 1001000
    (register "view_1" 1001000 (register "view_0" 1001000
      (MSS.new MSS.default_config 1000000))))))))).

(** Four healthy 480p streams of 1250 kbps each: 5.0 Mbps in all, the
    medium threshold of the default configuration. *)
Definition threshold_collector : MSS.Collector :=
  cycle 1003000
    (feed "view_3" (raw 1250 30 480 0 10) "excellent" 100 1002000
    (feed "view_2" (raw 1250 30 480 0 10) "excellent" 100 1002000
    (feed "view_1" (raw 1250 30 480 0 10) "excellent" 100 1002000
    (feed "view_0" (raw 1250 30 480 0 10) "excellent" 100 1002000
    (register "view_3" 1001000 (register "view_2" 1001000
    (register "view_1" 1001000 (register "view_0" 1001000
      (MSS.new MSS.default_config 1000000))))))))).

(** One healthy 360p stream on a link carrying 6 Mbps. *)
Definition low_pressured_collector : MSS.Collector :=
  cycle 1003000
    (feed "view_0" (raw 6000 30 360 0.2 10) "excellent" 100 1002000
    (register "view_0" 1001000 (MSS.new MSS.default_config 1000000))).

(** Three 480p streams at 18 fps with nothing else wrong. *)
Definition stalled_collector : MSS.Collector :=
  cycle 1003000
    (feed "view_2" (raw 500 18 480 0 10) "excellent" 90 1002000
    (feed "view_1" (raw 500 18 480 0 10) "excellent" 90 1002000
    (feed "view_0" (raw 500 18 480 0 10) "excellent" 90 1002000
    (register "view_2" 1001000 (register "view_1" 1001000 (register "view_0" 1001000
      (MSS.new MSS.default_config 1000000))))))).

End Scenario.

(** * The strategy rule in the words of the specification *)

Module Spec.

Definition above (x t : Q) : bool := if Qlt_le_dec t x then true else false.
Definition below (x t : Q) : bool := if Qlt_le_dec x t then true else false.

(** "problem streams (packet loss > [lossPct]% or jitter > 80 ms or
    fps < 20)", the loss threshold being a parameter. *)
Definition problem_stream (lossPct : Q) (st : Stats) : bool :=
  above (packetLossRate st) lossPct || above (jitter st) 80 || below (videoFps st) 20.

Definition problem_count (lossPct : Q) (streams : list StreamInfo) : Z :=
  Z.of_nat (length (List.filter
    (fun s => match currentStats s with
              | Some st => problem_stream lossPct st
              | None => false
              end) streams)).

Definition is_level (a b : Level) : bool :=
  match a, b with
  | excellent, excellent | good, good | fair, fair | poor, poor => true
  | _, _ => false
  end.

(** "emergency_downgrade if the network is poor or more than two problem
    streams; conservative_optimization if network or performance is fair;
    quality_enhancement if both are excellent and no problem stream exists;
    else balanced_optimization." *)
Definition strategy_label (network performance : Level) (problems : Z) : string :=
  if is_level network poor || (2 <? problems)%Z then "emergency_downgrade"
  else if is_level network fair || is_level performance fair
  then "conservative_optimization"
  else if is_level network excellent && is_level performance excellent
          && (problems =? 0)%Z
  then "quality_enhancement"
  else "balanced_optimization".

End Spec.

(** * Invariants of the reachable states *)

Module Invariant.

(** Every cached recommendation is a literal of
    [generateStreamRecommendation], which defines no [action] key. *)
Definition cache_clean (c : MSS.Collector) : Prop :=
  forall k r, MSS.lastRecommendations c !! k = Some r -> MSS.action r = None.

(** The counters of [performanceMetrics] start at 0 and are only
    incremented. *)
Definition counters_nonneg (ctl : SQC.Controller) : Prop :=
  (0 <= SQC.successfulSwitches (SQC.performanceMetrics ctl))%Z /\
  (0 <= SQC.failedSwitches (SQC.performanceMetrics ctl))%Z.

(** Every confidence carried by an entry of the buckets lies in [0, 1]. *)
Definition confidences_bounded (b : SQC.Buckets) : Prop :=
  forall item q,
    item ∈ SQC.immediate b ++ SQC.gradual b ++ SQC.fallback b ->
    SQC.confidence item = Some q -> (0 <= q <= 1)%Q.

(** The keys of [streamStats] are distinct, as in any [Map], and every
    entry is stored under its own id. *)
Definition registry_wf (c : MSS.Collector) : Prop :=
  NoDup (fst <$> MSS.streamStats c) /\
  Forall (fun kv : string * StreamInfo => id kv.2 = kv.1) (MSS.streamStats c).

(** Every stream id named by an entry of the buckets is the id of one of
    the given streams. *)
Definition ids_among (streams : list StreamInfo) (b : SQC.Buckets) : Prop :=
  forall item k,
    item ∈ SQC.immediate b ++ SQC.gradual b ++ SQC.fallback b ->
    SQC.streamId item = Some k -> exists s, s ∈ streams /\ id s = k.

End Invariant.

(** * [WebRTCStatsCollector] (js/stats-collector.js)

    The per-stream collector whose listener callback feeds
    [MultiStreamStatsCollector.updateStreamStats].  The [issues] texts of
    [evaluateQuality] are left out like the other reason texts. *)

Module WebRTCStatsCollector.
Local Open Scope Z_scope.

(** [this.stats] *)
Record CollectorStats := {
  videoBitrate : Z;          (* kbps, rounded *)
  audioBitrate : Z;
  videoFps : Z;
  resolution : Resolution;
  packetsLost : Z;
  packetsReceived : Z;
  packetLossRate : Q;        (* percent, two decimals *)
  jitter : Z;                (* ms, rounded *)
  framesReceived : Z;
  framesDropped : Z;
  timestamp : Z
}.

(** [this.previousStats]; a key not yet written is [None]. *)
Record PreviousStats := {
  videoBytesReceived : option Z;
  videoFramesReceived : option Z;
  audioBytesReceived : option Z
}.

(** An inbound-rtp video report; a counter the browser leaves out reads as
    0 through [|| 0]. *)
Record VideoReport := {
  bytesReceived : Z;
  r_framesReceived : Z;
  frameWidth : Z;
  frameHeight : Z;
  r_packetsLost : Z;
  r_packetsReceived : Z;
  r_jitter : Q;              (* seconds *)
  r_framesDropped : Z
}.

(** An entry of the RTCStatsReport. *)
Inductive Report :=
| InboundVideo (r : VideoReport)
| InboundAudio (audioBytes : Z)
| OtherReport.

Record State := {
  stats : CollectorStats;
  previousStats : option PreviousStats
}.

(** The constructor, called at time [now]. *)
Definition new (now : Z) : State :=
  {| stats := {| videoBitrate := 0; audioBitrate := 0; videoFps := 0;
                 resolution := {| width := 0; height := 0 |};
                 packetsLost := 0; packetsReceived := 0; packetLossRate := 0;
                 jitter := 0; framesReceived := 0; framesDropped := 0;
                 timestamp := now |};
     previousStats := None |}.

(** The percentage stored by [parseVideoStats]. *)
Definition lossRate (lost received : Z) : Q :=
  let totalPackets := (lost + received)%Z in
  if (0 <? totalPackets)%Z
  then toFixed 2 (inject_Z lost / inject_Z totalPackets * 100)%Q
  else 0%Q.

(** [parseVideoStats(report, timeDelta)] *)
Definition parseVideoStats (report : VideoReport) (timeDelta : Q) (s : State) : State :=
  let st := stats s in
  let bitrate :=
    match previousStats s ≫= videoBytesReceived with
    | Some before =>
        if ltb 0 timeDelta
        then Math_round (inject_Z ((bytesReceived report - before) * 8) / timeDelta / 1000)%Q
        else videoBitrate st
    | None => videoBitrate st
    end in
  let fps :=
    match previousStats s ≫= videoFramesReceived with
    | Some before =>
        if ltb 0 timeDelta
        then Math_round (inject_Z (r_framesReceived report - before) / timeDelta)%Q
        else videoFps st
    | None => videoFps st
    end in
  {| stats :=
       {| videoBitrate := bitrate;
          audioBitrate := audioBitrate st;
          videoFps := fps;
          resolution := {| width := frameWidth report; height := frameHeight report |};
          packetsLost := r_packetsLost report;
          packetsReceived := r_packetsReceived report;
          packetLossRate := lossRate (r_packetsLost report) (r_packetsReceived report);
          jitter := Math_round (r_jitter report * 1000)%Q;
          framesReceived := r_framesReceived report;
          framesDropped := r_framesDropped report;
          timestamp := timestamp st |};
     previousStats :=
       Some {| videoBytesReceived := Some (bytesReceived report);
               videoFramesReceived := Some (r_framesReceived report);
               audioBytesReceived := previousStats s ≫= audioBytesReceived |} |}.

(** [parseAudioStats(report, timeDelta)] *)
Definition parseAudioStats (audioBytes : Z) (timeDelta : Q) (s : State) : State :=
  let st := stats s in
  let bitrate :=
    match previousStats s ≫= audioBytesReceived with
    | Some before =>
        if ltb 0 timeDelta
        then Math_round (inject_Z ((audioBytes - before) * 8) / timeDelta / 1000)%Q
        else audioBitrate st
    | None => audioBitrate st
    end in
  {| stats :=
       {| videoBitrate := videoBitrate st;
          audioBitrate := bitrate;
          videoFps := videoFps st;
          resolution := resolution st;
          packetsLost := packetsLost st;
          packetsReceived := packetsReceived st;
          packetLossRate := packetLossRate st;
          jitter := jitter st;
          framesReceived := framesReceived st;
          framesDropped := framesDropped st;
          timestamp := timestamp st |};
     previousStats :=
       Some {| videoBytesReceived := previousStats s ≫= videoBytesReceived;
               videoFramesReceived := previousStats s ≫= videoFramesReceived;
               audioBytesReceived := Some audioBytes |} |}.

(** The [forEach] of [parseStats]: the last inbound video and the last
    inbound audio report of the list. *)
Definition lastVideo (statsReport : list Report) : option VideoReport :=
  fold_left (fun acc r => match r with InboundVideo v => Some v | _ => acc end)
            statsReport None.

Definition lastAudio (statsReport : list Report) : option Z :=
  fold_left (fun acc r => match r with InboundAudio a => Some a | _ => acc end)
            statsReport None.

Definition setTimestamp (now : Z) (s : State) : State :=
  let st := stats s in
  {| stats :=
       {| videoBitrate := videoBitrate st; audioBitrate := audioBitrate st;
          videoFps := videoFps st; resolution := resolution st;
          packetsLost := packetsLost st; packetsReceived := packetsReceived st;
          packetLossRate := packetLossRate st; jitter := jitter st;
          framesReceived := framesReceived st; framesDropped := framesDropped st;
          timestamp := now |};
     previousStats := previousStats s |}.

(** [parseStats(statsReport)] *)
Definition parseStats (statsReport : list Report) (now : Z) (s : State) : State :=
  let timeDelta := (inject_Z (now - timestamp (stats s)) / 1000)%Q in
  let s1 := match lastVideo statsReport with
            | Some v => parseVideoStats v timeDelta s
            | None => s
            end in
  let s2 := match lastAudio statsReport with
            | Some a => parseAudioStats a timeDelta s1
            | None => s1
            end in
  setTimestamp now s2.

(** [dropRate] of [evaluateQuality]. *)
Definition dropRate (st : CollectorStats) : Q :=
  if (0 <? framesReceived st)%Z
  then (inject_Z (framesDropped st) / inject_Z (framesReceived st) * 100)%Q
  else 0%Q.

(** The score of [evaluateQuality] before [Math.max(0, score)]. *)
Definition rawScore (st : CollectorStats) : Z :=
  let lossPenalty :=
    if gtb (packetLossRate st) 5 then 40
    else if gtb (packetLossRate st) 2 then 20 else 0 in
  let jitterPenalty :=
    if (100 <? jitter st)%Z then 30
    else if (50 <? jitter st)%Z then 15 else 0 in
  let fpsPenalty :=
    if (videoFps st <? 15)%Z then 25
    else if (videoFps st <? 24)%Z then 10 else 0 in
  let dropPenalty := if gtb (dropRate st) 5 then 20 else 0 in
  (100 - lossPenalty - jitterPenalty - fpsPenalty - dropPenalty)%Z.

(** [issues.length] of [evaluateQuality]: one text is pushed where a
    penalty is taken. *)
Definition issueCount (st : CollectorStats) : Z :=
  let lossIssues :=
    if gtb (packetLossRate st) 5 then 1
    else if gtb (packetLossRate st) 2 then 1 else 0 in
  let jitterIssues :=
    if (100 <? jitter st)%Z then 1
    else if (50 <? jitter st)%Z then 1 else 0 in
  let fpsIssues :=
    if (videoFps st <? 15)%Z then 1
    else if (videoFps st <? 24)%Z then 1 else 0 in
  let dropIssues := if gtb (dropRate st) 5 then 1 else 0 in
  (lossIssues + jitterIssues + fpsIssues + dropIssues)%Z.

(** [evaluateQuality()] *)
Definition evaluateQuality (st : CollectorStats) : QualityEval :=
  let score := rawScore st in
  let status :=
    if (80 <=? score)%Z then "excellent"
    else if (60 <=? score)%Z then "good"
    else if (40 <=? score)%Z then "fair"
    else "poor" in
  {| status := status; score := inject_Z (Z.max 0 score) |}.

(** [getStats()] as the multi-stream collector reads it.  The loss rate,
    which [toFixed] leaves as a string, is carried as the number that
    [parseFloat] and the comparisons of its readers make of it. *)
Definition getStats (st : CollectorStats) : RawStats :=
  {| raw_videoBitrate := inject_Z (videoBitrate st);
     raw_videoFps := inject_Z (videoFps st);
     raw_resolution := Some (resolution st);
     raw_packetLossRate := packetLossRate st;
     raw_jitter := inject_Z (jitter st) |}.

(** [notifyListeners()] for the listener [addStream] attached:
    [updateStreamStats(streamId, { stats, quality })]. *)
Definition notifyListeners (streamId : string) (s : State) (now : Z)
    (c : MSS.Collector) : MSS.Collector :=
  MSS.updateStreamStats streamId (getStats (stats s)) (evaluateQuality (stats s)) now c.

End WebRTCStatsCollector.

(** * [MultiViewApplication]: what is done with a batch *)

Module MultiViewApplication.

Inductive Action := ApplyBatch | ShowModal.

(** [handleBatchRecommendation(event)] *)
Definition handleBatchRecommendation (autoOptimizeEnabled : bool)
    (event : SQC.BatchRecommendation) : Action :=
  if autoOptimizeEnabled
     && String.eqb (SQC.strategy_priority (SQC.strategy event)) "high"
  then ApplyBatch else ShowModal.

End MultiViewApplication.

(** * Orders and shapes used in the statements *)

Module Shape.

(** The place of a quality label on the controller's ladder, -1 off it. *)
Definition rank (q : string) : Z := indexOf SQC.qualityOrder q.

(** The network levels from worst to best. *)
Definition level_rank (l : Level) : Z :=
  match l with
  | poor => 0 | fair => 1 | good => 2 | excellent => 3
  end%Z.


(** A history in the order of its timestamps. *)
Fixpoint chronological (h : list Stats) : Prop :=
  match h with
  | [] => True
  | s :: rest =>
      Forall (fun r => (Telemetry.timestamp s <= Telemetry.timestamp r)%Z) rest
      /\ chronological rest
  end.


(** All the entries of the three buckets. *)
Definition items (b : SQC.Buckets) : list SQC.Item :=
  SQC.immediate b ++ SQC.gradual b ++ SQC.fallback b.

(** An entry states a current and a recommended quality, both on the
    ladder, the recommended one a place above the current one when [up],
    otherwise not above it. *)
Definition directed (up : bool) (item : SQC.Item) : Prop :=
  exists cur rq,
    SQC.currentQuality item = Some cur /\
    SQC.recommendedQuality item = Some rq /\
    (0 <= rank cur)%Z /\ (0 <= rank rq)%Z /\
    (if up then rank rq = (rank cur + 1)%Z else (rank rq <= rank cur)%Z).

(** Every entry of the buckets is directed. *)
Definition moves (up : bool) (b : SQC.Buckets) : Prop :=
  forall item, item ∈ items b -> directed up item.

End Shape.

Module WSC := WebRTCStatsCollector.

(** * Properties *)

(** ** Comparisons and folds *)

Lemma ltb_lt (x y : Q) : ltb x y = true <-> (x < y)%Q.
Proof.
  unfold ltb. rewrite Qlt_alt. destruct (x ?= y)%Q; split; congruence.
Qed.

Lemma ltb_ge (x y : Q) : ltb x y = false <-> (y <= x)%Q.
Proof.
  split; intros H.
  - apply Qnot_lt_le. intros Hlt. apply ltb_lt in Hlt. congruence.
  - destruct (ltb x y) eqn:E; [|reflexivity].
    apply ltb_lt in E. exfalso. exact (Qlt_not_le _ _ E H).
Qed.

Lemma gtb_gt (x y : Q) : gtb x y = true <-> (y < x)%Q.
Proof. apply ltb_lt. Qed.

Lemma gtb_le (x y : Q) : gtb x y = false <-> (x <= y)%Q.
Proof. apply ltb_ge. Qed.

Lemma or_else_eq (x d : Q) : (x == 0 -> False) -> or_else x d = x.
Proof.
  intros H. unfold or_else. destruct (Qeq_bool x 0) eqn:E; [|reflexivity].
  apply Qeq_bool_iff in E. contradiction.
Qed.

Lemma or_else_zero (x : Q) : (or_else x 0 == x)%Q.
Proof.
  unfold or_else. destruct (Qeq_bool x 0) eqn:E; [|reflexivity].
  apply Qeq_bool_iff in E. symmetry. exact E.
Qed.

(** ** The quality ladder *)

Lemma getQualityFromResolution_cases (h : option Z) :
  SQC.getQualityFromResolution h = "360p" \/ SQC.getQualityFromResolution h = "480p" \/
  SQC.getQualityFromResolution h = "720p" \/ SQC.getQualityFromResolution h = "1080p".
Proof.
  unfold SQC.getQualityFromResolution.
  destruct (falsyZ h); [tauto|].
  repeat match goal with |- context [if ?b then _ else _] => destruct b end; tauto.
Qed.

(** Two steps down the ladder, stopping at its foot. *)
Lemma downgradeQuality_two (h : option Z) :
  let cur := SQC.getQualityFromResolution h in
  (0 <= indexOf SQC.qualityOrder cur)%Z /\
  indexOf SQC.qualityOrder (SQC.downgradeQuality cur 2)
  = Z.max 0 (indexOf SQC.qualityOrder cur - 2).
Proof.
  cbv zeta.
  destruct (getQualityFromResolution_cases h) as [E|[E|[E|E]]]; rewrite E;
    split; vm_compute; congruence.
Qed.

(** ** Buckets filled by one generator *)

Lemma emergency_fold (l : list (Z * StreamInfo)) (b : SQC.Buckets) :
  fold_left (fun acc x => SQC.push "immediate" (SQC.emergencyItem x) acc) l b
  = {| SQC.immediate := SQC.immediate b ++ (SQC.emergencyItem <$> l);
       SQC.gradual := SQC.gradual b;
       SQC.fallback := SQC.fallback b |}.
Proof.
  revert b. induction l as [|x l IH]; intros b; simpl.
  - rewrite app_nil_r. destruct b; reflexivity.
  - rewrite IH. simpl. rewrite <- app_assoc. reflexivity.
Qed.

Lemma generateEmergencyRecommendations_immediate (activeStreams : list StreamInfo) :
  SQC.immediate
    (SQC.generateEmergencyRecommendations
       {| SQC.immediate := []; SQC.gradual := []; SQC.fallback := [] |} activeStreams)
  = SQC.emergencyItem <$> SQC.indexed activeStreams.
Proof.
  unfold SQC.generateEmergencyRecommendations. rewrite emergency_fold. reflexivity.
Qed.

Lemma indexed_lookup (l : list StreamInfo) (i : nat) (s : StreamInfo) :
  l !! i = Some s -> SQC.indexed l !! i = Some (Z.of_nat i, s).
Proof.
  intros H. unfold SQC.indexed. rewrite list_lookup_imap, H. reflexivity.
Qed.

Lemma confidence_completes (ctl : SQC.Controller) (pa : SQC.PerformanceAnalysis)
    (na : option NetworkAssessment) :
  exists q, SQC.calculateRecommendationConfidence ctl (Some pa) na = Normal q.
Proof. unfold SQC.calculateRecommendationConfidence. simpl. eauto. Qed.

(** C1: when the synthesized strategy is [emergency_downgrade], the
    [immediate] bucket holds, at the position of every active stream, a
    recommendation for that stream index whose recommended quality sits
    exactly two places below the stream's current quality on the ladder
    360p < 480p < 720p < 1080p, or at 360p when fewer than two places
    remain; it is issued with the fixed confidence 0.95, whatever the
    telemetry of the stream. *)
Theorem emergency_downgrade_two_tiers
    (ctl ctl' : SQC.Controller) (c : MSS.Collector) (now : Z)
    (batch : SQC.BatchRecommendation) (i : nat) (s : StreamInfo) :
  SQC.generateBatchRecommendations ctl (Some c) now = Normal (Some batch, ctl') ->
  SQC.strategy_type (SQC.strategy batch) = "emergency_downgrade" ->
  MSS.getActiveStreams c !! i = Some s ->
  exists item cur rq,
    SQC.immediate (SQC.recommendations batch) !! i = Some item /\
    SQC.streamIndex item = Z.of_nat i /\
    SQC.currentQuality item = Some cur /\
    cur = SQC.getQualityFromResolution (currentStats s ≫= height_of) /\
    SQC.recommendedQuality item = Some rq /\
    (0 <= indexOf SQC.qualityOrder cur)%Z /\
    indexOf SQC.qualityOrder rq = Z.max 0 (indexOf SQC.qualityOrder cur - 2) /\
    SQC.confidence item = Some 0.95%Q.
Proof.
  intros Hgen Hty Hs.
  unfold SQC.generateBatchRecommendations in Hgen.
  destruct (SQC.networkMonitor ctl); [|discriminate Hgen].
  destruct (MSS.getActiveStreams c) as [|s0 rest] eqn:Hact; [discriminate Hs|].
  rewrite <- Hact in *.
  destruct (confidence_completes ctl
              (SQC.analyzeCurrentPerformance ctl (MSS.getActiveStreams c) now)
              (MSS.networkAssessment c)) as [q Hq].
  rewrite Hact in Hgen. rewrite <- Hact in Hgen.
  rewrite Hq in Hgen. simpl in Hgen.
  injection Hgen as Hb _. subst batch. simpl in Hty |- *.
  unfold SQC.populateRecommendations. rewrite Hty. simpl.
  rewrite generateEmergencyRecommendations_immediate.
  pose proof (indexed_lookup _ _ _ Hs) as Hi.
  pose proof (downgradeQuality_two (currentStats s ≫= height_of)) as [H0 H2].
  eexists _, _, _. rewrite list_lookup_fmap, Hi. simpl.
  repeat split; try reflexivity; assumption.
Qed.

(** The theorem at work on the three-stream collector: the stream at index 1
    (720p) is sent to 360p. *)
Lemma emergency_downgrade_two_tiers_witness :
  exists batch ctl' s,
    SQC.generateBatchRecommendations Scenario.controller (Some Scenario.poor_collector)
      1004000 = Normal (Some batch, ctl') /\
    SQC.strategy_type (SQC.strategy batch) = "emergency_downgrade" /\
    MSS.getActiveStreams Scenario.poor_collector !! 1%nat = Some s /\
    exists item cur rq,
      SQC.immediate (SQC.recommendations batch) !! 1%nat = Some item /\
      SQC.streamIndex item = Z.of_nat 1 /\
      SQC.currentQuality item = Some cur /\
      cur = SQC.getQualityFromResolution (currentStats s ≫= height_of) /\
      SQC.recommendedQuality item = Some rq /\
      (0 <= indexOf SQC.qualityOrder cur)%Z /\
      indexOf SQC.qualityOrder rq = Z.max 0 (indexOf SQC.qualityOrder cur - 2) /\
      SQC.confidence item = Some 0.95%Q.
Proof.
  eexists _, _, _.
  split; [vm_compute; reflexivity|].
  split; [vm_compute; reflexivity|].
  split; [vm_compute; reflexivity|].
  eapply (emergency_downgrade_two_tiers Scenario.controller _ Scenario.poor_collector
            1004000 _ 1); vm_compute; reflexivity.
Defined.

(** ** The strategy label *)

Lemma isProblem_spec (st : Stats) : SQC.isProblem st = Spec.problem_stream 2 st.
Proof.
  unfold SQC.isProblem, Spec.problem_stream, Spec.above, Spec.below, gtb.
  repeat match goal with
         | |- context [Qlt_le_dec ?a ?b] =>
             destruct (Qlt_le_dec a b) as [H|H];
             [ rewrite (proj2 (ltb_lt a b) H) | rewrite (proj2 (ltb_ge a b) H) ];
             clear H
         end;
  reflexivity.
Qed.

Lemma withStats_problems (f : nat -> Z) (l : list StreamInfo) :
  length (List.filter (fun x : Z * StreamInfo * Stats => SQC.isProblem x.2)
            (omap (fun x => x)
               (imap (fun i s => (fun st => (f i, s, st)) <$> currentStats s) l)))
  = length (List.filter
              (fun s => match currentStats s with
                        | Some st => Spec.problem_stream 2 st
                        | None => false
                        end) l).
Proof.
  revert f. induction l as [|s l IH]; intros f; [reflexivity|].
  specialize (IH (f ∘ S)).
  simpl. destruct (currentStats s) as [st|]; simpl.
  - rewrite <- isProblem_spec.
    destruct (SQC.isProblem st); simpl; rewrite <- IH; reflexivity.
  - exact IH.
Qed.

Lemma problemStreams_count (ctl : SQC.Controller) (streams : list StreamInfo) (now : Z) :
  SQC.problemStreams (SQC.pa_metrics (SQC.analyzeCurrentPerformance ctl streams now))
  = Spec.problem_count 2 streams.
Proof.
  destruct streams as [|s l]; [reflexivity|].
  unfold SQC.analyzeCurrentPerformance, Spec.problem_count.
  cbn [SQC.pa_metrics SQC.problemStreams]. f_equal.
  unfold SQC.withStats.
  apply (withStats_problems Z.of_nat (s :: l)).
Qed.

Lemma excellent_no_problem (ctl : SQC.Controller) (streams : list StreamInfo) (now : Z) :
  SQC.pa_overall (SQC.analyzeCurrentPerformance ctl streams now) = excellent ->
  Spec.problem_count 2 streams = 0%Z.
Proof.
  rewrite <- (problemStreams_count ctl streams now).
  destruct streams as [|s l]; [discriminate|].
  unfold SQC.analyzeCurrentPerformance.
  cbn [SQC.pa_overall SQC.pa_metrics SQC.problemStreams].
  unfold SQC.classifyPerformance.
  set (n := Z.of_nat _). set (avg := Math_round _).
  destruct (n =? 0)%Z eqn:E0; [intros _; lia|]. cbn [andb].
  repeat match goal with |- context [if ?b then _ else _] => destruct b end;
    discriminate.
Qed.

(** C2 (amended): the strategy label is [emergency_downgrade] exactly when
    the network level is poor or more than two streams are problem streams,
    a problem stream being one with packet loss above 2% (not 3%), jitter
    above 80 ms or fps below 20; otherwise it is
    [conservative_optimization] when network or performance is fair,
    [quality_enhancement] when both are excellent (there is then no problem
    stream), and [balanced_optimization] in every remaining case.  A missing
    network assessment counts as fair. *)
Theorem strategy_label_by_code
    (ctl : SQC.Controller) (streams : list StreamInfo) (now : Z)
    (na : option NetworkAssessment) :
  let pa := SQC.analyzeCurrentPerformance ctl streams now in
  SQC.determineOptimizationStrategy pa na
  = Spec.strategy_label (default fair (overall <$> na)) (SQC.pa_overall pa)
      (Spec.problem_count 2 streams).
Proof.
  cbv zeta.
  pose proof (excellent_no_problem ctl streams now) as Hex.
  unfold SQC.determineOptimizationStrategy, Spec.strategy_label.
  rewrite (problemStreams_count ctl streams now).
  destruct (default fair (overall <$> na));
    destruct (SQC.pa_overall (SQC.analyzeCurrentPerformance ctl streams now));
    cbn [SQC.level_eqb Spec.is_level orb andb];
    try reflexivity;
    destruct (2 <? Spec.problem_count 2 streams)%Z; try reflexivity.
  rewrite (Hex eq_refl). reflexivity.
Qed.

(** C2 as stated fails: with seven streams of which three lose 2.5% of
    their packets, the network is assessed fair and no stream loses more
    than 3%, yet the batch is labelled [emergency_downgrade]. *)
Lemma strategy_label_three_percent_counterexample :
  exists batch ctl',
    SQC.generateBatchRecommendations Scenario.controller
      (Some Scenario.lossy_collector) 1004000 = Normal (Some batch, ctl') /\
    ~ (SQC.strategy_type (SQC.strategy batch) = "emergency_downgrade" <->
       (overall <$> SQC.networkAssessment batch = Some poor \/
        (2 < Spec.problem_count 3 (MSS.getActiveStreams Scenario.lossy_collector))%Z)).
Proof.
  eexists _, _. split; [vm_compute; reflexivity|].
  intros [H _]. specialize (H eq_refl). vm_compute in H.
  destruct H as [H|H]; discriminate H.
Qed.

(** ** Duplicate suppression in the collector *)

Lemma cache_clean_new (cfg : MSS.Config) (now : Z) : Invariant.cache_clean (MSS.new cfg now).
Proof. intros k r H. simpl in H. rewrite lookup_empty in H. discriminate. Qed.

Lemma generateStreamRecommendation_cache_clean
    (stream : StreamInfo) (now : Z) (c c' : MSS.Collector) (r : option MSS.Recommendation) :
  Invariant.cache_clean c ->
  MSS.generateStreamRecommendation stream now c = Normal (r, c') ->
  Invariant.cache_clean c'.
Proof.
  intros Hc H. unfold MSS.generateStreamRecommendation in H.
  destruct (_ && _) in H; [injection H as _ <-; exact Hc|].
  destruct (currentStats stream) as [stats|]; [|discriminate]. simpl in H.
  destruct (MSS.chooseQuality c stats (metadata stream)) as [[q conf]|].
  - injection H as _ <-. intros k r' Hk. simpl in Hk.
    destruct (decide (id stream = k)) as [E|Hne].
    + rewrite <- E, lookup_insert_eq in Hk. injection Hk as <-. reflexivity.
    + rewrite lookup_insert_ne in Hk by exact Hne. exact (Hc k r' Hk).
  - injection H as _ <-. exact Hc.
Qed.

(** On a clean cache the early return of [generateStreamRecommendation]
    is never taken: the result is the one computed from the telemetry. *)
Lemma suppression_never_fires (stream : StreamInfo) (now : Z) (c : MSS.Collector) :
  Invariant.cache_clean c ->
  MSS.truthy (MSS.lastRecommendations c !! id stream ≫= MSS.action) = false.
Proof.
  intros Hc. destruct (MSS.lastRecommendations c !! id stream) as [r|] eqn:E; [|reflexivity].
  simpl. rewrite (Hc _ _ E). reflexivity.
Qed.

(** C3, on the code: a stream at 1080p with 4% packet loss is recommended
    720p, and one second later, no outcome having been reported, the same
    recommendation for the same stream is emitted again instead of being
    suppressed. *)
Theorem duplicate_recommendation_emitted_again :
  exists s r1 c1 r2 c2,
    MSS.getActiveStreams Scenario.single_collector = [s] /\
    MSS.generateStreamRecommendation s 1004000 Scenario.single_collector
      = Normal (Some r1, c1) /\
    MSS.generateStreamRecommendation s 1005000 c1 = Normal (Some r2, c2) /\
    MSS.streamId r1 = MSS.streamId r2 /\
    MSS.recommendedQuality r1 = "720p" /\
    MSS.recommendedQuality r2 = "720p" /\
    (MSS.rec_timestamp r2 - MSS.rec_timestamp r1 < 5000)%Z.
Proof.
  eexists _, _, _, _, _.
  split; [vm_compute; reflexivity|].
  split; [vm_compute; reflexivity|].
  split; [vm_compute; reflexivity|].
  vm_compute. repeat split; reflexivity.
Qed.

(** ** Outcome reports *)

Lemma ratio_drops_on_failure (s f : Z) :
  (0 <= s)%Z -> (0 < s + f)%Z ->
  (inject_Z s / inject_Z (s + (f + 1)) <= inject_Z s / inject_Z (s + f))%Q.
Proof.
  intros Hs Ht.
  assert (H1 : (0 < inject_Z (s + (f + 1)))%Q).
  { change 0%Q with (inject_Z 0). rewrite <- Zlt_Qlt. lia. }
  assert (H2 : (0 < inject_Z (s + f))%Q).
  { change 0%Q with (inject_Z 0). rewrite <- Zlt_Qlt. lia. }
  apply Qle_shift_div_r; [exact H1|].
  unfold Qdiv. rewrite <- Qmult_assoc, (Qmult_comm (/ _)), Qmult_assoc.
  apply Qle_shift_div_l; [exact H2|].
  rewrite <- !inject_Z_mult, <- Zle_Qle. nia.
Qed.

(** A failure report can only lower the historical success rate. *)
Lemma failure_lowers_success_rate (streamId : string) (now : Z) (ctl : SQC.Controller) :
  Invariant.counters_nonneg ctl ->
  (SQC.getHistoricalSuccessRate (SQC.reportSwitchResult streamId false now ctl)
   <= SQC.getHistoricalSuccessRate ctl)%Q.
Proof.
  intros [Hs Hf]. unfold SQC.getHistoricalSuccessRate, SQC.reportSwitchResult.
  cbn [SQC.performanceMetrics SQC.successfulSwitches SQC.failedSwitches].
  set (s := SQC.successfulSwitches _) in *. set (f := SQC.failedSwitches _) in *.
  destruct (s + (f + 1) =? 0)%Z eqn:E1; [lia|].
  destruct (s + f =? 0)%Z eqn:E0.
  - assert (s = 0%Z) as -> by lia. assert (f = 0%Z) as -> by lia.
    vm_compute. discriminate.
  - apply ratio_drops_on_failure; lia.
Qed.

(** C4 (amended): a reported outcome, failed or successful, stamps the
    stream's [lastSwitchTimes] entry with the current time and leaves the
    entries of the other streams alone; a success increments only
    [successfulSwitches], a failure only [failedSwitches], and a failure can
    only lower the historical success rate that feeds the bundle
    confidence. *)
Theorem report_stamps_either_outcome
    (streamId other : string) (success : bool) (now : Z) (ctl : SQC.Controller) :
  Invariant.counters_nonneg ctl ->
  other <> streamId ->
  let ctl' := SQC.reportSwitchResult streamId success now ctl in
  let m := SQC.performanceMetrics ctl in
  let m' := SQC.performanceMetrics ctl' in
  SQC.lastSwitchTimes ctl' !! streamId = Some now /\
  SQC.lastSwitchTimes ctl' !! other = SQC.lastSwitchTimes ctl !! other /\
  SQC.successfulSwitches m'
    = (SQC.successfulSwitches m + if success then 1 else 0)%Z /\
  SQC.failedSwitches m' = (SQC.failedSwitches m + if success then 0 else 1)%Z /\
  SQC.userOverrides m' = SQC.userOverrides m /\
  Invariant.counters_nonneg ctl' /\
  (success = false ->
   (SQC.getHistoricalSuccessRate ctl' <= SQC.getHistoricalSuccessRate ctl)%Q).
Proof.
  intros Hc Hne. cbv zeta.
  split; [apply lookup_insert_eq|].
  split; [apply lookup_insert_ne; congruence|].
  destruct Hc as [Hs Hf].
  destruct success; cbn; (repeat split; try lia);
    try (cbn; lia); try (intros; discriminate).
  intros _. apply (failure_lowers_success_rate streamId now ctl). split; assumption.
Qed.

(** The theorem at work on a failure reported for [view_0]. *)
Lemma report_stamps_either_outcome_witness :
  let ctl := Scenario.switched_controller in
  let ctl' := SQC.reportSwitchResult "view_0" false 1050000 ctl in
  SQC.lastSwitchTimes ctl' !! "view_0" = Some 1050000%Z /\
  SQC.lastSwitchTimes ctl' !! "view_1" = SQC.lastSwitchTimes ctl !! "view_1" /\
  SQC.failedSwitches (SQC.performanceMetrics ctl') = 1%Z.
Proof.
  assert (Hc : Invariant.counters_nonneg Scenario.switched_controller).
  { split; vm_compute; discriminate. }
  assert (Hne : "view_1" <> "view_0") by discriminate.
  destruct (report_stamps_either_outcome "view_0" "view_1" false 1050000
              Scenario.switched_controller Hc Hne) as (H1 & H2 & _ & H4 & _).
  split; [exact H1|]. split; [exact H2|]. exact H4.
Defined.

(** C4 as stated fails: after a successful switch of [view_0] at time
    1000000, a failure reported at 1050000 moves the stream's last-switch
    time to 1050000, and the recommendation the controller would have given
    for that stream one second later is withheld by the cooldown. *)
Lemma failed_report_restarts_cooldown_counterexample :
  let ctl := Scenario.switched_controller in
  let ctl' := SQC.reportSwitchResult "view_0" false 1050000 ctl in
  SQC.lastSwitchTimes ctl !! "view_0" = Some 1000000%Z /\
  SQC.lastSwitchTimes ctl' !! "view_0" <> SQC.lastSwitchTimes ctl !! "view_0" /\
  exists s, MSS.getActiveStreams Scenario.single_collector = [s] /\
    id s = "view_0" /\
    SQC.generateStreamRecommendation ctl s 0 1051000 <> None /\
    SQC.generateStreamRecommendation ctl' s 0 1051000 = None.
Proof.
  cbv zeta. split; [vm_compute; reflexivity|].
  split; [vm_compute; discriminate|].
  eexists. split; [vm_compute; reflexivity|].
  split; [vm_compute; reflexivity|].
  split; [vm_compute; discriminate|vm_compute; reflexivity].
Qed.

(** ** Upgrades and the shared bandwidth *)

Lemma ltb_or_else_zero (x t : Q) : ltb (or_else x 0) t = ltb x t.
Proof.
  pose proof (or_else_zero x) as E.
  destruct (ltb x t) eqn:H.
  - apply ltb_lt. apply ltb_lt in H. rewrite E. exact H.
  - apply ltb_ge. apply ltb_ge in H. rewrite E. exact H.
Qed.

Lemma gtb_or_else_zero (x t : Q) : gtb (or_else x 0) t = gtb x t.
Proof.
  pose proof (or_else_zero x) as E. unfold gtb.
  destruct (ltb t x) eqn:H.
  - apply ltb_lt. apply ltb_lt in H. rewrite E. exact H.
  - apply ltb_ge. apply ltb_ge in H. rewrite E. exact H.
Qed.

Lemma canUpgrade_false_under_pressure (c : MSS.Collector) (a : MSS.AggregatedStats) :
  MSS.aggregatedStats c = Some a ->
  (MSS.medium (MSS.bandwidthThresholds (MSS.config c)) <= MSS.totalBandwidth a / 1000)%Q ->
  MSS.canUpgradeBasedOnBandwidth c = false.
Proof.
  intros Ha Hm. unfold MSS.canUpgradeBasedOnBandwidth. rewrite Ha.
  apply ltb_ge. exact Hm.
Qed.

(** For a stream whose telemetry is good the collector's generator returns
    no recommendation, and leaves the collector as it is, whenever the
    aggregate's total bandwidth in Mbps is at or above the medium
    threshold. *)
Lemma collector_guard_blocks_upgrade
    (c : MSS.Collector) (a : MSS.AggregatedStats) (stream : StreamInfo)
    (stats : Stats) (now : Z) :
  currentStats stream = Some stats ->
  (packetLossRate stats < 1)%Q ->
  (jitter stats < 30)%Q ->
  (28 < videoFps stats)%Q ->
  (80 < qualityScore stats)%Q ->
  MSS.aggregatedStats c = Some a ->
  (MSS.medium (MSS.bandwidthThresholds (MSS.config c)) <= MSS.totalBandwidth a / 1000)%Q ->
  MSS.generateStreamRecommendation stream now c = Normal (None, c).
Proof.
  intros Hst Hloss Hjit Hfps Hscore Ha Hm.
  unfold MSS.generateStreamRecommendation.
  destruct (_ && _); [reflexivity|].
  rewrite Hst. simpl.
  assert (Hq : MSS.chooseQuality c stats (metadata stream) = None).
  { unfold MSS.chooseQuality, MSS.needsDowngrade, MSS.mayUpgrade.
    rewrite (canUpgrade_false_under_pressure c a Ha Hm).
    rewrite !gtb_or_else_zero, !ltb_or_else_zero.
    assert (E1 : gtb (packetLossRate stats) 3 = false).
    { apply gtb_le. apply Qlt_le_weak. eapply Qlt_trans; [exact Hloss|reflexivity]. }
    assert (E2 : gtb (jitter stats) 80 = false).
    { apply gtb_le. apply Qlt_le_weak. eapply Qlt_trans; [exact Hjit|reflexivity]. }
    assert (E3 : ltb (videoFps stats) 20 = false).
    { apply ltb_ge. apply Qlt_le_weak. eapply Qlt_trans; [|exact Hfps]. reflexivity. }
    rewrite E1, E2, E3. cbn [orb].
    rewrite !andb_false_r. cbn [andb].
    repeat match goal with |- context [if ?b then _ else _] => destruct b end;
      reflexivity. }
  rewrite Hq. reflexivity.
Qed.

(** ** The network assessment *)

Lemma mapC_currentStats (streams : list StreamInfo) :
  Forall (fun s => is_Some (currentStats s)) streams ->
  exists stats,
    mapC (fun s => deref (currentStats s)) streams = Normal stats /\
    length stats = length streams.
Proof.
  induction 1 as [|s l [st Hs] _ (stats & IH & Hlen)]; simpl.
  - exists []. split; reflexivity.
  - exists (st :: stats). rewrite Hs, IH. simpl. split; [reflexivity|].
    rewrite Hlen. reflexivity.
Qed.

Lemma combine_cases (b : BandwidthState) (st : StabilityState) (avg : Z) :
  ((b = overloaded \/ st = unstable) -> MSS.combine b st avg = poor) /\
  (b <> overloaded -> st <> unstable -> (b = bw_moderate \/ st = st_moderate) ->
   MSS.combine b st avg = fair) /\
  (b = sufficient -> st = stable ->
   ((80 < avg)%Z -> MSS.combine b st avg = excellent) /\
   ((avg <= 80)%Z -> MSS.combine b st avg = good)).
Proof.
  unfold MSS.combine.
  destruct b, st; cbn [MSS.bw_eqb MSS.st_eqb orb];
    (split; [|split]); try (intros [?|?]; congruence);
    try congruence; try reflexivity;
    try (intros _ _ [?|?]; congruence || reflexivity).
  intros _ _. split; intros H.
  - apply Z.ltb_lt in H. rewrite H. reflexivity.
  - apply Z.ltb_ge in H. rewrite H. reflexivity.
Qed.

(** C6: the assessment of any set of active streams combines its two axes
    by worst-case precedence: overall is poor when the bandwidth is
    overloaded or the stability unstable; failing that, fair when either is
    moderate; and with sufficient bandwidth and stable streams it is
    excellent when the average quality score exceeds 80 and good
    otherwise. *)
Theorem network_overall_worst_case (cfg : MSS.Config) (streams : list StreamInfo) :
  Forall (fun s => is_Some (currentStats s)) streams ->
  exists a,
    MSS.assessNetworkConditions cfg streams = Normal a /\
    ((bandwidth a = overloaded \/ stability a = unstable) -> overall a = poor) /\
    (bandwidth a <> overloaded -> stability a <> unstable ->
     (bandwidth a = bw_moderate \/ stability a = st_moderate) -> overall a = fair) /\
    (bandwidth a = sufficient -> stability a = stable ->
     ((80 < averageQualityScore (net_metrics a))%Z -> overall a = excellent) /\
     ((averageQualityScore (net_metrics a) <= 80)%Z -> overall a = good)).
Proof.
  intros Hall. unfold MSS.assessNetworkConditions.
  destruct streams as [|s l].
  - exists MSS.initial_assessment. split; [reflexivity|].
    exact (combine_cases sufficient stable 0).
  - destruct (mapC_currentStats (s :: l) Hall) as (stats & Hm & _).
    rewrite Hm. cbn [bind]. eexists. split; [reflexivity|].
    unfold MSS.assess. cbn [overall bandwidth stability net_metrics averageQualityScore].
    apply combine_cases.
Qed.

(** The theorem at work: two of three streams are problematic, hence
    unstable, hence poor. *)
Lemma network_overall_worst_case_witness :
  exists a,
    MSS.assessNetworkConditions MSS.default_config
      (MSS.getActiveStreams Scenario.poor_collector) = Normal a /\
    stability a = unstable /\ overall a = poor.
Proof.
  assert (Hall : Forall (fun s => is_Some (currentStats s))
                   (MSS.getActiveStreams Scenario.poor_collector)).
  { vm_compute. repeat constructor; eexists; reflexivity. }
  destruct (network_overall_worst_case MSS.default_config _ Hall) as (a & Ha & Hpoor & _).
  exists a. split; [exact Ha|].
  assert (Hs : stability a = unstable).
  { revert Ha. vm_compute. intros Ha. injection Ha as <-. reflexivity. }
  split; [exact Hs|]. apply Hpoor. right. exact Hs.
Defined.

(** ** Confidence *)

Lemma success_rate_bounds (ctl : SQC.Controller) :
  Invariant.counters_nonneg ctl ->
  (0 <= SQC.getHistoricalSuccessRate ctl <= 1)%Q.
Proof.
  intros [Hs Hf]. unfold SQC.getHistoricalSuccessRate.
  set (s := SQC.successfulSwitches _) in *. set (f := SQC.failedSwitches _) in *.
  destruct (s + f =? 0)%Z eqn:E; [split; vm_compute; discriminate|].
  apply Z.eqb_neq in E.
  assert (Ht : (0 < inject_Z (s + f))%Q).
  { change 0%Q with (inject_Z 0). rewrite <- Zlt_Qlt. lia. }
  split.
  - apply Qle_shift_div_l; [exact Ht|]. rewrite Qmult_0_l.
    change 0%Q with (inject_Z 0). rewrite <- Zle_Qle. exact Hs.
  - apply Qle_shift_div_r; [exact Ht|]. rewrite Qmult_1_l.
    rewrite <- Zle_Qle. lia.
Qed.

Lemma clamp01_id (x : Q) : (0 <= x <= 1)%Q -> (SQC.clamp01 x == x)%Q.
Proof.
  intros [H0 H1]. unfold SQC.clamp01, Math_min, Math_max.
  destruct (ltb 0 x) eqn:E0.
  - destruct (ltb x 1) eqn:E1; [reflexivity|].
    apply ltb_ge in E1. apply Qle_antisym; assumption.
  - apply ltb_ge in E0.
    assert (Hx : (x == 0)%Q) by (apply Qle_antisym; assumption).
    destruct (ltb 0 1) eqn:E1; [symmetry; exact Hx|discriminate E1].
Qed.

Lemma clamp01_bounds (x : Q) : (0 <= SQC.clamp01 x <= 1)%Q.
Proof.
  unfold SQC.clamp01, Math_min, Math_max.
  destruct (ltb 0 x) eqn:E0.
  - apply ltb_lt in E0. destruct (ltb x 1) eqn:E1.
    + apply ltb_lt in E1. split; apply Qlt_le_weak; assumption.
    + split; vm_compute; discriminate.
  - destruct (ltb 0 1); split; vm_compute; discriminate.
Qed.

(** The value [calculateRecommendationConfidence] returns for a present
    performance analysis. *)
Lemma confidence_value (ctl : SQC.Controller) (pa : SQC.PerformanceAnalysis)
    (na : option NetworkAssessment) :
  Invariant.counters_nonneg ctl ->
  exists q,
    SQC.calculateRecommendationConfidence ctl (Some pa) na = Normal q /\
    (q == 0.5 + (match na with Some _ => 0.2 | None => 0 end)
         + (if (0 <? SQC.problemStreams (SQC.pa_metrics pa))%Z then 0.2 else 0)
         + (SQC.getHistoricalSuccessRate ctl - 0.5) * 0.2)%Q /\
    (0 <= q <= 1)%Q.
Proof.
  intros Hc. pose proof (success_rate_bounds ctl Hc) as Hr.
  unfold SQC.calculateRecommendationConfidence. cbn [deref bind].
  eexists. split; [reflexivity|]. split; [|apply clamp01_bounds].
  set (r := SQC.getHistoricalSuccessRate ctl) in *.
  rewrite clamp01_id.
  - destruct na, (0 <? SQC.problemStreams (SQC.pa_metrics pa))%Z; lra.
  - destruct na, (0 <? SQC.problemStreams (SQC.pa_metrics pa))%Z; lra.
Qed.

Lemma push_bounded (bucket : string) (item : SQC.Item) (b : SQC.Buckets) :
  Invariant.confidences_bounded b ->
  (forall q, SQC.confidence item = Some q -> (0 <= q <= 1)%Q) ->
  Invariant.confidences_bounded (SQC.push bucket item b).
Proof.
  intros Hb Hi it q Hin Hq. unfold SQC.push in Hin.
  assert (it = item \/ it ∈ SQC.immediate b ++ SQC.gradual b ++ SQC.fallback b) as [->|H].
  { repeat match type of Hin with context [if ?c then _ else _] => destruct c end;
      cbn in Hin; rewrite !elem_of_app in Hin; rewrite ?list_elem_of_singleton in Hin;
      rewrite !elem_of_app; tauto. }
  - exact (Hi q Hq).
  - exact (Hb it q H Hq).
Qed.

Lemma fold_bounded {A} (step : SQC.Buckets -> A -> SQC.Buckets) (l : list A)
    (b : SQC.Buckets) :
  (forall acc x, Invariant.confidences_bounded acc ->
                 Invariant.confidences_bounded (step acc x)) ->
  Invariant.confidences_bounded b ->
  Invariant.confidences_bounded (fold_left step l b).
Proof.
  intros Hstep. revert b. induction l as [|x l IH]; intros b Hb; simpl; [exact Hb|].
  apply IH. apply Hstep. exact Hb.
Qed.

Lemma streamItem_bounded (type : string) (index : Z) (cur rq : string) (conf : Q) :
  (0 <= conf <= 1)%Q ->
  forall q, SQC.confidence (SQC.streamItem type index cur rq conf) = Some q ->
            (0 <= q <= 1)%Q.
Proof. intros H q [= <-]. exact H. Qed.

Lemma controller_recommendation_bounded (ctl : SQC.Controller) (s : StreamInfo)
    (index now : Z) (r : SQC.StreamRec) :
  SQC.generateStreamRecommendation ctl s index now = Some r ->
  (0 <= SQC.sr_confidence r <= 1)%Q.
Proof.
  unfold SQC.generateStreamRecommendation.
  destruct (currentStats s) as [stats|]; [|discriminate].
  destruct (_ <? _)%Z; [discriminate|].
  repeat match goal with
         | |- context [if ?c then _ else _] => destruct c
         end;
    try discriminate; intros [= <-]; cbn; split; vm_compute; discriminate.
Qed.

(** The recommendations of the collector carry the constants 0.8, 0.9, 0.7
    and 0.6. *)
Lemma collector_recommendation_bounded (s : StreamInfo) (now : Z) (c c' : MSS.Collector)
    (r : MSS.Recommendation) :
  MSS.generateStreamRecommendation s now c = Normal (Some r, c') ->
  (0 <= MSS.confidence r <= 1)%Q.
Proof.
  unfold MSS.generateStreamRecommendation.
  destruct (_ && _); [discriminate|].
  destruct (currentStats s) as [stats|]; [|discriminate]. cbn [deref bind].
  destruct (MSS.chooseQuality c stats (metadata s)) as [[q conf]|] eqn:E; [|discriminate].
  intros [= <- _]. cbn [MSS.confidence].
  unfold MSS.chooseQuality in E.
  repeat match type of E with context [if ?b then _ else _] => destruct b end;
    try discriminate; injection E as _ <-; split; vm_compute; discriminate.
Qed.

Lemma layout_items_unscored (ctl : SQC.Controller) (mss : option MSS.Collector)
    (layout : string) (item : SQC.Item) :
  item ∈ SQC.generateLayoutOptimizations ctl mss layout ->
  SQC.confidence item = None.
Proof.
  unfold SQC.generateLayoutOptimizations.
  destruct (SQC.strategyFor _ _); [|intros H; inversion H].
  destruct mss as [c|]; [|intros H; inversion H].
  repeat match goal with |- context [if ?c then _ else _] => destruct c end.
  - intros H. apply list_elem_of_singleton in H. subst. reflexivity.
  - unfold SQC.optimizeGrid4Layout. intros H. apply elem_of_app in H as [H|H].
    + destruct (_ <? _)%Z; [|inversion H].
      apply list_elem_of_singleton in H. subst. reflexivity.
    + apply list_elem_of_fmap in H as (i & -> & _). reflexivity.
  - unfold SQC.optimizeGrid9Layout. intros H.
    apply list_elem_of_fmap in H as (i & -> & _). reflexivity.
  - intros H. inversion H.
Qed.

Lemma populate_bounded (ctl : SQC.Controller) (type : string)
    (streams : list StreamInfo) (mss : option MSS.Collector) (layout : string) (now : Z) :
  Invariant.confidences_bounded
    (SQC.populateRecommendations ctl type
       {| SQC.immediate := []; SQC.gradual := []; SQC.fallback := [] |}
       streams (SQC.generateLayoutOptimizations ctl mss layout) now).
Proof.
  assert (H0 : Invariant.confidences_bounded
                 {| SQC.immediate := []; SQC.gradual := []; SQC.fallback := [] |}).
  { intros it q Hin. inversion Hin. }
  unfold SQC.populateRecommendations.
  set (b' := if String.eqb type "emergency_downgrade" then _ else _).
  assert (Hb' : Invariant.confidences_bounded b').
  { subst b'.
    repeat match goal with |- context [if ?c then _ else _] => destruct c end.
    - apply fold_bounded; [|exact H0]. intros acc x Hacc. cbv beta.
      apply push_bounded; [exact Hacc|]. apply streamItem_bounded.
      split; vm_compute; discriminate.
    - apply fold_bounded; [|exact H0]. intros acc x Hacc. cbv beta.
      destruct (currentStats x.2); [|exact Hacc]. cbv beta iota.
      match goal with |- context [if ?c then _ else _] => destruct c end; [|exact Hacc].
      apply push_bounded; [exact Hacc|]. apply streamItem_bounded.
      split; vm_compute; discriminate.
    - apply fold_bounded; [|exact H0]. intros acc x Hacc. cbv beta.
      destruct (currentStats x.2); [|exact Hacc]. cbv beta iota.
      match goal with |- context [if ?c then _ else _] => destruct c end; [|exact Hacc].
      cbv zeta.
      match goal with |- context [if ?c then _ else _] => destruct c end; [|exact Hacc].
      apply push_bounded; [exact Hacc|]. apply streamItem_bounded.
      split; vm_compute; discriminate.
    - apply fold_bounded; [|exact H0]. intros acc x Hacc. cbv beta.
      destruct (SQC.generateStreamRecommendation ctl x.2 x.1 now) as [r|] eqn:E;
        [|exact Hacc].
      apply push_bounded; [exact Hacc|]. intros q [= <-].
      exact (controller_recommendation_bounded _ _ _ _ _ E). }
  intros it q Hin Hq. cbn in Hin.
  rewrite !elem_of_app in Hin.
  destruct Hin as [H|[[H|H]|H]].
  - apply (Hb' it q); [|exact Hq]. rewrite !elem_of_app. tauto.
  - apply (Hb' it q); [|exact Hq]. rewrite !elem_of_app. tauto.
  - rewrite (layout_items_unscored _ _ _ _ H) in Hq. discriminate.
  - apply (Hb' it q); [|exact Hq]. rewrite !elem_of_app. tauto.
Qed.

(** C7: the confidence of a synthesized bundle is 0.5, plus 0.2 when the
    network assessment accompanies the performance analysis, plus 0.2 when
    at least one problem stream exists, plus (ratio - 0.5) * 0.2 where
    ratio is successful switches over all reported switches, or 0.5 when
    none was reported; it lies in [0, 1], and so does the confidence of
    every recommendation in the three buckets of the bundle. *)
Theorem bundle_confidence
    (ctl ctl' : SQC.Controller) (c : MSS.Collector) (now : Z)
    (batch : SQC.BatchRecommendation) :
  Invariant.counters_nonneg ctl ->
  SQC.generateBatchRecommendations ctl (Some c) now = Normal (Some batch, ctl') ->
  let s := SQC.successfulSwitches (SQC.performanceMetrics ctl) in
  let f := SQC.failedSwitches (SQC.performanceMetrics ctl) in
  let ratio := if (s + f =? 0)%Z then 0.5%Q else (inject_Z s / inject_Z (s + f))%Q in
  let problems := SQC.problemStreams (SQC.pa_metrics (SQC.performanceAnalysis batch)) in
  let q := SQC.strategy_confidence (SQC.strategy batch) in
  (q == 0.5 + (match SQC.networkAssessment batch with Some _ => 0.2 | None => 0 end)
        + (if (0 <? problems)%Z then 0.2 else 0)
        + (ratio - 0.5) * 0.2)%Q /\
  (0 <= q <= 1)%Q /\
  Invariant.confidences_bounded (SQC.recommendations batch).
Proof.
  intros Hc Hgen. cbv zeta.
  unfold SQC.generateBatchRecommendations in Hgen.
  destruct (SQC.networkMonitor ctl); [|discriminate Hgen].
  destruct (MSS.getActiveStreams c) as [|s0 rest] eqn:Hact; [discriminate Hgen|].
  rewrite <- Hact in Hgen.
  destruct (confidence_value ctl
              (SQC.analyzeCurrentPerformance ctl (MSS.getActiveStreams c) now)
              (MSS.networkAssessment c) Hc) as (q & Hq & Hval & Hbound).
  rewrite Hq in Hgen. cbn [bind] in Hgen.
  injection Hgen as <- _.
  cbn [SQC.strategy SQC.strategy_confidence SQC.networkAssessment
       SQC.performanceAnalysis SQC.recommendations].
  split; [exact Hval|]. split; [exact Hbound|].
  apply populate_bounded.
Qed.

(** The theorem at work: assessment present, problem streams, one success
    out of one report: 0.5 + 0.2 + 0.2 + 0.1 = 1. *)
Lemma bundle_confidence_witness :
  exists batch ctl',
    SQC.generateBatchRecommendations Scenario.switched_controller
      (Some Scenario.poor_collector) 1034000 = Normal (Some batch, ctl') /\
    (SQC.strategy_confidence (SQC.strategy batch) == 1)%Q /\
    Invariant.confidences_bounded (SQC.recommendations batch).
Proof.
  assert (Hc : Invariant.counters_nonneg Scenario.switched_controller).
  { split; vm_compute; discriminate. }
  eexists _, _.
  match goal with |- ?G /\ _ => assert (H : G) by (vm_compute; reflexivity) end.
  split; [exact H|].
  destruct (bundle_confidence _ _ _ _ _ Hc H) as (Hq & _ & Hb).
  split; [|exact Hb].
  etransitivity; [exact Hq|]. vm_compute. reflexivity.
Defined.

(** ** Layout tiering *)

Lemma grid4_items (ctl : SQC.Controller) (streams : list StreamInfo)
    (na : option NetworkAssessment) (i : Z) (item : SQC.Item) :
  SQC.config ctl = SQC.default_config ->
  SQC.primaryIndex ctl = i ->
  (0 <= i < Z.of_nat (length streams))%Z ->
  item ∈ SQC.optimizeGrid4Layout ctl streams na ->
  (SQC.streamIndex item = i /\
   SQC.recommendedQuality item
   = Some (SQC.determineOptimalQuality SQC.default_config "1080p" na true)) \/
  (SQC.streamIndex item <> i /\
   SQC.recommendedQuality item
   = Some (SQC.determineOptimalQuality SQC.default_config "720p" na false)).
Proof.
  intros Hcfg Hp Hi Hin. unfold SQC.optimizeGrid4Layout in Hin.
  rewrite Hcfg, Hp in Hin. cbn [SQC.grid4 SQC.layoutStrategies SQC.default_config
    SQC.primaryStreamQuality SQC.preferredQuality SQC.optimalQualityOf] in Hin.
  replace (Z.min i (Z.max 0 (Z.of_nat (length streams) - 1))) with i in Hin by lia.
  apply elem_of_app in Hin as [Hin|Hin].
  - destruct (0 <? Z.of_nat (length streams))%Z; [|inversion Hin].
    apply list_elem_of_singleton in Hin. subst item. left. split; reflexivity.
  - apply list_elem_of_fmap in Hin as (j & -> & Hj).
    apply list_elem_of_In, filter_In in Hj as [_ Hj].
    right. split; [|reflexivity]. cbn.
    apply negb_true_iff, Z.eqb_neq in Hj. exact Hj.
Qed.

Lemma grid4_primary_present (ctl : SQC.Controller) (streams : list StreamInfo)
    (na : option NetworkAssessment) (i : Z) :
  SQC.primaryIndex ctl = i ->
  (0 <= i < Z.of_nat (length streams))%Z ->
  exists item, item ∈ SQC.optimizeGrid4Layout ctl streams na /\ SQC.streamIndex item = i.
Proof.
  intros Hp Hi. unfold SQC.optimizeGrid4Layout. rewrite Hp.
  replace (Z.min i (Z.max 0 (Z.of_nat (length streams) - 1))) with i by lia.
  destruct (0 <? Z.of_nat (length streams))%Z eqn:E; [|apply Z.ltb_ge in E; lia].
  eexists. split; [apply elem_of_app; left; apply list_elem_of_singleton; reflexivity|].
  reflexivity.
Qed.

Lemma grid4_ranks (na : option NetworkAssessment) :
  (indexOf SQC.qualityOrder (SQC.determineOptimalQuality SQC.default_config "720p" na false)
   <= indexOf SQC.qualityOrder
        (SQC.determineOptimalQuality SQC.default_config "1080p" na true))%Z.
Proof.
  destruct na as [[[] b st m]|]; vm_compute; discriminate.
Qed.

Lemma grid9_items (ctl : SQC.Controller) (streams : list StreamInfo)
    (na : option NetworkAssessment) (i : Z) (item : SQC.Item) :
  SQC.config ctl = SQC.default_config ->
  SQC.primaryIndex ctl = i ->
  SQC.currentLayout ctl = "grid9" ->
  item ∈ SQC.optimizeGrid9Layout ctl streams na ->
  let tiers := SQC.calculateQualityTiers (Z.of_nat (length streams)) na in
  (SQC.streamIndex item = i /\ SQC.recommendedQuality item = Some (SQC.tier0 tiers)) \/
  (SQC.streamIndex item <> i /\
   (SQC.recommendedQuality item = Some (SQC.tier1 tiers) \/
    SQC.recommendedQuality item = Some (SQC.tier2 tiers))).
Proof.
  intros Hcfg Hp Hl Hin. cbv zeta. unfold SQC.optimizeGrid9Layout in Hin.
  apply list_elem_of_fmap in Hin as (j & -> & _).
  unfold SQC.getStreamTier. rewrite Hp, Hl.
  cbn [SQC.layoutItem SQC.streamIndex SQC.recommendedQuality].
  change (String.eqb "grid9" "single") with false.
  change (String.eqb "grid9" "grid4") with false.
  change (String.eqb "grid9" "grid9") with true. cbv iota.
  destruct (j =? i)%Z eqn:E.
  - apply Z.eqb_eq in E. left. split; [exact E|].
    destruct na as [[[] b st m]|]; reflexivity.
  - apply Z.eqb_neq in E. right. split; [exact E|].
    destruct (j <? 4)%Z; [left|right]; destruct na as [[[] b st m]|]; reflexivity.
Qed.

Lemma grid9_primary_present (ctl : SQC.Controller) (streams : list StreamInfo)
    (na : option NetworkAssessment) (i : Z) :
  (0 <= i < Z.of_nat (length streams))%Z -> (i < 9)%Z ->
  exists item, item ∈ SQC.optimizeGrid9Layout ctl streams na /\ SQC.streamIndex item = i.
Proof.
  intros Hi H9. unfold SQC.optimizeGrid9Layout.
  eexists. split.
  - apply list_elem_of_fmap. exists i. split; [reflexivity|].
    apply list_elem_of_fmap. exists (Z.to_nat i). split; [lia|].
    apply list_elem_of_In, in_seq. lia.
  - reflexivity.
Qed.

Lemma grid9_ranks (n : Z) (na : option NetworkAssessment) :
  let tiers := SQC.calculateQualityTiers n na in
  (indexOf SQC.qualityOrder (SQC.tier1 tiers) <= indexOf SQC.qualityOrder (SQC.tier0 tiers))%Z /\
  (indexOf SQC.qualityOrder (SQC.tier2 tiers) <= indexOf SQC.qualityOrder (SQC.tier0 tiers))%Z.
Proof.
  destruct na as [[[] b st m]|]; split; vm_compute; discriminate.
Qed.

(** C8: with the default layout table, in the grid4 and the grid9 layout,
    once [setPrimaryIndex(i)] has named a displayed stream index as
    primary, that index is in tier0, the layout optimisation holds a
    recommendation for it, and the quality recommended for index [i] is at
    least as high on the ladder as the quality recommended for any index of
    that layout, wherever [i] sits. *)
Theorem primary_gets_highest_tier
    (ctl : SQC.Controller) (c : MSS.Collector) (layout : string) (i : Z) :
  SQC.config ctl = SQC.default_config ->
  layout = "grid4" \/ layout = "grid9" ->
  (0 <= i < Z.of_nat (length (MSS.getActiveStreams c)))%Z ->
  (layout = "grid9" -> (i < 9)%Z) ->
  let ctl' := SQC.setPrimaryIndex i (SQC.updateLayout layout ctl) in
  let recs := SQC.generateLayoutOptimizations ctl' (Some c) layout in
  SQC.getStreamTier ctl' i = "tier0" /\
  exists q,
    (exists item, item ∈ recs /\ SQC.streamIndex item = i) /\
    (forall item, item ∈ recs -> SQC.streamIndex item = i ->
                  SQC.recommendedQuality item = Some q) /\
    (forall item, item ∈ recs ->
       exists q', SQC.recommendedQuality item = Some q' /\
                  (indexOf SQC.qualityOrder q' <= indexOf SQC.qualityOrder q)%Z).
Proof.
  intros Hcfg Hlayout Hi H9. cbv zeta.
  set (ctl' := SQC.setPrimaryIndex i (SQC.updateLayout layout ctl)).
  assert (Hcfg' : SQC.config ctl' = SQC.default_config) by exact Hcfg.
  assert (Hp : SQC.primaryIndex ctl' = i) by reflexivity.
  assert (Hl : SQC.currentLayout ctl' = layout) by reflexivity.
  split.
  { unfold SQC.getStreamTier. rewrite Hp, Z.eqb_refl. reflexivity. }
  set (streams := MSS.getActiveStreams c) in *.
  set (na := MSS.networkAssessment c).
  destruct Hlayout as [-> | ->].
  - assert (Hrecs : SQC.generateLayoutOptimizations ctl' (Some c) "grid4"
                    = SQC.optimizeGrid4Layout ctl' streams na) by reflexivity.
    rewrite Hrecs.
    exists (SQC.determineOptimalQuality SQC.default_config "1080p" na true).
    split; [exact (grid4_primary_present ctl' streams na i Hp Hi)|].
    split.
    + intros item Hin Hidx.
      destruct (grid4_items ctl' streams na i item Hcfg' Hp Hi Hin) as [[_ Hq]|[Hne _]];
        [exact Hq|contradiction].
    + intros item Hin.
      destruct (grid4_items ctl' streams na i item Hcfg' Hp Hi Hin) as [[_ Hq]|[_ Hq]];
        eexists; (split; [exact Hq|]).
      * apply Z.le_refl.
      * apply grid4_ranks.
  - assert (Hrecs : SQC.generateLayoutOptimizations ctl' (Some c) "grid9"
                    = SQC.optimizeGrid9Layout ctl' streams na) by reflexivity.
    rewrite Hrecs.
    pose proof (grid9_ranks (Z.of_nat (length streams)) na) as [Hr1 Hr2].
    exists (SQC.tier0 (SQC.calculateQualityTiers (Z.of_nat (length streams)) na)).
    split; [exact (grid9_primary_present ctl' streams na i Hi (H9 eq_refl))|].
    split.
    + intros item Hin Hidx.
      destruct (grid9_items ctl' streams na i item Hcfg' Hp Hl Hin) as [[_ Hq]|[Hne _]];
        [exact Hq|contradiction].
    + intros item Hin.
      destruct (grid9_items ctl' streams na i item Hcfg' Hp Hl Hin)
        as [[_ Hq]|[_ [Hq|Hq]]]; eexists; (split; [exact Hq|]).
      * apply Z.le_refl.
      * exact Hr1.
      * exact Hr2.
Qed.

(** The theorem at work on the 2x2 grid with index 2 made primary. *)
Lemma primary_gets_highest_tier_witness :
  let ctl' := SQC.setPrimaryIndex 2 (SQC.updateLayout "grid4" Scenario.controller) in
  let recs := SQC.generateLayoutOptimizations ctl' (Some Scenario.grid_collector) "grid4" in
  SQC.getStreamTier ctl' 2 = "tier0" /\
  exists q,
    (exists item, item ∈ recs /\ SQC.streamIndex item = 2%Z) /\
    (forall item, item ∈ recs -> SQC.streamIndex item = 2%Z ->
                  SQC.recommendedQuality item = Some q) /\
    (forall item, item ∈ recs ->
       exists q', SQC.recommendedQuality item = Some q' /\
                  (indexOf SQC.qualityOrder q' <= indexOf SQC.qualityOrder q)%Z).
Proof.
  apply (primary_gets_highest_tier Scenario.controller Scenario.grid_collector "grid4" 2).
  - reflexivity.
  - left. reflexivity.
  - vm_compute. split; discriminate || reflexivity.
  - discriminate.
Defined.

(** ** The registry of streams *)

Section OrderedMapFacts.
Context {V : Type}.
Implicit Types (m : list (string * V)) (k : string) (v : V).

Lemma map_get_set_eq k v m : map_get k (map_set k v m) = Some v.
Proof.
  induction m as [|[k' v'] m IH]; simpl.
  - rewrite String.eqb_refl. reflexivity.
  - destruct (String.eqb_spec k' k) as [->|Hne]; simpl.
    + rewrite String.eqb_refl. reflexivity.
    + apply String.eqb_neq in Hne. rewrite Hne. exact IH.
Qed.

Lemma map_get_set_ne k k' v m : k' <> k -> map_get k' (map_set k v m) = map_get k' m.
Proof.
  intros Hne. induction m as [|[k0 v0] m IH]; simpl.
  - destruct (String.eqb_spec k k'); [congruence|reflexivity].
  - destruct (String.eqb_spec k0 k) as [->|H0]; simpl.
    + destruct (String.eqb_spec k k'); [congruence|reflexivity].
    + rewrite IH. reflexivity.
Qed.

Lemma map_get_delete_ne k k' m : k' <> k -> map_get k' (map_delete k m) = map_get k' m.
Proof.
  intros Hne. induction m as [|[k0 v0] m IH]; simpl; [reflexivity|].
  destruct (String.eqb_spec k0 k) as [->|H0]; simpl.
  - destruct (String.eqb_spec k k'); [congruence|reflexivity].
  - rewrite IH. reflexivity.
Qed.

Lemma map_get_None k m : map_get k m = None <-> k ∉ fst <$> m.
Proof.
  induction m as [|[k0 v0] m IH]; simpl.
  - split; [intros _ H; inversion H|reflexivity].
  - rewrite not_elem_of_cons. destruct (String.eqb_spec k0 k) as [->|H0].
    + split; [discriminate|intros [H _]; congruence].
    + rewrite IH. split; [intros H; split; [congruence|exact H]|tauto].
Qed.

Lemma map_delete_keys k m : NoDup (fst <$> m) -> k ∉ fst <$> map_delete k m.
Proof.
  induction m as [|[k0 v0] m IH]; simpl; intros Hnd.
  - intros H. inversion H.
  - apply NoDup_cons in Hnd as [Hk0 Hnd].
    destruct (String.eqb_spec k0 k) as [->|H0]; [exact Hk0|].
    simpl. rewrite not_elem_of_cons. split; [congruence|exact (IH Hnd)].
Qed.

Lemma map_delete_subset k m kv : kv ∈ map_delete k m -> kv ∈ m.
Proof.
  induction m as [|[k0 v0] m IH]; simpl; [tauto|].
  destruct (String.eqb_spec k0 k) as [->|H0].
  - intros H. apply elem_of_cons. right. exact H.
  - rewrite !elem_of_cons. intros [H|H]; [left; exact H|right; exact (IH H)].
Qed.

Lemma map_delete_absent k m : map_get k m = None -> map_delete k m = m.
Proof.
  induction m as [|[k0 v0] m IH]; simpl; [reflexivity|].
  destruct (String.eqb_spec k0 k) as [->|H0]; [discriminate|].
  intros H. rewrite (IH H). reflexivity.
Qed.

End OrderedMapFacts.

(** C9 (amended): [addStream] never fails: registering an id, registered
    or not, completes normally and leaves under that id a fresh entry (no
    snapshot, empty quality history, active) and an empty history, so a
    second registration silently replaces the state of the first; the
    entries and histories of all other ids are untouched. *)
Theorem addStream_replaces
    (streamId other : string) (md : MSS.MetadataArg) (now : Z) (c : MSS.Collector) :
  other <> streamId ->
  exists c' info,
    MSS.addStream streamId md now c = Normal c' /\
    map_get streamId (MSS.streamStats c') = Some info /\
    id info = streamId /\ currentStats info = None /\
    qualityHistory info = [] /\ isActive info = true /\
    MSS.historicalData c' !! streamId = Some [] /\
    map_get other (MSS.streamStats c') = map_get other (MSS.streamStats c) /\
    MSS.historicalData c' !! other = MSS.historicalData c !! other.
Proof.
  intros Hne. unfold MSS.addStream. eexists _, _.
  split; [reflexivity|]. cbn [MSS.streamStats MSS.historicalData].
  split; [apply map_get_set_eq|].
  repeat (split; [reflexivity|]).
  split; [apply lookup_insert_eq|].
  split; [apply map_get_set_ne; exact Hne|].
  apply lookup_insert_ne. congruence.
Qed.

(** The theorem at work: re-registering [view_0] in the grid leaves
    [view_1] alone. *)
Lemma addStream_replaces_witness :
  exists c' info,
    MSS.addStream "view_0" Scenario.no_metadata 1010000 Scenario.grid_collector
    = Normal c' /\
    map_get "view_0" (MSS.streamStats c') = Some info /\
    currentStats info = None /\
    map_get "view_1" (MSS.streamStats c')
    = map_get "view_1" (MSS.streamStats Scenario.grid_collector).
Proof.
  assert (Hne : "view_1" <> "view_0") by discriminate.
  destruct (addStream_replaces "view_0" "view_1" Scenario.no_metadata 1010000
              Scenario.grid_collector Hne)
    as (c' & info & H1 & H2 & _ & H4 & _ & _ & _ & H8 & _).
  exists c', info. repeat split; assumption.
Defined.

(** C9 as stated fails: registering [view_0] a second time does not end in
    a DuplicateStreamError; it completes normally, and the snapshot the
    stream had is gone, so that the stream is no longer among the active
    ones. *)
Lemma duplicate_registration_counterexample :
  let c := Scenario.single_collector in
  let again := MSS.addStream "view_0" Scenario.no_metadata 1010000 c in
  (exists info st, map_get "view_0" (MSS.streamStats c) = Some info /\
                   currentStats info = Some st) /\
  again <> Throw "DuplicateStreamError" /\
  exists c' info',
    again = Normal c' /\
    map_get "view_0" (MSS.streamStats c') = Some info' /\
    currentStats info' = None /\
    MSS.getActiveStreams c' = [].
Proof.
  cbv zeta. split; [eexists _, _; split; vm_compute; reflexivity|].
  split; [discriminate|].
  eexists _, _. split; [reflexivity|].
  split; [vm_compute; reflexivity|]. split; vm_compute; reflexivity.
Qed.

(** *** Well-formedness of the registry is kept by every operation *)

Lemma map_set_keys {V} (k x : string) (v : V) (m : list (string * V)) :
  x ∈ fst <$> map_set k v m <-> x = k \/ x ∈ fst <$> m.
Proof.
  induction m as [|[k0 v0] m IH]; simpl.
  - rewrite list_elem_of_singleton. split; [tauto|].
    intros [H|H]; [exact H|inversion H].
  - destruct (String.eqb_spec k0 k) as [->|H0]; simpl; rewrite !elem_of_cons.
    + tauto.
    + rewrite IH. tauto.
Qed.

Lemma map_set_NoDup {V} (k : string) (v : V) (m : list (string * V)) :
  NoDup (fst <$> m) -> NoDup (fst <$> map_set k v m).
Proof.
  induction m as [|[k0 v0] m IH]; simpl; intros Hnd.
  - apply NoDup_singleton.
  - apply NoDup_cons in Hnd as [Hk0 Hnd].
    destruct (String.eqb_spec k0 k) as [->|H0]; simpl; apply NoDup_cons.
    + split; assumption.
    + split; [|exact (IH Hnd)]. rewrite map_set_keys.
      intros [H|H]; [congruence|exact (Hk0 H)].
Qed.

Lemma map_set_Forall {V} (P : string * V -> Prop) (k : string) (v : V)
    (m : list (string * V)) :
  P (k, v) -> Forall P m -> Forall P (map_set k v m).
Proof.
  intros Hkv. induction 1 as [|[k0 v0] m H0 Hm IH]; simpl.
  - repeat constructor. exact Hkv.
  - destruct (String.eqb k0 k); constructor; assumption.
Qed.

Lemma map_delete_NoDup {V} (k : string) (m : list (string * V)) :
  NoDup (fst <$> m) -> NoDup (fst <$> map_delete k m).
Proof.
  induction m as [|[k0 v0] m IH]; simpl; intros Hnd; [exact Hnd|].
  apply NoDup_cons in Hnd as [Hk0 Hnd].
  destruct (String.eqb_spec k0 k) as [->|H0]; [exact Hnd|].
  simpl. apply NoDup_cons. split; [|exact (IH Hnd)].
  intros H. apply Hk0. apply list_elem_of_fmap in H as ([k1 v1] & -> & Hin).
  apply list_elem_of_fmap. exists (k1, v1). split; [reflexivity|].
  exact (map_delete_subset _ _ _ Hin).
Qed.

Lemma map_get_elem {V} (k : string) (v : V) (m : list (string * V)) :
  map_get k m = Some v -> (k, v) ∈ m.
Proof.
  induction m as [|[k0 v0] m IH]; simpl; [discriminate|].
  destruct (String.eqb_spec k0 k) as [->|H0].
  - intros [= ->]. apply elem_of_cons. left. reflexivity.
  - intros H. apply elem_of_cons. right. exact (IH H).
Qed.

Lemma registry_wf_new (cfg : MSS.Config) (now : Z) :
  Invariant.registry_wf (MSS.new cfg now).
Proof. split; simpl; constructor. Qed.

Lemma registry_wf_addStream (streamId : string) (md : MSS.MetadataArg) (now : Z)
    (c c' : MSS.Collector) :
  Invariant.registry_wf c ->
  MSS.addStream streamId md now c = Normal c' ->
  Invariant.registry_wf c'.
Proof.
  intros [Hnd Hid] [= <-]. split; cbn [MSS.streamStats].
  - apply map_set_NoDup. exact Hnd.
  - apply map_set_Forall; [reflexivity|exact Hid].
Qed.

Lemma registry_wf_updateStreamStats (streamId : string) (r : RawStats) (q : QualityEval)
    (now : Z) (c : MSS.Collector) :
  Invariant.registry_wf c ->
  Invariant.registry_wf (MSS.updateStreamStats streamId r q now c).
Proof.
  intros [Hnd Hid]. unfold MSS.updateStreamStats.
  destruct (map_get streamId (MSS.streamStats c)) as [info|] eqn:E; [|split; assumption].
  destruct (negb (isActive info)); [split; assumption|].
  split; cbn [MSS.streamStats].
  - apply map_set_NoDup. exact Hnd.
  - apply map_set_Forall; [|exact Hid]. cbn.
    rewrite Forall_forall in Hid. exact (Hid _ (map_get_elem _ _ _ E)).
Qed.

Lemma registry_wf_removeStream (streamId : string) (c : MSS.Collector) :
  Invariant.registry_wf c -> Invariant.registry_wf (MSS.removeStream streamId c).
Proof.
  intros [Hnd Hid]. unfold MSS.removeStream.
  destruct (map_get streamId (MSS.streamStats c)); [|split; assumption].
  split; cbn [MSS.streamStats].
  - apply map_delete_NoDup. exact Hnd.
  - rewrite Forall_forall in *. intros kv Hin.
    exact (Hid kv (map_delete_subset _ _ _ Hin)).
Qed.

(** *** What [removeStream] does achieve *)

Lemma removeStream_state_gone (streamId : string) (c : MSS.Collector) :
  Invariant.registry_wf c ->
  map_get streamId (MSS.streamStats (MSS.removeStream streamId c)) = None.
Proof.
  intros [Hnd _]. unfold MSS.removeStream.
  destruct (map_get streamId (MSS.streamStats c)) eqn:E; [|exact E].
  cbn [MSS.streamStats]. apply map_get_None. apply map_delete_keys. exact Hnd.
Qed.

Lemma removeStream_idempotent (streamId : string) (c : MSS.Collector) :
  Invariant.registry_wf c ->
  MSS.removeStream streamId (MSS.removeStream streamId c) = MSS.removeStream streamId c.
Proof.
  intros Hwf. pose proof (removeStream_state_gone streamId c Hwf) as H.
  unfold MSS.removeStream at 1. rewrite H. reflexivity.
Qed.

Lemma removeStream_not_active (streamId : string) (c : MSS.Collector) (s : StreamInfo) :
  Invariant.registry_wf c ->
  s ∈ MSS.getActiveStreams (MSS.removeStream streamId c) ->
  id s <> streamId.
Proof.
  intros Hwf Hin Heq.
  pose proof (removeStream_state_gone streamId c Hwf) as Hgone.
  destruct (registry_wf_removeStream streamId c Hwf) as [_ Hid].
  unfold MSS.getActiveStreams in Hin.
  apply list_elem_of_In, filter_In in Hin as [Hin _].
  apply list_elem_of_In, list_elem_of_fmap in Hin as ([k v] & -> & Hkv).
  rewrite Forall_forall in Hid. pose proof (Hid _ Hkv) as Hk. simpl in *.
  apply map_get_None in Hgone. apply Hgone.
  apply list_elem_of_fmap. exists (k, v). split; [simpl; congruence|exact Hkv].
Qed.

(** The history and the cached recommendation of a stream are not fields
    [removeStream] touches. *)
Lemma removeStream_keeps_history (streamId : string) (c : MSS.Collector) :
  MSS.historicalData (MSS.removeStream streamId c) = MSS.historicalData c /\
  MSS.lastRecommendations (MSS.removeStream streamId c) = MSS.lastRecommendations c.
Proof.
  unfold MSS.removeStream.
  destruct (map_get streamId (MSS.streamStats c)); split; reflexivity.
Qed.

(** C10, on the code: after [view_0] has been registered, has reported
    telemetry and has been removed, its state is gone from the registry and
    it is no longer active, but its history is still stored and is still
    returned by [getStreamHistory], and its cached recommendation is still
    there. *)
Theorem removed_stream_history_retained :
  let c := MSS.removeStream "view_0" Scenario.single_collector in
  map_get "view_0" (MSS.streamStats c) = None /\
  MSS.getActiveStreams c = [] /\
  (exists h, MSS.historicalData c !! "view_0" = Some h /\ length h = 1%nat) /\
  length (MSS.getStreamHistory "view_0" 30000 1004000 c) = 1%nat /\
  is_Some (MSS.lastRecommendations c !! "view_0").
Proof.
  cbv zeta. split; [vm_compute; reflexivity|].
  split; [vm_compute; reflexivity|].
  split; [eexists; split; vm_compute; reflexivity|].
  split; [vm_compute; reflexivity|].
  vm_compute. eexists. reflexivity.
Qed.

(** *** No reference to a removed stream *)

Lemma map_delete_filter {V} (k : string) (m : list (string * V)) :
  NoDup (fst <$> m) ->
  map_delete k m = List.filter (fun kv => negb (String.eqb kv.1 k)) m.
Proof.
  induction m as [|[k0 v0] m IH]; simpl; intros Hnd; [reflexivity|].
  apply NoDup_cons in Hnd as [Hk0 Hnd].
  destruct (String.eqb_spec k0 k) as [->|H0]; simpl.
  - symmetry. apply forallb_filter_id. apply forallb_forall. intros [k1 v1] Hin.
    simpl. apply negb_true_iff, String.eqb_neq. intros ->. apply Hk0.
    apply list_elem_of_fmap. exists (k, v1). split; [reflexivity|].
    apply list_elem_of_In. exact Hin.
  - rewrite (IH Hnd). reflexivity.
Qed.

(** After [removeStream(id)] the active streams are the former active
    streams without the one registered under [id]. *)
Lemma removeStream_active (streamId : string) (c : MSS.Collector) :
  Invariant.registry_wf c ->
  MSS.getActiveStreams (MSS.removeStream streamId c)
  = List.filter (fun s => negb (String.eqb (id s) streamId)) (MSS.getActiveStreams c).
Proof.
  intros [Hnd Hid]. unfold MSS.getActiveStreams, MSS.removeStream.
  destruct (map_get streamId (MSS.streamStats c)) eqn:E; cbn [MSS.streamStats].
  - rewrite (map_delete_filter _ _ Hnd). clear E Hnd.
    induction Hid as [|[k v] m Hkv Hm IH]; [reflexivity|].
    simpl in Hkv. cbn [List.filter fst snd fmap list_fmap].
    rewrite <- Hkv.
    destruct (negb (String.eqb (id v) streamId)) eqn:Ek;
      cbn [fmap list_fmap List.filter snd]; destruct (MSS.has_snapshot v);
      cbn [List.filter]; rewrite ?Ek; rewrite IH; reflexivity.
  - apply map_get_None in E. symmetry. apply forallb_filter_id, forallb_forall.
    intros s Hin. apply filter_In in Hin as [Hin _].
    apply list_elem_of_In, list_elem_of_fmap in Hin as ([k v] & -> & Hkv).
    rewrite Forall_forall in Hid. pose proof (Hid _ Hkv) as Hk. simpl in *.
    apply negb_true_iff, String.eqb_neq. intros Heq. apply E.
    apply list_elem_of_fmap. exists (k, v). split; [simpl; congruence|exact Hkv].
Qed.

Lemma fold_left_invariant {A B} (P : B -> Prop) (step : B -> A -> B) (l : list A) (b : B) :
  (forall acc x, x ∈ l -> P acc -> P (step acc x)) -> P b -> P (fold_left step l b).
Proof.
  revert b. induction l as [|x l IH]; intros b Hstep Hb; simpl; [exact Hb|].
  apply IH.
  - intros acc y Hy. apply Hstep. apply elem_of_cons. right. exact Hy.
  - apply Hstep; [apply elem_of_cons; left; reflexivity|exact Hb].
Qed.

Lemma push_ids_among (streams : list StreamInfo) (bucket : string) (item : SQC.Item)
    (b : SQC.Buckets) :
  Invariant.ids_among streams b ->
  (forall k, SQC.streamId item = Some k -> exists s, s ∈ streams /\ id s = k) ->
  Invariant.ids_among streams (SQC.push bucket item b).
Proof.
  intros Hb Hi it k Hin Hk. unfold SQC.push in Hin.
  assert (it = item \/ it ∈ SQC.immediate b ++ SQC.gradual b ++ SQC.fallback b) as [->|H].
  { repeat match type of Hin with context [if ?c then _ else _] => destruct c end;
      cbn in Hin; rewrite !elem_of_app in Hin; rewrite ?list_elem_of_singleton in Hin;
      rewrite !elem_of_app; tauto. }
  - exact (Hi k Hk).
  - exact (Hb it k H Hk).
Qed.

Lemma indexed_elem (streams : list StreamInfo) (x : Z * StreamInfo) :
  x ∈ SQC.indexed streams -> x.2 ∈ streams.
Proof.
  unfold SQC.indexed. intros H. apply list_elem_of_lookup in H as [i Hi].
  rewrite list_lookup_imap in Hi.
  destruct (streams !! i) as [s|] eqn:E; [|discriminate].
  injection Hi as <-. simpl. apply list_elem_of_lookup. exists i. exact E.
Qed.

Lemma controller_recommendation_id (ctl : SQC.Controller) (s : StreamInfo)
    (index now : Z) (r : SQC.StreamRec) :
  SQC.generateStreamRecommendation ctl s index now = Some r -> SQC.sr_streamId r = id s.
Proof.
  unfold SQC.generateStreamRecommendation.
  destruct (currentStats s) as [stats|]; [|discriminate].
  destruct (_ <? _)%Z; [discriminate|].
  repeat match goal with
         | |- context [if ?c then _ else _] => destruct c
         end;
    try discriminate; intros [= <-]; reflexivity.
Qed.

Lemma layout_items_anonymous (ctl : SQC.Controller) (mss : option MSS.Collector)
    (layout : string) (item : SQC.Item) :
  item ∈ SQC.generateLayoutOptimizations ctl mss layout -> SQC.streamId item = None.
Proof.
  unfold SQC.generateLayoutOptimizations.
  destruct (SQC.strategyFor _ _); [|intros H; inversion H].
  destruct mss as [c|]; [|intros H; inversion H].
  repeat match goal with |- context [if ?c then _ else _] => destruct c end.
  - intros H. apply list_elem_of_singleton in H. subst. reflexivity.
  - unfold SQC.optimizeGrid4Layout. intros H. apply elem_of_app in H as [H|H].
    + destruct (_ <? _)%Z; [|inversion H].
      apply list_elem_of_singleton in H. subst. reflexivity.
    + apply list_elem_of_fmap in H as (i & -> & _). reflexivity.
  - unfold SQC.optimizeGrid9Layout. intros H.
    apply list_elem_of_fmap in H as (i & -> & _). reflexivity.
  - intros H. inversion H.
Qed.

Lemma populate_ids_among (ctl : SQC.Controller) (type : string)
    (streams : list StreamInfo) (mss : option MSS.Collector) (layout : string) (now : Z) :
  Invariant.ids_among streams
    (SQC.populateRecommendations ctl type
       {| SQC.immediate := []; SQC.gradual := []; SQC.fallback := [] |}
       streams (SQC.generateLayoutOptimizations ctl mss layout) now).
Proof.
  assert (H0 : Invariant.ids_among streams
                 {| SQC.immediate := []; SQC.gradual := []; SQC.fallback := [] |}).
  { intros it q Hin. inversion Hin. }
  unfold SQC.populateRecommendations.
  set (b' := if String.eqb type "emergency_downgrade" then _ else _).
  assert (Hb' : Invariant.ids_among streams b').
  { subst b'.
    repeat match goal with |- context [if ?c then _ else _] => destruct c end;
      unfold SQC.generateEmergencyRecommendations, SQC.generateConservativeRecommendations,
        SQC.generateEnhancementRecommendations, SQC.generateBalancedRecommendations;
      (apply (fold_left_invariant (Invariant.ids_among streams)); [|exact H0]);
      intros acc x Hx Hacc; cbv beta.
    - apply push_ids_among; [exact Hacc|]. discriminate.
    - destruct (currentStats x.2); [|exact Hacc]. cbv beta iota.
      match goal with |- context [if ?c then _ else _] => destruct c end; [|exact Hacc].
      apply push_ids_among; [exact Hacc|]. discriminate.
    - destruct (currentStats x.2); [|exact Hacc]. cbv beta iota.
      match goal with |- context [if ?c then _ else _] => destruct c end; [|exact Hacc].
      cbv zeta.
      match goal with |- context [if ?c then _ else _] => destruct c end; [|exact Hacc].
      apply push_ids_among; [exact Hacc|]. discriminate.
    - destruct (SQC.generateStreamRecommendation ctl x.2 x.1 now) as [r|] eqn:E;
        [|exact Hacc].
      apply push_ids_among; [exact Hacc|]. intros k [= <-].
      exists x.2. split; [exact (indexed_elem _ _ Hx)|].
      symmetry. exact (controller_recommendation_id _ _ _ _ _ E). }
  intros it k Hin Hk. cbn in Hin.
  rewrite !elem_of_app in Hin.
  destruct Hin as [H|[[H|H]|H]].
  - apply (Hb' it k); [|exact Hk]. rewrite !elem_of_app. tauto.
  - apply (Hb' it k); [|exact Hk]. rewrite !elem_of_app. tauto.
  - rewrite (layout_items_anonymous _ _ _ _ H) in Hk. discriminate.
  - apply (Hb' it k); [|exact Hk]. rewrite !elem_of_app. tauto.
Qed.

(** A batch synthesized after [removeStream(id)] names [id] in none of its
    buckets. *)
Lemma removed_stream_not_in_batch
    (streamId : string) (ctl ctl' : SQC.Controller) (c : MSS.Collector) (now : Z)
    (batch : SQC.BatchRecommendation) (item : SQC.Item) :
  Invariant.registry_wf c ->
  SQC.generateBatchRecommendations ctl (Some (MSS.removeStream streamId c)) now
  = Normal (Some batch, ctl') ->
  item ∈ SQC.immediate (SQC.recommendations batch)
         ++ SQC.gradual (SQC.recommendations batch)
         ++ SQC.fallback (SQC.recommendations batch) ->
  SQC.streamId item <> Some streamId.
Proof.
  intros Hwf Hgen Hin Hk.
  unfold SQC.generateBatchRecommendations in Hgen.
  destruct (SQC.networkMonitor ctl); [|discriminate Hgen].
  destruct (MSS.getActiveStreams (MSS.removeStream streamId c)) as [|s0 rest] eqn:Hact;
    [discriminate Hgen|].
  rewrite <- Hact in Hgen.
  destruct (confidence_completes ctl
              (SQC.analyzeCurrentPerformance ctl
                 (MSS.getActiveStreams (MSS.removeStream streamId c)) now)
              (MSS.networkAssessment (MSS.removeStream streamId c))) as [q Hq].
  rewrite Hq in Hgen. cbn [bind] in Hgen. injection Hgen as <- _.
  cbn [SQC.recommendations] in Hin.
  destruct (populate_ids_among _ _ _ _ _ _ _ _ Hin Hk) as (s & Hs & Hid).
  exact (removeStream_not_active streamId c s Hwf Hs Hid).
Qed.

(** ** A whole analysis cycle under bandwidth pressure *)

Lemma generateStreamRecommendation_frame
    (s : StreamInfo) (now : Z) (c c' : MSS.Collector) (r : option MSS.Recommendation) :
  MSS.generateStreamRecommendation s now c = Normal (r, c') ->
  MSS.config c' = MSS.config c /\ MSS.aggregatedStats c' = MSS.aggregatedStats c.
Proof.
  unfold MSS.generateStreamRecommendation.
  destruct (_ && _); [intros [= _ <-]; split; reflexivity|].
  destruct (currentStats s) as [stats|]; [|discriminate]. cbn [deref bind].
  destruct (MSS.chooseQuality c stats (metadata s)) as [[q conf]|];
    intros [= _ <-]; split; reflexivity.
Qed.

Lemma generateStreamRecommendation_downgrade
    (s : StreamInfo) (now : Z) (c c' : MSS.Collector) (r : MSS.Recommendation) :
  MSS.canUpgradeBasedOnBandwidth c = false ->
  MSS.generateStreamRecommendation s now c = Normal (Some r, c') ->
  MSS.needsDowngrade (MSS.m_packetLoss (MSS.metrics r)) (MSS.m_jitter (MSS.metrics r))
    (MSS.m_fps (MSS.metrics r)) = true.
Proof.
  intros Hup. unfold MSS.generateStreamRecommendation.
  destruct (_ && _); [discriminate|].
  destruct (currentStats s) as [stats|]; [|discriminate]. cbn [deref bind].
  destruct (MSS.chooseQuality c stats (metadata s)) as [[q conf]|] eqn:E; [|discriminate].
  intros [= <- _]. cbn [MSS.metrics MSS.m_packetLoss MSS.m_jitter MSS.m_fps].
  unfold MSS.chooseQuality in E. rewrite Hup in E.
  destruct (MSS.needsDowngrade _ _ _); [reflexivity|].
  rewrite !andb_false_r in E. cbn [andb] in E.
  repeat match type of E with context [if ?b then _ else _] => destruct b end;
    discriminate.
Qed.

Lemma streamRecommendations_downgrades
    (streams : list StreamInfo) (now : Z) (c c' : MSS.Collector) (recs : list MSS.Advice)
    (r : MSS.Recommendation) :
  MSS.canUpgradeBasedOnBandwidth c = false ->
  MSS.streamRecommendations streams now c = Normal (recs, c') ->
  MSS.ForStream r ∈ recs ->
  MSS.needsDowngrade (MSS.m_packetLoss (MSS.metrics r)) (MSS.m_jitter (MSS.metrics r))
    (MSS.m_fps (MSS.metrics r)) = true.
Proof.
  revert c recs. induction streams as [|s l IH]; intros c recs Hup Hrun Hin.
  - injection Hrun as <- _. inversion Hin.
  - cbn [MSS.streamRecommendations] in Hrun.
    destruct (MSS.generateStreamRecommendation s now c) as [[r1 c1]|e] eqn:E1;
      [|discriminate]. cbn [bind fst snd] in Hrun.
    destruct (MSS.streamRecommendations l now c1) as [[rs c2]|e] eqn:E2;
      [|discriminate]. cbn [bind fst snd] in Hrun.
    injection Hrun as <- <-.
    assert (Hup1 : MSS.canUpgradeBasedOnBandwidth c1 = false).
    { destruct (generateStreamRecommendation_frame _ _ _ _ _ E1) as [Hc Ha].
      unfold MSS.canUpgradeBasedOnBandwidth in *. rewrite Ha, Hc. exact Hup. }
    destruct r1 as [r1|].
    + apply elem_of_cons in Hin as [[= ->]|Hin].
      * exact (generateStreamRecommendation_downgrade _ _ _ _ _ Hup E1).
      * exact (IH c1 rs Hup1 E2 Hin).
    + exact (IH c1 rs Hup1 E2 Hin).
Qed.

(** In a cycle whose freshly computed aggregate is at or above the medium
    threshold, every per-stream recommendation published is one for a
    stream that fails a downgrade trigger: none is an upgrade. *)
Lemma cycle_under_pressure_only_downgrades
    (now : Z) (c c' : MSS.Collector) (ev : MSS.StatsUpdate) (r : MSS.Recommendation) :
  MSS.collectAndAnalyze now c = Normal (Some ev, c') ->
  (MSS.medium (MSS.bandwidthThresholds (MSS.config c))
   <= MSS.totalBandwidth (MSS.su_aggregated ev) / 1000)%Q ->
  MSS.ForStream r ∈ MSS.su_recommendations ev ->
  MSS.needsDowngrade (MSS.m_packetLoss (MSS.metrics r)) (MSS.m_jitter (MSS.metrics r))
    (MSS.m_fps (MSS.metrics r)) = true.
Proof.
  unfold MSS.collectAndAnalyze.
  destruct (MSS.getActiveStreams c) as [|s0 rest] eqn:Hact; [discriminate|].
  destruct (MSS.generateAggregatedStats (s0 :: rest)) as [agg|e]; [|discriminate].
  cbn [bind].
  destruct (MSS.assessNetworkConditions (MSS.config c) (s0 :: rest)) as [net|e];
    [|discriminate]. cbn [bind].
  set (c1 := {| MSS.config := MSS.config c; MSS.aggregatedStats := Some agg |}).
  unfold MSS.generateQualityRecommendations.
  destruct (MSS.streamRecommendations (s0 :: rest) now c1) as [[rs c2]|e] eqn:E;
    [|discriminate]. cbn [bind fst snd].
  destruct (MSS.generateGlobalOptimization _ _ _) as [g|e]; [|discriminate].
  cbn [bind fst snd]. intros [= <- _]. cbn [MSS.su_aggregated MSS.su_recommendations].
  intros Hm Hin.
  assert (Hup : MSS.canUpgradeBasedOnBandwidth c1 = false).
  { apply (canUpgrade_false_under_pressure c1 agg); [reflexivity|exact Hm]. }
  assert (Hin' : MSS.ForStream r ∈ rs).
  { destruct g; [|exact Hin].
    apply elem_of_app in Hin as [Hin|Hin]; [exact Hin|].
    apply list_elem_of_singleton in Hin. discriminate. }
  exact (streamRecommendations_downgrades _ _ _ _ _ _ Hup E Hin').
Qed.

(** ** The collector's own calls complete normally *)

Lemma getActiveStreams_have_stats (c : MSS.Collector) :
  Forall (fun s => is_Some (currentStats s)) (MSS.getActiveStreams c).
Proof.
  apply Forall_forall. intros s Hin. unfold MSS.getActiveStreams in Hin.
  apply list_elem_of_In, filter_In in Hin as [_ Hs].
  unfold MSS.has_snapshot in Hs. destruct (currentStats s); [eexists; reflexivity|].
  rewrite andb_false_r in Hs. discriminate.
Qed.

Lemma assessNetworkConditions_on_active (c : MSS.Collector) :
  exists a, MSS.assessNetworkConditions (MSS.config c) (MSS.getActiveStreams c) = Normal a.
Proof.
  unfold MSS.assessNetworkConditions.
  destruct (mapC_currentStats _ (getActiveStreams_have_stats c)) as (stats & Hm & _).
  destruct (MSS.getActiveStreams c); [eexists; reflexivity|].
  rewrite Hm. eexists. reflexivity.
Qed.

Lemma generateAggregatedStats_on_active (c : MSS.Collector) :
  exists a, MSS.generateAggregatedStats (MSS.getActiveStreams c) = Normal a.
Proof.
  unfold MSS.generateAggregatedStats.
  destruct (mapC_currentStats _ (getActiveStreams_have_stats c)) as (stats & Hm & _).
  rewrite Hm. eexists. reflexivity.
Qed.

(** ** Worked evaluations *)

Example round_half_up : Math_round (5 # 2) = 3%Z /\ Math_round (- (5 # 2)) = (-2)%Z.
Proof. split; reflexivity. Qed.

Example toFixed_one_decimal :
  (toFixed 1 (1234 # 1000) == 1.2)%Q /\ (toFixed 1 (125 # 100) == 1.3)%Q.
Proof. split; vm_compute; reflexivity. Qed.

Example downgrade_examples :
  SQC.downgradeQuality "1080p" 2 = "480p" /\
  SQC.downgradeQuality "720p" 2 = "360p" /\
  SQC.downgradeQuality "480p" 2 = "360p" /\
  SQC.downgradeQuality "360p" 2 = "360p" /\
  SQC.downgradeQuality "unknown" 2 = "unknown" /\
  SQC.upgradeQuality "1080p" = "1080p" /\
  SQC.upgradeQuality "480p" = "720p".
Proof. repeat split; reflexivity. Qed.

Example ordered_map_keeps_place :
  map_set "a" 3%Z (map_set "b" 2%Z (map_set "a" 1%Z []))
  = [("a", 3%Z); ("b", 2%Z)] /\
  map_delete "a" [("a", 3%Z); ("b", 2%Z)] = [("b", 2%Z)].
Proof. split; reflexivity. Qed.

(** The emergency scenario: three streams at 1080p, 720p and 480p are sent
    to 480p, 360p and 360p. *)
Example emergency_scenario :
  exists batch ctl',
    SQC.generateBatchRecommendations Scenario.controller (Some Scenario.poor_collector)
      1004000 = Normal (Some batch, ctl') /\
    SQC.strategy_type (SQC.strategy batch) = "emergency_downgrade" /\
    ((fun it => (SQC.streamIndex it, SQC.currentQuality it, SQC.recommendedQuality it))
       <$> SQC.immediate (SQC.recommendations batch))
    = [(0%Z, Some "1080p", Some "480p");
       (1%Z, Some "720p", Some "360p");
       (2%Z, Some "480p", Some "360p")].
Proof.
  eexists _, _. split; [vm_compute; reflexivity|]. split; vm_compute; reflexivity.
Qed.

(** The promotion scenario: in a 2x2 grid on an excellent network, index 2
    is recommended 720p while index 0 is primary and 1080p once it is
    primary itself. *)
Example primary_promotion_scenario :
  let before := SQC.updateLayout "grid4" Scenario.controller in
  let after := SQC.setPrimaryIndex 2 before in
  let view (ctl : SQC.Controller) :=
    (fun it => (SQC.streamIndex it, SQC.recommendedQuality it))
      <$> SQC.generateLayoutOptimizations ctl (Some Scenario.grid_collector) "grid4" in
  view before = [(0%Z, Some "1080p"); (1%Z, Some "720p");
                 (2%Z, Some "720p"); (3%Z, Some "720p")] /\
  view after = [(2%Z, Some "1080p"); (0%Z, Some "720p");
                (1%Z, Some "720p"); (3%Z, Some "720p")].
Proof. cbv zeta. split; vm_compute; reflexivity. Qed.

(** * Further properties of the code *)

(** ** The quality ladder of the controller *)

Lemma rank_on_ladder (q : string) :
  (0 <= Shape.rank q)%Z ->
  q = "360p" \/ q = "480p" \/ q = "720p" \/ q = "1080p".
Proof.
  unfold Shape.rank, indexOf, SQC.qualityOrder. cbn [indexOf_from].
  destruct (String.eqb_spec "360p" q) as [<- | _]; [tauto|].
  destruct (String.eqb_spec "480p" q) as [<- | _]; [tauto|].
  destruct (String.eqb_spec "720p" q) as [<- | _]; [tauto|].
  destruct (String.eqb_spec "1080p" q) as [<- | _]; [tauto|].
  intros H. exfalso. revert H. apply Z.lt_nge. reflexivity.
Qed.

Lemma rank_off_ladder (q : string) :
  (Shape.rank q < 0)%Z -> SQC.downgradeQuality q 1 = q /\ SQC.upgradeQuality q = q.
Proof.
  intros H. unfold SQC.downgradeQuality, SQC.upgradeQuality.
  fold (Shape.rank q).
  destruct (0 <=? Shape.rank q)%Z eqn:E; [apply Z.leb_le in E; lia|].
  split; reflexivity.
Qed.

Lemma downgrade_rank (q : string) (levels : Z) :
  (0 <= Shape.rank q)%Z -> (0 <= levels)%Z ->
  Shape.rank (SQC.downgradeQuality q levels) = Z.max 0 (Shape.rank q - levels).
Proof.
  intros Hq Hl.
  assert (Hr : (Shape.rank q <= 3)%Z).
  { destruct (rank_on_ladder q Hq) as [-> | [-> | [-> | ->]]]; vm_compute; discriminate. }
  unfold SQC.downgradeQuality. fold (Shape.rank q).
  destruct (0 <=? Shape.rank q)%Z eqn:E; [|apply Z.leb_gt in E; lia].
  remember (Z.max 0 (Shape.rank q - levels)) as k eqn:Ek.
  assert (Hk : k = 0%Z \/ k = 1%Z \/ k = 2%Z \/ k = 3%Z) by lia.
  clear Ek. destruct Hk as [-> | [-> | [-> | ->]]]; reflexivity.
Qed.

Lemma upgrade_rank (q : string) :
  (0 <= Shape.rank q)%Z ->
  Shape.rank (SQC.upgradeQuality q) = Z.min 3 (Shape.rank q + 1).
Proof.
  intros Hq. destruct (rank_on_ladder q Hq) as [-> | [-> | [-> | ->]]]; reflexivity.
Qed.

(** X1: on the ladder 360p < 480p < 720p < 1080p, [downgradeQuality] by
    [levels] steps lands [levels] places lower and stops at 360p,
    [upgradeQuality] lands one place higher and stops at 1080p; a label
    that is not on the ladder is returned as it is by both. *)
Theorem ladder_steps (q : string) (levels : Z) :
  (0 <= levels)%Z ->
  ((0 <= Shape.rank q)%Z ->
   Shape.rank (SQC.downgradeQuality q levels) = Z.max 0 (Shape.rank q - levels) /\
   Shape.rank (SQC.upgradeQuality q) = Z.min 3 (Shape.rank q + 1)) /\
  ((Shape.rank q < 0)%Z ->
   SQC.downgradeQuality q levels = q /\ SQC.upgradeQuality q = q).
Proof.
  intros Hl. split.
  - intros Hq. split; [apply downgrade_rank; assumption|apply upgrade_rank; assumption].
  - intros Hq. destruct (rank_off_ladder q Hq) as [_ Hu]. split; [|exact Hu].
    unfold SQC.downgradeQuality. fold (Shape.rank q).
    destruct (0 <=? Shape.rank q)%Z eqn:E; [apply Z.leb_le in E; lia|reflexivity].
Qed.

(** X1 at work: three steps down from 720p stop at 360p, and an unknown
    label stays. *)
Lemma ladder_steps_witness :
  Shape.rank (SQC.downgradeQuality "720p" 3) = 0%Z /\
  SQC.downgradeQuality "auto" 3 = "auto".
Proof.
  destruct (ladder_steps "720p" 3 ltac:(lia)) as [H _].
  destruct (ladder_steps "auto" 3 ltac:(lia)) as [_ H'].
  split.
  - destruct (H ltac:(vm_compute; discriminate)) as [Hd _]. exact Hd.
  - destruct (H' ltac:(reflexivity)) as [Hd _]. exact Hd.
Defined.

(** X2: one step up followed by one step down returns to the starting
    quality unless the start is 1080p, and one step down followed by one
    step up returns to it unless the start is 360p. *)
Theorem ladder_round_trip (q : string) :
  (0 <= Shape.rank q)%Z ->
  ((Shape.rank q < 3)%Z -> SQC.downgradeQuality (SQC.upgradeQuality q) 1 = q) /\
  ((0 < Shape.rank q)%Z -> SQC.upgradeQuality (SQC.downgradeQuality q 1) = q).
Proof.
  intros Hq. destruct (rank_on_ladder q Hq) as [-> | [-> | [-> | ->]]];
    split; intros H; try reflexivity; exfalso; revert H; vm_compute; congruence.
Qed.

(** X2 at work on 480p. *)
Lemma ladder_round_trip_witness :
  SQC.downgradeQuality (SQC.upgradeQuality "480p") 1 = "480p" /\
  SQC.upgradeQuality (SQC.downgradeQuality "480p" 1) = "480p".
Proof.
  destruct (ladder_round_trip "480p" ltac:(vm_compute; discriminate)) as [H1 H2].
  split; [apply H1|apply H2]; reflexivity.
Defined.

(** X3: with the default profiles, [determineOptimalQuality] maps a base
    quality of the ladder to a quality of the ladder, never more than one
    place above the base and never above it for a non-primary stream, and
    a better network level never gives a lower quality. *)
Theorem determineOptimalQuality_monotone
    (base : string) (na1 na2 : NetworkAssessment) (isPrimary : bool) :
  (0 <= Shape.rank base)%Z ->
  (Shape.level_rank (overall na1) <= Shape.level_rank (overall na2))%Z ->
  let q1 := SQC.determineOptimalQuality SQC.default_config base (Some na1) isPrimary in
  let q2 := SQC.determineOptimalQuality SQC.default_config base (Some na2) isPrimary in
  (0 <= Shape.rank q1 <= Shape.rank q2)%Z /\
  (Shape.rank q2 <= Shape.rank base + 1)%Z /\
  (isPrimary = false -> (Shape.rank q2 <= Shape.rank base)%Z).
Proof.
  intros Hb Hle. cbv zeta.
  destruct na1 as [l1 b1 s1 m1], na2 as [l2 b2 s2 m2]. cbn [overall] in Hle.
  destruct (rank_on_ladder base Hb) as [-> | [-> | [-> | ->]]];
    destruct l1, l2; cbn in Hle; try lia; destruct isPrimary;
    vm_compute; (repeat split); congruence.
Qed.

(** X3 at work: a secondary 720p stream on a fair and on a good network. *)
Lemma determineOptimalQuality_monotone_witness :
  let na l := {| overall := l; bandwidth := sufficient; stability := stable;
                 net_metrics := net_metrics MSS.initial_assessment |} in
  (Shape.rank (SQC.determineOptimalQuality SQC.default_config "720p" (Some (na fair)) false)
   <= Shape.rank (SQC.determineOptimalQuality SQC.default_config "720p" (Some (na good)) false))%Z.
Proof.
  cbv zeta.
  refine (proj2 (proj1 (determineOptimalQuality_monotone "720p" _ _ false _ _))).
  - vm_compute. discriminate.
  - vm_compute. discriminate.
Defined.

(** ** The cooldown and the recommendations of the controller *)

(** X4: once an outcome has been reported for a stream at time [t], the
    controller gives no recommendation for that stream at any time before
    [t + switchCooldown], whatever its telemetry and whatever the outcome
    was. *)
Theorem cooldown_blocks_after_report
    (ctl : SQC.Controller) (stream : StreamInfo) (index : Z) (success : bool)
    (t now : Z) :
  (now - t < SQC.switchCooldown (SQC.config ctl))%Z ->
  SQC.generateStreamRecommendation
    (SQC.reportSwitchResult (id stream) success t ctl) stream index now = None.
Proof.
  intros Hcool. unfold SQC.generateStreamRecommendation.
  destruct (currentStats stream) as [stats|]; [|reflexivity].
  cbn [SQC.reportSwitchResult SQC.lastSwitchTimes SQC.config].
  rewrite lookup_insert_eq. change (default 0%Z (Some t)) with t.
  assert (E : MSS.orZ t 0 = t).
  { unfold MSS.orZ. destruct (t =? 0)%Z eqn:E0; [apply Z.eqb_eq in E0; lia|reflexivity]. }
  rewrite E.
  destruct (now - t <? SQC.switchCooldown (SQC.config ctl))%Z eqn:E1; [reflexivity|].
  apply Z.ltb_ge in E1. lia.
Qed.

(** X4 at work: nine seconds after a failed switch of [view_0]. *)
Lemma cooldown_blocks_after_report_witness :
  exists s, MSS.getActiveStreams Scenario.single_collector = [s] /\
    SQC.generateStreamRecommendation
      (SQC.reportSwitchResult (id s) false 1050000 Scenario.controller) s 0 1059000
    = None.
Proof.
  eexists. split; [vm_compute; reflexivity|].
  apply cooldown_blocks_after_report. vm_compute. reflexivity.
Defined.

(** X5: whenever the controller recommends something for a stream, the
    cooldown of that stream has expired, the stream fails one of the
    triggers (loss above 3%, jitter above 100 ms, fps below 15), the
    recommendation carries the stream's id and index, and its quality is
    exactly one place below the quality read off the observed resolution,
    or 360p for a stream already there. *)
Theorem controller_recommends_one_step_down
    (ctl : SQC.Controller) (stream : StreamInfo) (index now : Z) (r : SQC.StreamRec) :
  SQC.generateStreamRecommendation ctl stream index now = Some r ->
  exists stats,
    currentStats stream = Some stats /\
    (SQC.switchCooldown (SQC.config ctl)
     <= now - MSS.orZ (default 0%Z (SQC.lastSwitchTimes ctl !! id stream)) 0)%Z /\
    ((3 < packetLossRate stats)%Q \/ (100 < jitter stats)%Q \/ (videoFps stats < 15)%Q) /\
    SQC.sr_streamId r = id stream /\ SQC.sr_streamIndex r = index /\
    SQC.sr_timestamp r = now /\
    SQC.sr_currentQuality r = SQC.getQualityFromResolution (height_of stats) /\
    (0 <= Shape.rank (SQC.sr_currentQuality r))%Z /\
    Shape.rank (SQC.sr_recommendedQuality r)
    = Z.max 0 (Shape.rank (SQC.sr_currentQuality r) - 1).
Proof.
  unfold SQC.generateStreamRecommendation.
  destruct (currentStats stream) as [stats|]; [|discriminate].
  destruct (_ <? _)%Z eqn:Ecool; [discriminate|]. apply Z.ltb_ge in Ecool.
  intros H. exists stats. split; [reflexivity|]. split; [exact Ecool|].
  pose proof (downgradeQuality_two (height_of stats)) as [Hcur _]. cbv zeta in Hcur.
  pose proof (downgrade_rank _ 1 Hcur ltac:(lia)) as Hstep.
  destruct (gtb (packetLossRate stats) 3) eqn:E1;
    [|destruct (gtb (jitter stats) 100) eqn:E2;
      [|destruct (ltb (videoFps stats) 15) eqn:E3; [|discriminate]]];
    (destruct (SQC.nonEmpty _); [|discriminate]); injection H as <-; cbn;
    (split; [|repeat split; assumption]).
  - left. apply gtb_gt. exact E1.
  - right. left. apply gtb_gt. exact E2.
  - right. right. apply ltb_lt. exact E3.
Qed.

(** X5 at work on the 1080p stream losing 4% of its packets. *)
Lemma controller_recommends_one_step_down_witness :
  exists s r, MSS.getActiveStreams Scenario.single_collector = [s] /\
    SQC.generateStreamRecommendation Scenario.controller s 0 1051000 = Some r /\
    SQC.sr_recommendedQuality r = "720p" /\
    Shape.rank (SQC.sr_recommendedQuality r)
    = Z.max 0 (Shape.rank (SQC.sr_currentQuality r) - 1).
Proof.
  eexists _, _. split; [vm_compute; reflexivity|].
  match goal with |- ?G /\ _ => assert (H : G) by (vm_compute; reflexivity) end.
  split; [exact H|]. split; [reflexivity|].
  destruct (controller_recommends_one_step_down _ _ _ _ _ H)
    as (st & _ & _ & _ & _ & _ & _ & _ & _ & Hr).
  exact Hr.
Defined.

(** ** What a synthesized batch never contains *)

Lemma generateBatchRecommendations_some
    (ctl ctl' : SQC.Controller) (mss : option MSS.Collector) (now : Z)
    (batch : SQC.BatchRecommendation) :
  SQC.generateBatchRecommendations ctl mss now = Normal (Some batch, ctl') ->
  exists c q,
    mss = Some c /\ SQC.networkMonitor ctl <> None /\ MSS.getActiveStreams c <> [] /\
    let streams := MSS.getActiveStreams c in
    let pa := SQC.analyzeCurrentPerformance ctl streams now in
    let type := SQC.determineOptimizationStrategy pa (MSS.networkAssessment c) in
    batch = {| SQC.timestamp := now;
               SQC.layout := SQC.currentLayout ctl;
               SQC.totalStreams := Z.of_nat (length streams);
               SQC.networkAssessment := MSS.networkAssessment c;
               SQC.performanceAnalysis := pa;
               SQC.recommendations :=
                 SQC.populateRecommendations ctl type
                   {| SQC.immediate := []; SQC.gradual := []; SQC.fallback := [] |}
                   streams
                   (SQC.generateLayoutOptimizations ctl (Some c) (SQC.currentLayout ctl))
                   now;
               SQC.strategy :=
                 {| SQC.strategy_type := type;
                    SQC.strategy_priority := SQC.calculateOptimizationPriority pa;
                    SQC.strategy_confidence := q |} |} /\
    ctl' = SQC.recordDecision batch ctl.
Proof.
  unfold SQC.generateBatchRecommendations.
  destruct mss as [c|]; [|discriminate].
  destruct (SQC.networkMonitor ctl) eqn:Hnm; [|discriminate].
  destruct (MSS.getActiveStreams c) as [|s0 rest] eqn:Hact; [discriminate|].
  rewrite <- Hact.
  destruct (confidence_completes ctl
              (SQC.analyzeCurrentPerformance ctl (MSS.getActiveStreams c) now)
              (MSS.networkAssessment c)) as [q Hq].
  rewrite Hq. cbn [bind]. intros [= <- <-].
  exists c, q. split; [reflexivity|]. split; [discriminate|].
  split; [rewrite Hact; discriminate|]. cbv zeta. split; reflexivity.
Qed.

Lemma balanced_bucket (ctl : SQC.Controller) (s : StreamInfo) (index now : Z)
    (r : SQC.StreamRec) :
  SQC.generateStreamRecommendation ctl s index now = Some r ->
  SQC.determineRecommendationType r = "immediate" \/
  SQC.determineRecommendationType r = "gradual".
Proof.
  unfold SQC.generateStreamRecommendation.
  destruct (currentStats s) as [stats|]; [|discriminate].
  destruct (_ <? _)%Z; [discriminate|].
  repeat match goal with
         | |- context [if ?c then _ else _] => destruct c
         end;
    try discriminate; intros [= <-]; vm_compute; tauto.
Qed.

Lemma push_fallback (bucket : string) (item : SQC.Item) (b : SQC.Buckets) :
  bucket = "immediate" \/ bucket = "gradual" ->
  SQC.fallback b = [] -> SQC.fallback (SQC.push bucket item b) = [].
Proof. intros [-> | ->] H; exact H. Qed.

(** X6: the [fallback] bucket of a synthesized batch is always empty: the
    generators of the emergency, conservative and enhancement strategies
    fill [immediate] or [gradual] only, and the confidences the balanced
    strategy can meet (0.9, 0.85, 0.8) never fall to 0.6 or below. *)
Theorem batch_fallback_empty
    (ctl ctl' : SQC.Controller) (mss : option MSS.Collector) (now : Z)
    (batch : SQC.BatchRecommendation) :
  SQC.generateBatchRecommendations ctl mss now = Normal (Some batch, ctl') ->
  SQC.fallback (SQC.recommendations batch) = [].
Proof.
  intros H. destruct (generateBatchRecommendations_some _ _ _ _ _ H)
    as (c & q & _ & _ & _ & Hb & _). cbv zeta in Hb. subst batch.
  cbn [SQC.recommendations]. unfold SQC.populateRecommendations. cbn [SQC.fallback].
  repeat match goal with |- context [if ?c then _ else _] => destruct c end;
    unfold SQC.generateEmergencyRecommendations, SQC.generateConservativeRecommendations,
      SQC.generateEnhancementRecommendations, SQC.generateBalancedRecommendations;
    (apply (fold_left_invariant (fun b => SQC.fallback b = [])); [|reflexivity]);
    intros acc x _ Hacc; cbv beta.
  - apply push_fallback; [left; reflexivity|exact Hacc].
  - destruct (currentStats x.2); [|exact Hacc]. cbv beta iota.
    match goal with |- context [if ?c then _ else _] => destruct c end; [|exact Hacc].
    apply push_fallback; [right; reflexivity|exact Hacc].
  - destruct (currentStats x.2); [|exact Hacc]. cbv beta iota.
    match goal with |- context [if ?c then _ else _] => destruct c end; [|exact Hacc].
    cbv zeta.
    match goal with |- context [if ?c then _ else _] => destruct c end; [|exact Hacc].
    apply push_fallback; [right; reflexivity|exact Hacc].
  - destruct (SQC.generateStreamRecommendation ctl x.2 x.1 now) as [r|] eqn:E;
      [|exact Hacc].
    apply push_fallback; [exact (balanced_bucket _ _ _ _ _ E)|exact Hacc].
Qed.

(** X6 at work on the three-stream emergency batch. *)
Lemma batch_fallback_empty_witness :
  exists batch ctl',
    SQC.generateBatchRecommendations Scenario.controller (Some Scenario.poor_collector)
      1004000 = Normal (Some batch, ctl') /\
    SQC.fallback (SQC.recommendations batch) = [].
Proof.
  eexists _, _.
  match goal with |- ?G /\ _ => assert (H : G) by (vm_compute; reflexivity) end.
  split; [exact H|]. exact (batch_fallback_empty _ _ _ _ _ H).
Defined.

Lemma current_rank_lower (h : option Z) :
  (0 <= Shape.rank (SQC.getQualityFromResolution h))%Z.
Proof.
  destruct (getQualityFromResolution_cases h) as [E|[E|[E|E]]]; rewrite E;
    vm_compute; discriminate.
Qed.

Lemma controller_recommends_one_step_down_aux
    (ctl : SQC.Controller) (stream : StreamInfo) (index now : Z) (r : SQC.StreamRec) :
  SQC.generateStreamRecommendation ctl stream index now = Some r ->
  (0 <= Shape.rank (SQC.sr_currentQuality r))%Z /\
  Shape.rank (SQC.sr_recommendedQuality r)
  = Z.max 0 (Shape.rank (SQC.sr_currentQuality r) - 1).
Proof.
  unfold SQC.generateStreamRecommendation.
  destruct (currentStats stream) as [stats|]; [|discriminate].
  destruct (_ <? _)%Z; [discriminate|].
  pose proof (current_rank_lower (height_of stats)) as Hcur.
  pose proof (downgrade_rank _ 1 Hcur ltac:(lia)) as Hstep.
  repeat match goal with
         | |- context [if ?c then _ else _] => destruct c
         end;
    try discriminate; intros [= <-]; cbn; split; assumption.
Qed.

Lemma push_moves (up : bool) (bucket : string) (item : SQC.Item) (b : SQC.Buckets) :
  Shape.moves up b -> Shape.directed up item ->
  Shape.moves up (SQC.push bucket item b).
Proof.
  intros Hb Hi it Hin. unfold Shape.items, SQC.push in Hin.
  assert (it = item \/ it ∈ Shape.items b) as [-> | H].
  { unfold Shape.items.
    repeat match type of Hin with context [if ?c then _ else _] => destruct c end;
      cbn in Hin; rewrite !elem_of_app in Hin; rewrite ?list_elem_of_singleton in Hin;
      rewrite !elem_of_app; tauto. }
  - exact Hi.
  - exact (Hb it H).
Qed.

Lemma current_rank (h : option Z) :
  (0 <= Shape.rank (SQC.getQualityFromResolution h) <= 3)%Z.
Proof.
  destruct (getQualityFromResolution_cases h) as [E|[E|[E|E]]]; rewrite E;
    vm_compute; split; discriminate.
Qed.

Lemma downgraded_item_directed (type : string) (index : Z) (h : option Z) (levels : Z)
    (conf : Q) :
  (0 <= levels)%Z ->
  let current := SQC.getQualityFromResolution h in
  Shape.directed false
    (SQC.streamItem type index current (SQC.downgradeQuality current levels) conf).
Proof.
  intros Hl. cbv zeta. pose proof (current_rank h) as [H0 _].
  eexists _, _. split; [reflexivity|]. split; [reflexivity|].
  rewrite (downgrade_rank _ _ H0 Hl). lia.
Qed.

Lemma upgraded_item_directed (type : string) (index : Z) (h : option Z) (conf : Q) :
  let current := SQC.getQualityFromResolution h in
  SQC.upgradeQuality current <> current ->
  Shape.directed true (SQC.streamItem type index current (SQC.upgradeQuality current) conf).
Proof.
  cbv zeta. intros Hne. pose proof (current_rank h) as [H0 H3].
  eexists _, _. split; [reflexivity|]. split; [reflexivity|].
  rewrite (upgrade_rank _ H0).
  destruct (getQualityFromResolution_cases h) as [E|[E|[E|E]]];
    rewrite E in *; try (vm_compute; repeat split; congruence).
  exfalso. apply Hne. reflexivity.
Qed.

(** The items a strategy's generator derives from the streams. *)
Lemma strategy_items_move (ctl : SQC.Controller) (type : string)
    (streams : list StreamInfo) (now : Z) :
  let empty := {| SQC.immediate := []; SQC.gradual := []; SQC.fallback := [] |} in
  Shape.moves (String.eqb type "quality_enhancement")
    (if String.eqb type "emergency_downgrade" then
       SQC.generateEmergencyRecommendations empty streams
     else if String.eqb type "conservative_optimization" then
       SQC.generateConservativeRecommendations empty streams
     else if String.eqb type "quality_enhancement" then
       SQC.generateEnhancementRecommendations empty streams
     else SQC.generateBalancedRecommendations ctl empty streams now).
Proof.
  cbv zeta.
  set (empty := {| SQC.immediate := []; SQC.gradual := []; SQC.fallback := [] |}).
  assert (H0 : forall up, Shape.moves up empty).
  { intros up it Hin. inversion Hin. }
  destruct (String.eqb_spec type "emergency_downgrade") as [-> | _];
    [|destruct (String.eqb_spec type "conservative_optimization") as [-> | _];
      [|destruct (String.eqb type "quality_enhancement") eqn:Eup]];
    unfold SQC.generateEmergencyRecommendations, SQC.generateConservativeRecommendations,
      SQC.generateEnhancementRecommendations, SQC.generateBalancedRecommendations;
    (apply fold_left_invariant; [|apply H0]); intros acc x _ Hacc; cbv beta.
  - apply push_moves; [exact Hacc|].
    apply (downgraded_item_directed _ _ _ 2). lia.
  - destruct (currentStats x.2); [|exact Hacc]. cbv beta iota.
    match goal with |- context [if ?c then _ else _] => destruct c end; [|exact Hacc].
    apply push_moves; [exact Hacc|].
    apply (downgraded_item_directed _ _ _ 1). lia.
  - destruct (currentStats x.2) as [st|]; [|exact Hacc]. cbv beta iota.
    match goal with |- context [if ?c then _ else _] => destruct c end; [|exact Hacc].
    cbv zeta.
    destruct (String.eqb_spec (SQC.upgradeQuality (SQC.getQualityFromResolution (height_of st)))
                (SQC.getQualityFromResolution (height_of st))) as [_|Hne];
      [exact Hacc|]. cbn [negb].
    apply push_moves; [exact Hacc|].
    apply upgraded_item_directed. exact Hne.
  - destruct (SQC.generateStreamRecommendation ctl x.2 x.1 now) as [r|] eqn:E;
      [|exact Hacc].
    apply push_moves; [exact Hacc|].
    destruct (controller_recommends_one_step_down_aux _ _ _ _ _ E) as [Hc Hr].
    eexists _, _. split; [reflexivity|]. split; [reflexivity|].
    rewrite Hr. lia.
Qed.

Lemma layout_items_no_current (ctl : SQC.Controller) (mss : option MSS.Collector)
    (layout : string) (item : SQC.Item) :
  item ∈ SQC.generateLayoutOptimizations ctl mss layout ->
  SQC.currentQuality item = None.
Proof.
  unfold SQC.generateLayoutOptimizations.
  destruct (SQC.strategyFor _ _); [|intros H; inversion H].
  destruct mss as [c|]; [|intros H; inversion H].
  repeat match goal with |- context [if ?c then _ else _] => destruct c end.
  - intros H. apply list_elem_of_singleton in H. subst. reflexivity.
  - unfold SQC.optimizeGrid4Layout. intros H. apply elem_of_app in H as [H|H].
    + destruct (_ <? _)%Z; [|inversion H].
      apply list_elem_of_singleton in H. subst. reflexivity.
    + apply list_elem_of_fmap in H as (i & -> & _). reflexivity.
  - unfold SQC.optimizeGrid9Layout. intros H.
    apply list_elem_of_fmap in H as (i & -> & _). reflexivity.
  - intros H. inversion H.
Qed.



(** The direction does not extend to the layout items: three 480p streams
    at 18 fps give an emergency batch whose layout item recommends 1080p
    for the stream at index 0. *)
Example layout_item_outside_direction :
  exists batch ctl' item,
    SQC.generateBatchRecommendations Scenario.controller (Some Scenario.stalled_collector)
      1004000 = Normal (Some batch, ctl') /\
    SQC.strategy_type (SQC.strategy batch) = "emergency_downgrade" /\
    item ∈ SQC.gradual (SQC.recommendations batch) /\
    SQC.item_type item = "single_stream_optimization" /\
    SQC.streamIndex item = 0%Z /\
    SQC.recommendedQuality item = Some "1080p" /\
    (exists s, MSS.getActiveStreams Scenario.stalled_collector !! 0%nat = Some s /\
               (currentStats s ≫= height_of) = Some 480%Z).
Proof.
  eexists _, _, _. split; [vm_compute; reflexivity|].
  split; [reflexivity|]. split; [apply list_elem_of_here|].
  split; [reflexivity|]. split; [reflexivity|]. split; [reflexivity|].
  eexists. split; vm_compute; reflexivity.
Qed.

(** ** Upgrades of a batch and the shared bandwidth *)

(** An assessment whose usage figure is above the medium threshold is
    never excellent. *)
Lemma assessed_under_pressure (cfg : MSS.Config) (streams : list StreamInfo)
    (na : NetworkAssessment) :
  MSS.assessNetworkConditions cfg streams = Normal na ->
  (MSS.medium (MSS.bandwidthThresholds cfg) < totalBandwidthUsage (net_metrics na))%Q ->
  overall na <> excellent.
Proof.
  unfold MSS.assessNetworkConditions. destruct streams as [|s0 rest].
  - intros [= <-] _. discriminate.
  - destruct (mapC _ _) as [stats|e]; [|discriminate].
    cbn [bind]. intros [= <-]. unfold MSS.assess.
    cbn [overall net_metrics totalBandwidthUsage]. intros Hm.
    apply gtb_gt in Hm. unfold MSS.classifyBandwidth. rewrite Hm.
    unfold MSS.combine.
    destruct (gtb _ (MSS.high _)); cbn; [discriminate|].
    destruct (MSS.st_eqb _ unstable); cbn; discriminate.
Qed.

Lemma strategy_needs_excellent (pa : SQC.PerformanceAnalysis) (na : NetworkAssessment) :
  overall na <> excellent ->
  SQC.determineOptimizationStrategy pa (Some na) <> "quality_enhancement".
Proof.
  intros Hne. unfold SQC.determineOptimizationStrategy. cbn [fmap option_fmap option_map default].
  change (default fair (overall <$> Some na)) with (overall na).
  destruct (overall na); try contradiction; cbn;
    repeat match goal with |- context [if ?b then _ else _] => destruct b end;
    discriminate.
Qed.

(** C5: for a stream whose telemetry is good (loss below 1%, jitter below
    30 ms, fps above 28, quality score above 80), the collector's
    recommendation generator returns no recommendation, and leaves the
    collector as it is, whenever the aggregate's total bandwidth in Mbps is
    at or above the medium threshold.  A batch of the controller is guarded
    through the network assessment instead: when the usage figure of the
    stored assessment, one that [assessNetworkConditions] computed, is above
    the medium threshold, the strategy of the batch is not
    [quality_enhancement] and no item of the batch that states a current
    quality recommends a quality above it. *)
Theorem no_upgrade_under_bandwidth_pressure :
  (forall (c : MSS.Collector) (a : MSS.AggregatedStats) (stream : StreamInfo)
          (stats : Stats) (now : Z),
     currentStats stream = Some stats ->
     (packetLossRate stats < 1)%Q ->
     (jitter stats < 30)%Q ->
     (28 < videoFps stats)%Q ->
     (80 < qualityScore stats)%Q ->
     MSS.aggregatedStats c = Some a ->
     (MSS.medium (MSS.bandwidthThresholds (MSS.config c)) <= MSS.totalBandwidth a / 1000)%Q ->
     MSS.generateStreamRecommendation stream now c = Normal (None, c)) /\
  (forall (ctl ctl' : SQC.Controller) (c : MSS.Collector) (na : NetworkAssessment)
          (streams : list StreamInfo) (now : Z) (batch : SQC.BatchRecommendation),
     MSS.networkAssessment c = Some na ->
     MSS.assessNetworkConditions (MSS.config c) streams = Normal na ->
     (MSS.medium (MSS.bandwidthThresholds (MSS.config c))
      < totalBandwidthUsage (net_metrics na))%Q ->
     SQC.generateBatchRecommendations ctl (Some c) now = Normal (Some batch, ctl') ->
     SQC.strategy_type (SQC.strategy batch) <> "quality_enhancement" /\
     forall item cur rq,
       item ∈ Shape.items (SQC.recommendations batch) ->
       SQC.currentQuality item = Some cur ->
       SQC.recommendedQuality item = Some rq ->
       (Shape.rank rq <= Shape.rank cur)%Z).
Proof.
  split.
  - intros c a stream stats now. apply collector_guard_blocks_upgrade.
  - intros ctl ctl' c na streams now batch Hna Hassess Hm H.
    destruct (generateBatchRecommendations_some _ _ _ _ _ H)
      as (c0 & q & [= <-] & _ & _ & Hb & _). cbv zeta in Hb. subst batch.
    cbn [SQC.recommendations SQC.strategy SQC.strategy_type]. rewrite Hna.
    set (type := SQC.determineOptimizationStrategy _ _).
    assert (Htype : type <> "quality_enhancement").
    { apply strategy_needs_excellent. exact (assessed_under_pressure _ _ _ Hassess Hm). }
    split; [exact Htype|].
    pose proof (strategy_items_move ctl type (MSS.getActiveStreams c) now) as Hmove.
    cbv zeta in Hmove. apply String.eqb_neq in Htype. rewrite Htype in Hmove.
    unfold SQC.populateRecommendations, Shape.items.
    cbn [SQC.immediate SQC.gradual SQC.fallback].
    rewrite Htype.
    intros item cur rq Hin Hc Hr. rewrite !elem_of_app in Hin.
    assert (item ∈ SQC.generateLayoutOptimizations ctl (Some c) (SQC.currentLayout ctl)
            -> False) as Hlayout.
    { intros Hl. rewrite (layout_items_no_current _ _ _ _ Hl) in Hc. discriminate Hc. }
    match type of Hmove with Shape.moves false ?b =>
      assert (Hgen : item ∈ Shape.items b)
    end.
    { unfold Shape.items. rewrite !elem_of_app. tauto. }
    destruct (Hmove item Hgen) as (cur' & rq' & Hc' & Hr' & _ & _ & Hle).
    congruence.
Qed.

(** The theorem at work: a healthy 480p stream alone on a link carrying
    6 Mbps gets no recommendation from the collector, and the batch of the
    controller is a conservative one without a quality enhancement. *)
Lemma no_upgrade_under_bandwidth_pressure_witness :
  exists s batch ctl',
    MSS.getActiveStreams Scenario.pressured_collector = [s] /\
    MSS.generateStreamRecommendation s 1010000 Scenario.pressured_collector
    = Normal (None, Scenario.pressured_collector) /\
    SQC.generateBatchRecommendations Scenario.controller
      (Some Scenario.pressured_collector) 1010000 = Normal (Some batch, ctl') /\
    SQC.strategy_type (SQC.strategy batch) <> "quality_enhancement".
Proof.
  eexists _, _, _.
  split; [vm_compute; reflexivity|].
  split.
  - eapply (proj1 no_upgrade_under_bandwidth_pressure).
    + vm_compute. reflexivity.
    + vm_compute. reflexivity.
    + vm_compute. reflexivity.
    + vm_compute. reflexivity.
    + vm_compute. reflexivity.
    + vm_compute. reflexivity.
    + vm_compute. discriminate.
  - match goal with |- ?G /\ _ => assert (H : G) by (vm_compute; reflexivity) end.
    split; [exact H|].
    refine (proj1 (proj2 no_upgrade_under_bandwidth_pressure _ _
              Scenario.pressured_collector _
              (MSS.getActiveStreams
                 (Scenario.feed "view_0" (Scenario.raw 6000 30 480 0.2 10) "excellent" 100
                    1002000
                    (Scenario.register "view_0" 1001000
                       (MSS.new MSS.default_config 1000000))))
              _ _ _ _ _ H)).
    + vm_compute. reflexivity.
    + vm_compute. reflexivity.
    + vm_compute. reflexivity.
Defined.

(** Four healthy 480p streams of 1250 kbps each carry 5.0 Mbps, the medium
    threshold: the collector's guard refuses every upgrade, and the batch
    of the controller, whose assessment rates 5.0 Mbps sufficient,
    recommends 720p for each of them. *)
Lemma enhancement_at_medium_threshold_counterexample :
  exists a s stats batch ctl',
    MSS.aggregatedStats Scenario.threshold_collector = Some a /\
    (MSS.medium (MSS.bandwidthThresholds (MSS.config Scenario.threshold_collector))
     <= MSS.totalBandwidth a / 1000)%Q /\
    MSS.canUpgradeBasedOnBandwidth Scenario.threshold_collector = false /\
    MSS.getActiveStreams Scenario.threshold_collector !! 0%nat = Some s /\
    currentStats s = Some stats /\
    (packetLossRate stats < 1)%Q /\ (jitter stats < 30)%Q /\
    (28 < videoFps stats)%Q /\ (80 < qualityScore stats)%Q /\
    SQC.generateBatchRecommendations Scenario.controller
      (Some Scenario.threshold_collector) 1004000 = Normal (Some batch, ctl') /\
    SQC.strategy_type (SQC.strategy batch) = "quality_enhancement" /\
    exists item,
      SQC.gradual (SQC.recommendations batch) !! 0%nat = Some item /\
      SQC.item_type item = "quality_enhancement" /\
      SQC.streamIndex item = 0%Z /\
      SQC.currentQuality item = Some "480p" /\
      SQC.recommendedQuality item = Some "720p".
Proof.
  eexists _, _, _, _, _.
  split; [vm_compute; reflexivity|].
  split; [vm_compute; discriminate|].
  split; [vm_compute; reflexivity|].
  split; [vm_compute; reflexivity|].
  split; [vm_compute; reflexivity|].
  split; [vm_compute; reflexivity|].
  split; [vm_compute; reflexivity|].
  split; [vm_compute; reflexivity|].
  split; [vm_compute; reflexivity|].
  split; [vm_compute; reflexivity|].
  split; [reflexivity|].
  eexists. repeat split; reflexivity.
Qed.

(** Nor do the layout items follow the guard: for one healthy 360p stream
    on a link carrying 6 Mbps the single-view item of the batch recommends
    480p. *)
Example layout_item_under_pressure :
  exists s batch ctl' item,
    MSS.getActiveStreams Scenario.low_pressured_collector = [s] /\
    (currentStats s ≫= height_of) = Some 360%Z /\
    (totalBandwidthUsage <$> (net_metrics <$>
       MSS.networkAssessment Scenario.low_pressured_collector)) = Some 6.0%Q /\
    SQC.generateBatchRecommendations Scenario.controller
      (Some Scenario.low_pressured_collector) 1004000 = Normal (Some batch, ctl') /\
    SQC.gradual (SQC.recommendations batch) = [item] /\
    SQC.item_type item = "single_stream_optimization" /\
    SQC.currentQuality item = None /\
    SQC.recommendedQuality item = Some "480p".
Proof.
  eexists _, _, _, _.
  split; [vm_compute; reflexivity|].
  split; [vm_compute; reflexivity|].
  split; [vm_compute; reflexivity|].
  split; [vm_compute; reflexivity|].
  split; [reflexivity|]. repeat split; reflexivity.
Qed.

(** ** Priority, strategy and what the application applies by itself *)

(** X8: a batch has priority high exactly when more than two streams are
    problem streams, and such a batch is always an emergency downgrade; so
    the only batches [handleBatchRecommendation] applies without asking
    (auto-optimisation on, priority high) are emergency downgrades. *)
Theorem auto_applied_batch_is_emergency
    (ctl ctl' : SQC.Controller) (mss : option MSS.Collector) (now : Z)
    (batch : SQC.BatchRecommendation) (autoOptimizeEnabled : bool) :
  SQC.generateBatchRecommendations ctl mss now = Normal (Some batch, ctl') ->
  let problems := SQC.problemStreams (SQC.pa_metrics (SQC.performanceAnalysis batch)) in
  (SQC.strategy_priority (SQC.strategy batch) = "high" <-> (2 < problems)%Z) /\
  (SQC.strategy_priority (SQC.strategy batch) = "low" <-> (problems <= 0)%Z) /\
  (MultiViewApplication.handleBatchRecommendation autoOptimizeEnabled batch
   = MultiViewApplication.ApplyBatch ->
   autoOptimizeEnabled = true /\
   SQC.strategy_type (SQC.strategy batch) = "emergency_downgrade").
Proof.
  intros H. destruct (generateBatchRecommendations_some _ _ _ _ _ H)
    as (c & q & _ & _ & _ & Hb & _). cbv zeta in Hb. subst batch. cbv zeta.
  cbn [SQC.strategy SQC.strategy_priority SQC.strategy_type SQC.performanceAnalysis].
  set (pa := SQC.analyzeCurrentPerformance _ _ _).
  unfold MultiViewApplication.handleBatchRecommendation, SQC.calculateOptimizationPriority,
    SQC.determineOptimizationStrategy.
  cbn [SQC.strategy SQC.strategy_priority].
  unfold SQC.calculateOptimizationPriority.
  destruct (2 <? SQC.problemStreams (SQC.pa_metrics pa))%Z eqn:E2;
    [apply Z.ltb_lt in E2|apply Z.ltb_ge in E2].
  - split; [split; [intros _; exact E2|reflexivity]|].
    split; [split; [discriminate|lia]|].
    rewrite orb_true_r. destruct autoOptimizeEnabled; [|discriminate].
    intros _. split; reflexivity.
  - destruct (0 <? SQC.problemStreams (SQC.pa_metrics pa))%Z eqn:E0;
      [apply Z.ltb_lt in E0|apply Z.ltb_ge in E0].
    + split; [split; [discriminate|lia]|]. split; [split; [discriminate|lia]|].
      rewrite andb_false_r. discriminate.
    + split; [split; [discriminate|lia]|]. split; [split; [intros _; exact E0|reflexivity]|].
      rewrite andb_false_r. discriminate.
Qed.

(** X8 at work: the seven-stream batch has three problem streams and is
    applied without asking. *)
Lemma auto_applied_batch_is_emergency_witness :
  exists batch ctl',
    SQC.generateBatchRecommendations Scenario.controller (Some Scenario.lossy_collector)
      1004000 = Normal (Some batch, ctl') /\
    MultiViewApplication.handleBatchRecommendation true batch
    = MultiViewApplication.ApplyBatch /\
    SQC.strategy_type (SQC.strategy batch) = "emergency_downgrade".
Proof.
  eexists _, _.
  match goal with |- ?G /\ _ => assert (H : G) by (vm_compute; reflexivity) end.
  split; [exact H|].
  match goal with |- ?G /\ _ => assert (Ha : G) by (vm_compute; reflexivity) end.
  split; [exact Ha|].
  destruct (auto_applied_batch_is_emergency _ _ _ _ _ true H) as (_ & _ & Happ).
  exact (proj2 (Happ Ha)).
Defined.

(** ** The decision history and the cases without a batch *)



(** ** Telemetry ingestion in the collector *)

Lemma map_set_same_keys {V} (k : string) (v v0 : V) (m : list (string * V)) :
  map_get k m = Some v0 -> fst <$> map_set k v m = fst <$> m.
Proof.
  induction m as [|[k1 v1] m IH]; simpl; [discriminate|].
  destruct (String.eqb_spec k1 k) as [->|Hne]; [reflexivity|].
  intros H. change (k1 :: (fst <$> map_set k v m) = k1 :: (fst <$> m)).
  f_equal. exact (IH H).
Qed.

Lemma addToHistory_other (streamId other : string) (st : Stats) (now : Z)
    (cfg : MSS.Config) (h : gmap string (list Stats)) :
  other <> streamId -> MSS.addToHistory streamId st now cfg h !! other = h !! other.
Proof.
  intros Hne. unfold MSS.addToHistory. destruct (h !! streamId); [|reflexivity].
  apply lookup_insert_ne. congruence.
Qed.

(** X10: a telemetry callback never reorders or renames the registered
    streams, never touches the entry or the history of another stream, and
    leaves the cache, the aggregate and the assessment alone; for an id
    that is not registered it changes nothing at all. *)
Theorem updateStreamStats_frame
    (streamId other : string) (r : RawStats) (q : QualityEval) (now : Z)
    (c : MSS.Collector) :
  other <> streamId ->
  let c' := MSS.updateStreamStats streamId r q now c in
  fst <$> MSS.streamStats c' = fst <$> MSS.streamStats c /\
  map_get other (MSS.streamStats c') = map_get other (MSS.streamStats c) /\
  MSS.historicalData c' !! other = MSS.historicalData c !! other /\
  MSS.lastRecommendations c' = MSS.lastRecommendations c /\
  MSS.aggregatedStats c' = MSS.aggregatedStats c /\
  MSS.networkAssessment c' = MSS.networkAssessment c /\
  (map_get streamId (MSS.streamStats c) = None -> c' = c).
Proof.
  intros Hne. cbv zeta. unfold MSS.updateStreamStats.
  destruct (map_get streamId (MSS.streamStats c)) as [info|] eqn:E.
  - destruct (negb (isActive info)).
    + repeat split; reflexivity || discriminate.
    + cbn [MSS.streamStats MSS.historicalData MSS.lastRecommendations
           MSS.aggregatedStats MSS.networkAssessment].
      split; [exact (map_set_same_keys _ _ _ _ E)|].
      split; [apply map_get_set_ne; exact Hne|].
      split; [apply addToHistory_other; exact Hne|].
      repeat split; reflexivity || discriminate.
  - repeat split; reflexivity.
Qed.

(** X10 at work: telemetry for [view_1] in the grid leaves [view_0] alone, and
    telemetry for an unknown id changes nothing. *)
Lemma updateStreamStats_frame_witness :
  let r := Scenario.raw 700 30 720 0 5 in
  let q := {| status := "excellent"; score := 100 |} in
  map_get "view_0"
    (MSS.streamStats (MSS.updateStreamStats "view_1" r q 1005000 Scenario.grid_collector))
  = map_get "view_0" (MSS.streamStats Scenario.grid_collector) /\
  MSS.updateStreamStats "view_7" r q 1005000 Scenario.grid_collector
  = Scenario.grid_collector.
Proof.
  cbv zeta. split.
  - refine (proj1 (proj2 (updateStreamStats_frame "view_1" "view_0" _ _ _ _ _))).
    discriminate.
  - refine (proj2 (proj2 (proj2 (proj2 (proj2 (proj2
              (updateStreamStats_frame "view_7" "view_0" _ _ _ _ _)))))) _).
    + discriminate.
    + vm_compute. reflexivity.
Defined.

Lemma wf_entry (c : MSS.Collector) (k : string) (v : StreamInfo) :
  Invariant.registry_wf c -> (k, v) ∈ MSS.streamStats c ->
  map_get k (MSS.streamStats c) = Some v.
Proof.
  intros [Hnd _]. induction (MSS.streamStats c) as [|[k0 v0] m IH]; [intros H; inversion H|].
  simpl in Hnd. apply NoDup_cons in Hnd as [Hk0 Hnd].
  intros Hin. apply elem_of_cons in Hin as [[= -> ->]|Hin]; simpl.
  - rewrite String.eqb_refl. reflexivity.
  - destruct (String.eqb_spec k0 k) as [->|_]; [|exact (IH Hnd Hin)].
    exfalso. apply Hk0. apply list_elem_of_fmap. exists (k, v). split; [reflexivity|exact Hin].
Qed.

Lemma active_entry (c : MSS.Collector) (s : StreamInfo) :
  Invariant.registry_wf c -> s ∈ MSS.getActiveStreams c ->
  map_get (id s) (MSS.streamStats c) = Some s /\ MSS.has_snapshot s = true.
Proof.
  intros Hwf Hin. unfold MSS.getActiveStreams in Hin.
  apply list_elem_of_In, filter_In in Hin as [Hin Hs]. split; [|exact Hs].
  apply list_elem_of_In, list_elem_of_fmap in Hin as ([k v] & -> & Hkv).
  destruct Hwf as [Hnd Hid]. rewrite Forall_forall in Hid.
  pose proof (Hid _ Hkv) as Hk. simpl in *. rewrite Hk.
  apply wf_entry; [split; [exact Hnd|apply Forall_forall; exact Hid]|exact Hkv].
Qed.

Lemma entry_active (c : MSS.Collector) (k : string) (s : StreamInfo) :
  map_get k (MSS.streamStats c) = Some s -> MSS.has_snapshot s = true ->
  s ∈ MSS.getActiveStreams c.
Proof.
  intros Hk Hs. unfold MSS.getActiveStreams.
  apply list_elem_of_In, filter_In. split; [|exact Hs].
  apply list_elem_of_In, list_elem_of_fmap. exists (k, s). split; [reflexivity|].
  exact (map_get_elem _ _ _ Hk).
Qed.

(** X11: a stream that has just been registered is not yet among the
    active streams; its first telemetry callback makes it active, with a
    snapshot stamped with the time of the callback that carries the
    reported bitrate, frame rate, loss, jitter and quality score. *)
Theorem first_telemetry_activates
    (streamId : string) (md : MSS.MetadataArg) (t now : Z) (r : RawStats)
    (q : QualityEval) (c c1 : MSS.Collector) :
  Invariant.registry_wf c ->
  MSS.addStream streamId md t c = Normal c1 ->
  (forall s, s ∈ MSS.getActiveStreams c1 -> id s <> streamId) /\
  exists s st,
    s ∈ MSS.getActiveStreams (MSS.updateStreamStats streamId r q now c1) /\
    id s = streamId /\ currentStats s = Some st /\
    timestamp st = now /\ lastUpdate s = now /\
    videoBitrate st = raw_videoBitrate r /\ videoFps st = raw_videoFps r /\
    packetLossRate st = raw_packetLossRate r /\ jitter st = raw_jitter r /\
    qualityScore st = score q /\ qualityStatus st = status q.
Proof.
  intros Hwf Hadd.
  pose proof (registry_wf_addStream _ _ _ _ _ Hwf Hadd) as Hwf1.
  injection Hadd as <-.
  set (c1 := {| MSS.config := MSS.config c |}) in *.
  assert (Hget : exists info, map_get streamId (MSS.streamStats c1) = Some info /\
                   currentStats info = None /\ isActive info = true /\ id info = streamId).
  { eexists. split; [apply map_get_set_eq|]. repeat split; reflexivity. }
  destruct Hget as (info & Hget & Hnone & Hact & Hid).
  split.
  - intros s Hin Heq. destruct (active_entry c1 s Hwf1 Hin) as [He Hs].
    rewrite Heq, Hget in He. injection He as <-.
    unfold MSS.has_snapshot in Hs. rewrite Hnone, andb_false_r in Hs. discriminate.
  - unfold MSS.updateStreamStats. rewrite Hget, Hact. cbn [negb].
    eexists _, _. split.
    + eapply (entry_active _ streamId); [cbn [MSS.streamStats]; apply map_get_set_eq|].
      unfold MSS.has_snapshot. cbn. reflexivity.
    + cbn. repeat split; try reflexivity. exact Hid.
Qed.

(** X11 at work: [view_4] joins the grid. *)
Lemma first_telemetry_activates_witness :
  exists c1,
    MSS.addStream "view_4" Scenario.no_metadata 1005000 Scenario.grid_collector
    = Normal c1 /\
    exists s, s ∈ MSS.getActiveStreams
                (MSS.updateStreamStats "view_4" (Scenario.raw 700 30 720 0 5)
                   {| status := "excellent"; score := 100 |} 1006000 c1) /\
              id s = "view_4".
Proof.
  assert (Hwf : Invariant.registry_wf Scenario.grid_collector).
  { split; vm_compute; repeat constructor;
      rewrite ?list_elem_of_In; simpl; intuition discriminate. }
  eexists. split; [reflexivity|].
  destruct (first_telemetry_activates "view_4" Scenario.no_metadata 1005000 1006000
              (Scenario.raw 700 30 720 0 5) {| status := "excellent"; score := 100 |}
              Scenario.grid_collector _ Hwf eq_refl) as (_ & s & st & Hin & Hid & _).
  exists s. split; [exact Hin|exact Hid].
Defined.

(** ** Bounded histories *)

Lemma chronological_snoc (h : list Stats) (x : Stats) :
  Shape.chronological h ->
  Forall (fun s => (timestamp s <= timestamp x)%Z) h ->
  Shape.chronological (h ++ [x]).
Proof.
  induction h as [|a h IH]; simpl; intros Hc Hall.
  - split; [constructor|exact I].
  - destruct Hc as [Ha Hc]. apply Forall_cons in Hall as [Hax Hall]. split.
    + apply Forall_app. split; [exact Ha|]. constructor; [exact Hax|constructor].
    + exact (IH Hc Hall).
Qed.

Lemma evict_chronological (cutoff : Z) (h : list Stats) :
  Shape.chronological h ->
  Shape.chronological (MSS.evict cutoff h) /\
  Forall (fun s => (cutoff <= timestamp s)%Z) (MSS.evict cutoff h) /\
  exists dropped, h = dropped ++ MSS.evict cutoff h /\
                  Forall (fun s => (timestamp s < cutoff)%Z) dropped.
Proof.
  induction h as [|a h IH]; intros Hc.
  - simpl. split; [exact I|]. split; [constructor|]. exists []. split; [reflexivity|constructor].
  - cbn [MSS.evict]. destruct (timestamp a <? cutoff)%Z eqn:E.
    + destruct Hc as [_ Hc]. destruct (IH Hc) as (H1 & H2 & dropped & H3 & H4).
      split; [exact H1|]. split; [exact H2|]. exists (a :: dropped). split.
      * cbn [app]. rewrite <- H3. reflexivity.
      * constructor; [apply Z.ltb_lt; exact E|exact H4].
    + apply Z.ltb_ge in E. split; [exact Hc|]. split.
      * destruct Hc as [Ha _]. constructor; [exact E|].
        eapply Forall_impl; [exact Ha|]. cbv beta. intros s Hs. lia.
      * exists []. split; [reflexivity|constructor].
Qed.

Lemma filter_all {A} (f : A -> bool) (l : list A) :
  Forall (fun x => f x = true) l -> List.filter f l = l.
Proof.
  induction 1 as [|x l Hx _ IH]; [reflexivity|]. simpl. rewrite Hx, IH. reflexivity.
Qed.

(** X12: the history of a stream stays inside the retention window.  If
    the stored history is in time order and not from the future, then
    after a telemetry callback at time [now] it is the old history plus the
    new snapshot minus a prefix of expired records: still in time order,
    every record no older than [historyDuration], the new snapshot last;
    and [getStreamHistory] over the whole window returns all of it. *)
Theorem history_stays_in_window
    (streamId : string) (r : RawStats) (q : QualityEval) (now : Z)
    (c : MSS.Collector) (info : StreamInfo) (hist : list Stats) :
  map_get streamId (MSS.streamStats c) = Some info ->
  isActive info = true ->
  MSS.historicalData c !! streamId = Some hist ->
  Shape.chronological hist ->
  Forall (fun s => (timestamp s <= now)%Z) hist ->
  (0 <= MSS.historyDuration (MSS.config c))%Z ->
  let c' := MSS.updateStreamStats streamId r q now c in
  exists hist' dropped newest,
    MSS.historicalData c' !! streamId = Some hist' /\
    hist ++ [newest] = dropped ++ hist' /\
    Forall (fun s => (timestamp s < now - MSS.historyDuration (MSS.config c))%Z) dropped /\
    Shape.chronological hist' /\
    Forall (fun s => (now - MSS.historyDuration (MSS.config c) <= timestamp s <= now)%Z)
           hist' /\
    last hist' = Some newest /\ timestamp newest = now /\
    MSS.getStreamHistory streamId (MSS.historyDuration (MSS.config c)) now c' = hist'.
Proof.
  intros Hget Hact Hh Hc Hall HD. cbv zeta.
  unfold MSS.updateStreamStats. rewrite Hget, Hact. cbn [negb].
  unfold MSS.getStreamHistory. cbn [MSS.historicalData MSS.config].
  unfold MSS.addToHistory. rewrite Hh. rewrite lookup_insert_eq.
  set (newest := {| videoBitrate := raw_videoBitrate r; timestamp := now |}).
  set (cutoff := (now - MSS.historyDuration (MSS.config c))%Z).
  assert (Hc' : Shape.chronological (hist ++ [newest])).
  { apply chronological_snoc; [exact Hc|exact Hall]. }
  destruct (evict_chronological cutoff _ Hc') as (H1 & H2 & dropped & H3 & H4).
  assert (Hup : Forall (fun s => (timestamp s <= now)%Z) (MSS.evict cutoff (hist ++ [newest]))).
  { assert (Hall' : Forall (fun s => (timestamp s <= now)%Z) (hist ++ [newest])).
    { apply Forall_app. split; [exact Hall|]. constructor; [cbn; lia|constructor]. }
    rewrite H3 in Hall'. apply Forall_app in Hall' as [_ Hall']. exact Hall'. }
  assert (Hlast : last (MSS.evict cutoff (hist ++ [newest])) = Some newest).
  { destruct (MSS.evict cutoff (hist ++ [newest])) as [|e l] eqn:Ee.
    - exfalso. rewrite app_nil_r in H3. subst dropped.
      apply Forall_app in H4 as [_ H4]. apply Forall_cons in H4 as [H4 _].
      cbn in H4. subst cutoff. lia.
    - rewrite <- Ee. assert (Hl : last (hist ++ [newest]) = Some newest) by apply last_snoc.
      rewrite H3 in Hl. rewrite last_app in Hl. rewrite Ee in *.
      destruct (last (e :: l)) eqn:El; [exact Hl|].
      apply last_None in El. discriminate. }
  exists (MSS.evict cutoff (hist ++ [newest])), dropped, newest.
  split; [reflexivity|]. split; [exact H3|]. split; [exact H4|]. split; [exact H1|].
  split.
  { apply Forall_forall. intros s Hs. rewrite Forall_forall in H2, Hup.
    split; [exact (H2 s Hs)|exact (Hup s Hs)]. }
  split; [exact Hlast|]. split; [reflexivity|].
  apply filter_all. eapply Forall_impl; [exact H2|]. cbv beta.
  intros s Hs. apply Z.leb_le. exact Hs.
Qed.

(** X12 at work: a second snapshot of [view_0], two seconds after the
    first. *)
Lemma history_stays_in_window_witness :
  exists hist',
    MSS.historicalData
      (MSS.updateStreamStats "view_0" (Scenario.raw 2500 25 1080 4 20)
         {| status := "good"; score := 70 |} 1004000 Scenario.single_collector)
    !! "view_0" = Some hist' /\
    length hist' = 2%nat /\
    Forall (fun s => (1004000 - 60000 <= timestamp s <= 1004000)%Z) hist'.
Proof.
  eassert (Hget : map_get "view_0" (MSS.streamStats Scenario.single_collector) = Some _)
    by (vm_compute; reflexivity).
  eassert (Hh : MSS.historicalData Scenario.single_collector !! "view_0" = Some _)
    by (vm_compute; reflexivity).
  destruct (history_stays_in_window "view_0" (Scenario.raw 2500 25 1080 4 20)
              {| status := "good"; score := 70 |} 1004000 Scenario.single_collector
              _ _ Hget eq_refl Hh)
    as (hist' & dropped & newest & H1 & H2 & H3 & _ & H5 & _).
  - simpl. split; [constructor|exact I].
  - repeat constructor. vm_compute. discriminate.
  - vm_compute. discriminate.
  - exists hist'. split; [exact H1|]. split; [|exact H5].
    revert H1. vm_compute. intros [= <-]. reflexivity.
Defined.





(** ** One analysis cycle of the collector *)

Lemma generateStreamRecommendation_completes (s : StreamInfo) (now : Z) (c : MSS.Collector) :
  is_Some (currentStats s) ->
  exists r c',
    MSS.generateStreamRecommendation s now c = Normal (r, c') /\
    MSS.config c' = MSS.config c /\ MSS.streamStats c' = MSS.streamStats c /\
    MSS.historicalData c' = MSS.historicalData c /\
    MSS.aggregatedStats c' = MSS.aggregatedStats c /\
    MSS.networkAssessment c' = MSS.networkAssessment c /\
    MSS.lastUpdateTime c' = MSS.lastUpdateTime c.
Proof.
  intros [st Hst]. unfold MSS.generateStreamRecommendation.
  destruct (_ && _); [eexists _, _; repeat split; reflexivity|].
  rewrite Hst. cbn [deref bind].
  destruct (MSS.chooseQuality c st (metadata s)) as [[q conf]|];
    eexists _, _; repeat split; reflexivity.
Qed.

Lemma streamRecommendations_complete (streams : list StreamInfo) (now : Z)
    (c : MSS.Collector) :
  Forall (fun s => is_Some (currentStats s)) streams ->
  exists recs c',
    MSS.streamRecommendations streams now c = Normal (recs, c') /\
    (length recs <= length streams)%nat /\
    MSS.config c' = MSS.config c /\ MSS.streamStats c' = MSS.streamStats c /\
    MSS.historicalData c' = MSS.historicalData c /\
    MSS.aggregatedStats c' = MSS.aggregatedStats c /\
    MSS.networkAssessment c' = MSS.networkAssessment c /\
    MSS.lastUpdateTime c' = MSS.lastUpdateTime c.
Proof.
  intros Hall. revert c. induction Hall as [|s l Hs _ IH]; intros c.
  - exists [], c. repeat split; try reflexivity; try (simpl; lia).
  - destruct (generateStreamRecommendation_completes s now c Hs)
      as (r & c1 & Hr & E1 & E2 & E3 & E4 & E5 & E6).
    destruct (IH c1) as (rs & c2 & Hrs & Hlen & F1 & F2 & F3 & F4 & F5 & F6).
    cbn [MSS.streamRecommendations]. rewrite Hr. cbn [bind fst snd]. rewrite Hrs.
    cbn [bind fst snd]. eexists _, _. split; [reflexivity|].
    split; [destruct r; cbn [length]; lia|].
    repeat split; congruence.
Qed.

Lemma generateGlobalOptimization_completes (cfg : MSS.Config)
    (streams : list StreamInfo) (now : Z) :
  Forall (fun s => is_Some (currentStats s)) streams ->
  exists g, MSS.generateGlobalOptimization cfg streams now = Normal g.
Proof.
  intros Hall. unfold MSS.generateGlobalOptimization.
  destruct (_ <? 2)%Z; [eexists; reflexivity|].
  destruct (mapC_currentStats _ Hall) as (stats & Hm & _). rewrite Hm. cbn [bind].
  repeat match goal with |- context [if ?b then _ else _] => destruct b end;
    eexists; reflexivity.
Qed.

(** X14: an analysis cycle always completes.  Without an active stream it
    publishes nothing and changes nothing.  Otherwise it publishes one
    event and stores the aggregate and the assessment of that event; the
    event counts the active streams, its assessment reports the bandwidth
    of its aggregate rounded to 0.1 Mbps, it holds at most one
    recommendation per active stream plus one global one, and the registry
    and the histories are left as they were. *)
Theorem collectAndAnalyze_cycle (now : Z) (c : MSS.Collector) :
  exists ev c',
    MSS.collectAndAnalyze now c = Normal (ev, c') /\
    MSS.streamStats c' = MSS.streamStats c /\
    MSS.historicalData c' = MSS.historicalData c /\
    match ev with
    | None => MSS.getActiveStreams c = [] /\ c' = c
    | Some e =>
        let n := length (MSS.getActiveStreams c) in
        (0 < n)%nat /\
        MSS.su_timestamp e = now /\
        MSS.su_activeStreams e = Z.of_nat n /\
        MSS.totalStreams (MSS.su_aggregated e) = Z.of_nat n /\
        totalBandwidthUsage (net_metrics (MSS.su_network e))
        = toFixed 1 (MSS.totalBandwidth (MSS.su_aggregated e) / 1000) /\
        (length (MSS.su_recommendations e) <= n + 1)%nat /\
        MSS.aggregatedStats c' = Some (MSS.su_aggregated e) /\
        MSS.networkAssessment c' = Some (MSS.su_network e) /\
        MSS.lastUpdateTime c' = now
    end.
Proof.
  unfold MSS.collectAndAnalyze.
  pose proof (getActiveStreams_have_stats c) as Hall.
  destruct (MSS.getActiveStreams c) as [|s0 rest] eqn:Hact.
  - exists None, c. repeat split; reflexivity.
  - destruct (mapC_currentStats _ Hall) as (stats & Hm & Hlen).
    unfold MSS.generateAggregatedStats, MSS.assessNetworkConditions.
    rewrite Hm. cbn [bind].
    set (c1 := {| MSS.config := MSS.config c;
                  MSS.aggregatedStats := Some (MSS.aggregate stats) |}).
    unfold MSS.generateQualityRecommendations.
    destruct (streamRecommendations_complete (s0 :: rest) now c1 Hall)
      as (rs & c2 & Hrs & Hrl & F1 & F2 & F3 & F4 & F5 & F6).
    rewrite Hrs. cbn [bind fst snd].
    destruct (generateGlobalOptimization_completes (MSS.config c1) (s0 :: rest) now Hall)
      as (g & Hg).
    rewrite Hg. cbn [bind fst snd].
    eexists _, _. split; [reflexivity|].
    cbn [MSS.streamStats MSS.historicalData MSS.aggregatedStats MSS.networkAssessment
         MSS.lastUpdateTime MSS.su_timestamp MSS.su_activeStreams MSS.su_aggregated
         MSS.su_network MSS.su_recommendations].
    split; [exact F2|]. split; [exact F3|].
    split; [cbn [length]; lia|]. split; [reflexivity|]. split; [reflexivity|].
    split; [unfold MSS.aggregate; cbn [MSS.totalStreams]; rewrite Hlen; reflexivity|].
    split; [reflexivity|].
    split; [destruct g; rewrite ?length_app; cbn [length] in *; lia|].
    split; [rewrite F4; reflexivity|]. split; [rewrite F5; reflexivity|reflexivity].
Qed.

(** ** Stress level and overall level *)

Lemma unstable_needs_problem (a b : nat) :
  gtb (inject_Z (Z.of_nat a)) (inject_Z (Z.of_nat b) * (1 # 2)) = true -> (0 < a)%nat.
Proof.
  intros H. apply gtb_gt in H. destruct a as [|a]; [|lia].
  exfalso. revert H. apply Qle_not_lt.
  change (inject_Z (Z.of_nat 0)) with 0%Q.
  apply Qmult_le_0_compat; [|discriminate].
  change 0%Q with (inject_Z 0). rewrite <- Zle_Qle. lia.
Qed.

(** X15: the stress level of an assessment is low exactly when its overall
    level is good or excellent: both say that the bandwidth is at most the
    medium threshold and that no stream is problematic. *)
Theorem stress_low_iff_good (cfg : MSS.Config) (streams : list StreamInfo) :
  Forall (fun s => is_Some (currentStats s)) streams ->
  exists a,
    MSS.assessNetworkConditions cfg streams = Normal a /\
    (networkStressLevel (net_metrics a) = stress_low <->
     overall a = good \/ overall a = excellent) /\
    (overall a = good \/ overall a = excellent <->
     bandwidth a = sufficient /\ stability a = stable).
Proof.
  intros Hall. unfold MSS.assessNetworkConditions.
  destruct streams as [|s l].
  - eexists. split; [reflexivity|]. cbn. split; split; auto.
  - destruct (mapC_currentStats _ Hall) as (stats & Hm & _). rewrite Hm. cbn [bind].
    eexists. split; [reflexivity|].
    unfold MSS.assess. cbn [overall bandwidth stability net_metrics networkStressLevel].
    unfold MSS.classifyStress, MSS.classifyBandwidth, MSS.classifyStability, MSS.combine.
    set (bw := toFixed 1 _). set (np := length _).
    pose proof (unstable_needs_problem np (length stats)) as Hun.
    destruct (gtb bw (MSS.high (MSS.bandwidthThresholds cfg)));
      destruct (gtb bw (MSS.medium (MSS.bandwidthThresholds cfg)));
      destruct (gtb (inject_Z (Z.of_nat np)) _);
      destruct (2 <? Z.of_nat np)%Z eqn:E2; destruct (0 <? Z.of_nat np)%Z eqn:E0;
      cbn; try (apply Z.ltb_lt in E2; apply Z.ltb_ge in E0; lia);
      try (apply Z.ltb_ge in E0; specialize (Hun eq_refl); lia);
      repeat match goal with |- context [if ?b then _ else _] => destruct b end;
      cbn; split; split; intuition (discriminate || auto).
Qed.

(** X15 at work on the grid of four healthy streams. *)
Lemma stress_low_iff_good_witness :
  exists a,
    MSS.assessNetworkConditions MSS.default_config
      (MSS.getActiveStreams Scenario.grid_collector) = Normal a /\
    networkStressLevel (net_metrics a) = stress_low /\ overall a = excellent.
Proof.
  destruct (stress_low_iff_good MSS.default_config _
              (getActiveStreams_have_stats Scenario.grid_collector))
    as (a & Ha & _ & _).
  exists a. split; [exact Ha|].
  revert Ha. vm_compute. intros [= <-]. split; reflexivity.
Defined.

(** ** What the collector recommends for one stream *)



(** ** The per-stream collector and its score *)

Lemma rawScore_range (st : WSC.CollectorStats) :
  (-15 <= WSC.rawScore st <= 100)%Z.
Proof.
  unfold WSC.rawScore.
  repeat match goal with |- context [if ?b then _ else _] => destruct b end; lia.
Qed.

(** X17: the score returned by evaluateQuality is a whole number between 0
    and 100, and the status returned with it is the band of that score:
    excellent from 80, good from 60, fair from 40, poor below. *)
Theorem evaluateQuality_bands (st : WSC.CollectorStats) :
  exists n : Z,
    score (WSC.evaluateQuality st) = inject_Z n /\ (0 <= n <= 100)%Z /\
    status (WSC.evaluateQuality st)
    = (if (80 <=? n)%Z then "excellent"
       else if (60 <=? n)%Z then "good"
       else if (40 <=? n)%Z then "fair" else "poor").
Proof.
  exists (Z.max 0 (WSC.rawScore st)). pose proof (rawScore_range st) as Hr.
  split; [reflexivity|]. split; [lia|].
  unfold WSC.evaluateQuality. cbn [status].
  destruct (Z.max_spec 0 (WSC.rawScore st)) as [[Hlt ->]|[Hle ->]]; [reflexivity|].
  assert (WSC.rawScore st <= 0)%Z as H0 by lia.
  repeat match goal with |- context [(?a <=? ?b)%Z] =>
    destruct (Z.leb_spec a b); try lia end.
  reflexivity.
Qed.

(** X18: the score falls with the number of issues evaluateQuality lists:
    it is 100 exactly when no issue is listed, each issue costs between 10
    and 40 points, a stream with a single issue is still rated good or
    excellent, and a severe loss, jitter or frame-rate issue rules out
    excellent. *)
Theorem issues_and_score (st : WSC.CollectorStats) :
  let k := WSC.issueCount st in
  let raw := WSC.rawScore st in
  (0 <= k <= 4)%Z /\
  (100 - 40 * k <= raw <= 100 - 10 * k)%Z /\
  (k = 0%Z <-> score (WSC.evaluateQuality st) = 100%Q) /\
  ((k <= 1)%Z -> status (WSC.evaluateQuality st) = "excellent"
               \/ status (WSC.evaluateQuality st) = "good") /\
  ((5 < WSC.packetLossRate st)%Q \/ (100 < WSC.jitter st)%Z
   \/ (WSC.videoFps st < 15)%Z ->
   status (WSC.evaluateQuality st) <> "excellent").
Proof.
  cbv zeta. unfold WSC.evaluateQuality, WSC.issueCount, WSC.rawScore. cbn [status score].
  destruct (gtb (WSC.packetLossRate st) 5) eqn:L5;
    [|destruct (gtb (WSC.packetLossRate st) 2) eqn:L2];
    (destruct (Z.ltb_spec 100 (WSC.jitter st));
       [|destruct (Z.ltb_spec 50 (WSC.jitter st))]);
    (destruct (Z.ltb_spec (WSC.videoFps st) 15);
       [|destruct (Z.ltb_spec (WSC.videoFps st) 24)]);
    destruct (gtb (WSC.dropRate st) 5);
    (split; [lia|]); (split; [lia|]);
    (split; [split; [intros Hk; try (exfalso; lia); reflexivity
                    |intros Hk; try reflexivity; vm_compute in Hk; discriminate Hk]|]);
    (split; [intros Hk; try (exfalso; lia); cbn; tauto|]);
    intros [Hs|[Hs|Hs]];
    try (apply gtb_gt in Hs; rewrite L5 in Hs; discriminate Hs); try lia;
    cbn; discriminate.
Qed.

(** ** From the per-stream collector to the recommendation *)


(** The entry a telemetry callback leaves for a registered stream. *)
Lemma notified_stream (streamId : string) (s : WSC.State) (now : Z)
    (c : MSS.Collector) (info : StreamInfo) :
  map_get streamId (MSS.streamStats c) = Some info ->
  isActive info = true ->
  exists entry cur,
    entry ∈ MSS.getActiveStreams (WSC.notifyListeners streamId s now c) /\
    map_get streamId (MSS.streamStats (WSC.notifyListeners streamId s now c))
    = Some entry /\
    id entry = id info /\ metadata entry = metadata info /\
    currentStats entry = Some cur /\
    videoFps cur = inject_Z (WSC.videoFps (WSC.stats s)) /\
    packetLossRate cur = WSC.packetLossRate (WSC.stats s) /\
    jitter cur = inject_Z (WSC.jitter (WSC.stats s)) /\
    height_of cur = Some (height (WSC.resolution (WSC.stats s))) /\
    qualityScore cur = inject_Z (Z.max 0 (WSC.rawScore (WSC.stats s))).
Proof.
  intros Hget Hact. unfold WSC.notifyListeners, MSS.updateStreamStats.
  rewrite Hget, Hact. cbn [negb MSS.streamStats].
  eexists _, _. split.
  - eapply entry_active; [apply map_get_set_eq|]. unfold MSS.has_snapshot.
    reflexivity.
  - split; [apply map_get_set_eq|]. repeat split; reflexivity.
Qed.






(** ** Parsing a report *)

Lemma ratio_range (lost total : Z) :
  (0 <= lost <= total)%Z -> (0 < total)%Z ->
  (0 <= inject_Z lost / inject_Z total * 100 <= 100)%Q.
Proof.
  intros Hl Ht. destruct total as [|p|p]; try lia.
  unfold Qle, Qmult, Qdiv, Qinv, inject_Z. cbn. split; lia.
Qed.

Lemma toFixed_percentage (x : Q) :
  (0 <= x <= 100)%Q ->
  exists n : Z, toFixed 2 x = (inject_Z n / 100)%Q /\ (0 <= toFixed 2 x <= 100)%Q.
Proof.
  intros [H0 H1]. unfold toFixed.
  destruct (ltb x 0) eqn:E; [apply ltb_lt in E; lra|].
  change (inject_Z (10 ^ Z.of_nat 2)) with 100%Q.
  set (n := Qfloor (x * 100 + (1 # 2))).
  assert (0 <= n <= 10000)%Z as Hn.
  { split.
    - change 0%Z with (Qfloor 0). apply Qfloor_resp_le. lra.
    - change 10000%Z with (Qfloor (10000 + (1 # 2))). apply Qfloor_resp_le. lra. }
  exists n. split; [reflexivity|].
  clearbody n. unfold Qle, Qdiv, Qmult, Qinv, inject_Z. cbn. lia.
Qed.

(** What [parseStats] copies from the inbound video report it finds. *)
Lemma parseStats_video (reports : list WSC.Report) (now : Z) (s : WSC.State)
    (v : WSC.VideoReport) :
  WSC.lastVideo reports = Some v ->
  let st := WSC.stats (WSC.parseStats reports now s) in
  WSC.packetsLost st = WSC.r_packetsLost v /\
  WSC.packetsReceived st = WSC.r_packetsReceived v /\
  WSC.packetLossRate st = WSC.lossRate (WSC.r_packetsLost v) (WSC.r_packetsReceived v) /\
  WSC.jitter st = Math_round (WSC.r_jitter v * 1000) /\
  WSC.framesReceived st = WSC.r_framesReceived v /\
  WSC.framesDropped st = WSC.r_framesDropped v /\
  WSC.resolution st = {| width := WSC.frameWidth v; height := WSC.frameHeight v |} /\
  WSC.timestamp st = now.
Proof.
  intros Hv. cbv zeta. unfold WSC.parseStats. rewrite Hv.
  destruct (WSC.lastAudio reports); repeat split; reflexivity.
Qed.

(** X20: after a report with an inbound video entry whose packet counters
    are not negative, the stored loss rate is a percentage with two
    decimals between 0 and 100, and it is 0, not a division by zero, when
    no packet has been counted at all. *)
Theorem loss_rate_is_a_percentage
    (reports : list WSC.Report) (now : Z) (s : WSC.State) (v : WSC.VideoReport) :
  WSC.lastVideo reports = Some v ->
  (0 <= WSC.r_packetsLost v)%Z -> (0 <= WSC.r_packetsReceived v)%Z ->
  let st := WSC.stats (WSC.parseStats reports now s) in
  (0 <= WSC.packetLossRate st <= 100)%Q /\
  (exists n : Z, WSC.packetLossRate st == inject_Z n / 100)%Q /\
  ((WSC.r_packetsLost v + WSC.r_packetsReceived v = 0)%Z ->
   WSC.packetLossRate st = 0%Q).
Proof.
  intros Hv Hl Hr. cbv zeta.
  destruct (parseStats_video reports now s v Hv) as (_ & _ & -> & _).
  unfold WSC.lossRate.
  destruct (Z.ltb_spec 0 (WSC.r_packetsLost v + WSC.r_packetsReceived v)) as [Hpos|Hz].
  - assert (0 <= WSC.r_packetsLost v
            <= WSC.r_packetsLost v + WSC.r_packetsReceived v)%Z as Hle by lia.
    destruct (toFixed_percentage _ (ratio_range _ _ Hle Hpos)) as (n & Hn & Hrange).
    split; [exact Hrange|]. split; [|lia].
    exists n. rewrite Hn. reflexivity.
  - split; [split; discriminate|]. split; [|reflexivity].
    exists 0%Z. reflexivity.
Qed.

(** X20 on a report counting 40 packets lost and 960 received. *)
Lemma loss_rate_is_a_percentage_witness :
  exists v : WSC.VideoReport,
    let st := WSC.stats (WSC.parseStats [WSC.InboundVideo v] 1001000 (WSC.new 1000000)) in
    (0 <= WSC.packetLossRate st <= 100)%Q.
Proof.
  exists {| WSC.bytesReceived := 125000; WSC.r_framesReceived := 30;
            WSC.frameWidth := 1280; WSC.frameHeight := 720;
            WSC.r_packetsLost := 40; WSC.r_packetsReceived := 960;
            WSC.r_jitter := 0.02; WSC.r_framesDropped := 0 |}.
  refine (proj1 (loss_rate_is_a_percentage _ 1001000 (WSC.new 1000000) _ _ _ _));
    [reflexivity|cbn; lia|cbn; lia].
Defined.

Lemma first_sample_rates (reports : list WSC.Report) (t0 now : Z) :
  let st := WSC.stats (WSC.parseStats reports now (WSC.new t0)) in
  WSC.videoBitrate st = 0%Z /\ WSC.videoFps st = 0%Z /\ WSC.audioBitrate st = 0%Z.
Proof.
  cbv zeta. unfold WSC.parseStats.
  destruct (WSC.lastVideo reports), (WSC.lastAudio reports); repeat split; reflexivity.
Qed.

Lemma rawScore_low_fps (st : WSC.CollectorStats) :
  (WSC.videoFps st < 15)%Z -> (WSC.rawScore st <= 75)%Z.
Proof.
  intros H. unfold WSC.rawScore.
  destruct (Z.ltb_spec (WSC.videoFps st) 15) as [_|Hge]; [|lia].
  repeat match goal with |- context [if ?b then _ else _] => destruct b end; lia.
Qed.

(** X21: the first report a per-stream collector parses cannot yield a
    rate, there being no earlier counters to subtract: the video bitrate,
    the frame rate and the audio bitrate stay 0 whatever the report holds,
    so the quality evaluated from it is charged the low frame-rate penalty:
    its score is at most 75 and its status is never excellent. *)
Theorem first_sample_has_no_rates (reports : list WSC.Report) (t0 now : Z) :
  let st := WSC.stats (WSC.parseStats reports now (WSC.new t0)) in
  WSC.videoBitrate st = 0%Z /\ WSC.videoFps st = 0%Z /\ WSC.audioBitrate st = 0%Z /\
  WSC.timestamp st = now /\
  (score (WSC.evaluateQuality st) <= 75)%Q /\
  status (WSC.evaluateQuality st) <> "excellent".
Proof.
  cbv zeta. destruct (first_sample_rates reports t0 now) as (Hb & Hf & Ha).
  split; [exact Hb|]. split; [exact Hf|]. split; [exact Ha|].
  split.
  { unfold WSC.parseStats.
    destruct (WSC.lastVideo reports), (WSC.lastAudio reports); reflexivity. }
  assert (WSC.rawScore (WSC.stats (WSC.parseStats reports now (WSC.new t0))) <= 75)%Z
    as Hraw by (apply rawScore_low_fps; rewrite Hf; lia).
  unfold WSC.evaluateQuality. cbn [score status]. split.
  - change 75%Q with (inject_Z 75). rewrite <- Zle_Qle. lia.
  - destruct (Z.leb_spec 80 (WSC.rawScore
               (WSC.stats (WSC.parseStats reports now (WSC.new t0))))) as [H80|_];
      [lia|].
    repeat match goal with |- context [if ?b then _ else _] => destruct b end;
      discriminate.
Qed.

(** X22: when the collector produces recommendations from the first
    telemetry of a stream whose report shows a height above 480, the
    frame rate of 0 in that telemetry makes it recommend a lower quality,
    720p above a height of 720 and 480p otherwise, with the confidence of
    the downgrade branch, whatever loss and jitter the report shows. *)
Theorem first_sample_recommends_downgrade
    (streamId : string) (reports : list WSC.Report) (v : WSC.VideoReport)
    (t0 now t : Z) (c cache : MSS.Collector) (info : StreamInfo) :
  map_get streamId (MSS.streamStats c) = Some info ->
  isActive info = true ->
  WSC.lastVideo reports = Some v ->
  (480 < WSC.frameHeight v)%Z ->
  Invariant.cache_clean cache ->
  let s := WSC.parseStats reports now (WSC.new t0) in
  exists entry r cache',
    entry ∈ MSS.getActiveStreams (WSC.notifyListeners streamId s now c) /\
    map_get streamId (MSS.streamStats (WSC.notifyListeners streamId s now c))
    = Some entry /\
    MSS.generateStreamRecommendation entry t cache = Normal (Some r, cache') /\
    MSS.recommendedQuality r
    = (if (720 <? WSC.frameHeight v)%Z then "720p" else "480p") /\
    MSS.confidence r
    = (if (720 <? WSC.frameHeight v)%Z then 0.8%Q else 0.9%Q).
Proof.
  intros Hget Hact Hv Hh Hclean. cbv zeta.
  destruct (notified_stream streamId (WSC.parseStats reports now (WSC.new t0))
              now c info Hget Hact)
    as (entry & cur & Hin & Hmap & _ & _ & Hcur & Hfps & _ & _ & Hheight & _).
  destruct (first_sample_rates reports t0 now) as (_ & Hf & _). rewrite Hf in Hfps.
  destruct (parseStats_video reports now (WSC.new t0) v Hv)
    as (_ & _ & _ & _ & _ & _ & Hres & _).
  rewrite Hres in Hheight. cbn [height] in Hheight.
  exists entry. unfold MSS.generateStreamRecommendation.
  assert (MSS.truthy (MSS.lastRecommendations cache !! id entry ≫= MSS.action) = false) as ->.
  { destruct (MSS.lastRecommendations cache !! id entry) as [r0|] eqn:E; [|reflexivity].
    cbn. rewrite (Hclean _ _ E). reflexivity. }
  rewrite andb_false_r, Hcur. cbn [deref bind].
  unfold MSS.chooseQuality. rewrite Hfps, Hheight.
  assert (forall pl j, MSS.needsDowngrade pl j (or_else (inject_Z 0) 0) = true) as ->.
  { intros pl j. unfold MSS.needsDowngrade. apply orb_true_r. }
  change (default 0%Z (Some (WSC.frameHeight v))) with (WSC.frameHeight v).
  unfold MSS.orZ.
  destruct (Z.eqb_spec (WSC.frameHeight v) 0) as [H0|_]; [lia|].
  destruct (720 <? WSC.frameHeight v)%Z eqn:E1.
  - eexists _, _. split; [exact Hin|]. split; [exact Hmap|].
    split; [reflexivity|]. split; reflexivity.
  - destruct (Z.ltb_spec 480 (WSC.frameHeight v)) as [_|Hle]; [|lia].
    eexists _, _. split; [exact Hin|]. split; [exact Hmap|].
    split; [reflexivity|]. split; reflexivity.
Qed.

(** X22 on the registered stream of the scenario and a clean first report
    at 1080p. *)
Lemma first_sample_recommends_downgrade_witness :
  exists entry r cache',
    entry ∈ MSS.getActiveStreams
              (WSC.notifyListeners "view_0"
                 (WSC.parseStats
                    [WSC.InboundVideo
                       {| WSC.bytesReceived := 312500; WSC.r_framesReceived := 30;
                          WSC.frameWidth := 1920; WSC.frameHeight := 1080;
                          WSC.r_packetsLost := 0; WSC.r_packetsReceived := 1000;
                          WSC.r_jitter := 0.01; WSC.r_framesDropped := 0 |}]
                    1001500 (WSC.new 1001000))
                 1001500
                 (Scenario.register "view_0" 1001000
                    (MSS.new MSS.default_config 1000000))) /\
    MSS.generateStreamRecommendation entry 1003000
      (MSS.new MSS.default_config 1000000) = Normal (Some r, cache') /\
    MSS.recommendedQuality r = "720p".
Proof.
  destruct (first_sample_recommends_downgrade "view_0"
              [WSC.InboundVideo
                 {| WSC.bytesReceived := 312500; WSC.r_framesReceived := 30;
                    WSC.frameWidth := 1920; WSC.frameHeight := 1080;
                    WSC.r_packetsLost := 0; WSC.r_packetsReceived := 1000;
                    WSC.r_jitter := 0.01; WSC.r_framesDropped := 0 |}]
              _ 1001000 1001500 1003000
              (Scenario.register "view_0" 1001000 (MSS.new MSS.default_config 1000000))
              (MSS.new MSS.default_config 1000000) _
              ltac:(vm_compute; reflexivity) ltac:(reflexivity) ltac:(reflexivity)
              ltac:(cbn; lia)
              ltac:(intros k r0 H; cbn in H; rewrite lookup_empty in H; discriminate H))
    as (entry & r & cache' & Hin & _ & Hrec & Hq & _).
  exists entry, r, cache'. split; [exact Hin|]. split; [exact Hrec|exact Hq].
Defined.

Lemma Math_round_nonneg (x : Q) : (0 <= x)%Q -> (0 <= Math_round x)%Z.
Proof.
  intros H. unfold Math_round. change 0%Z with (Qfloor 0).
  apply Qfloor_resp_le. lra.
Qed.

Lemma rate_nonneg (delta : Z) (timeDelta : Q) :
  (0 <= delta)%Z -> ltb 0 timeDelta = true ->
  (0 <= inject_Z delta / timeDelta)%Q.
Proof.
  intros Hd Ht. apply ltb_lt in Ht. unfold Qdiv.
  apply Qmult_le_0_compat.
  - change 0%Q with (inject_Z 0). rewrite <- Zle_Qle. exact Hd.
  - apply Qinv_le_0_compat. lra.
Qed.

Lemma kbps_nonneg (delta : Z) (timeDelta : Q) :
  (0 <= delta)%Z -> ltb 0 timeDelta = true ->
  (0 <= Math_round (inject_Z (delta * 8) / timeDelta / 1000))%Z.
Proof.
  intros Hd Ht. apply Math_round_nonneg.
  pose proof (rate_nonneg (delta * 8) timeDelta ltac:(lia) Ht) as H.
  unfold Qdiv at 1. apply Qmult_le_0_compat; [exact H|]. discriminate.
Qed.

(** The three rates after [parseStats], read off the report found. *)
Lemma parseStats_rates (reports : list WSC.Report) (now : Z) (s : WSC.State) :
  let timeDelta := (inject_Z (now - WSC.timestamp (WSC.stats s)) / 1000)%Q in
  let st := WSC.stats (WSC.parseStats reports now s) in
  WSC.videoBitrate st
  = match WSC.lastVideo reports, WSC.previousStats s ≫= WSC.videoBytesReceived with
    | Some v, Some before =>
        if ltb 0 timeDelta
        then Math_round (inject_Z ((WSC.bytesReceived v - before) * 8) / timeDelta / 1000)
        else WSC.videoBitrate (WSC.stats s)
    | _, _ => WSC.videoBitrate (WSC.stats s)
    end /\
  WSC.videoFps st
  = match WSC.lastVideo reports, WSC.previousStats s ≫= WSC.videoFramesReceived with
    | Some v, Some before =>
        if ltb 0 timeDelta
        then Math_round (inject_Z (WSC.r_framesReceived v - before) / timeDelta)
        else WSC.videoFps (WSC.stats s)
    | _, _ => WSC.videoFps (WSC.stats s)
    end /\
  WSC.audioBitrate st
  = match WSC.lastAudio reports, WSC.previousStats s ≫= WSC.audioBytesReceived with
    | Some a, Some before =>
        if ltb 0 timeDelta
        then Math_round (inject_Z ((a - before) * 8) / timeDelta / 1000)
        else WSC.audioBitrate (WSC.stats s)
    | _, _ => WSC.audioBitrate (WSC.stats s)
    end.
Proof.
  cbv zeta. unfold WSC.parseStats.
  destruct (WSC.lastVideo reports) as [v|], (WSC.lastAudio reports) as [a|];
    cbn [WSC.stats WSC.setTimestamp WSC.parseVideoStats WSC.parseAudioStats
         WSC.previousStats WSC.videoBitrate WSC.videoFps WSC.audioBitrate];
    repeat split;
    try reflexivity;
    try (destruct (WSC.previousStats s ≫= WSC.videoBytesReceived); reflexivity);
    try (destruct (WSC.previousStats s ≫= WSC.videoFramesReceived); reflexivity);
    destruct (WSC.previousStats s) as [p|]; reflexivity.
Qed.

(** X23: the rates of a per-stream collector stay non-negative as long as
    the counters of each report are not behind the ones remembered from the
    report before; a report that arrives with no time elapsed divides
    nothing and leaves the three rates as they were. *)
Theorem rates_stay_nonnegative
    (reports : list WSC.Report) (now : Z) (s : WSC.State) :
  (0 <= WSC.videoBitrate (WSC.stats s))%Z ->
  (0 <= WSC.videoFps (WSC.stats s))%Z ->
  (0 <= WSC.audioBitrate (WSC.stats s))%Z ->
  (forall v before, WSC.lastVideo reports = Some v ->
     WSC.previousStats s ≫= WSC.videoBytesReceived = Some before ->
     (before <= WSC.bytesReceived v)%Z) ->
  (forall v before, WSC.lastVideo reports = Some v ->
     WSC.previousStats s ≫= WSC.videoFramesReceived = Some before ->
     (before <= WSC.r_framesReceived v)%Z) ->
  (forall a before, WSC.lastAudio reports = Some a ->
     WSC.previousStats s ≫= WSC.audioBytesReceived = Some before ->
     (before <= a)%Z) ->
  let st := WSC.stats (WSC.parseStats reports now s) in
  (0 <= WSC.videoBitrate st)%Z /\ (0 <= WSC.videoFps st)%Z /\
  (0 <= WSC.audioBitrate st)%Z /\
  ((now <= WSC.timestamp (WSC.stats s))%Z ->
   WSC.videoBitrate st = WSC.videoBitrate (WSC.stats s) /\
   WSC.videoFps st = WSC.videoFps (WSC.stats s) /\
   WSC.audioBitrate st = WSC.audioBitrate (WSC.stats s)).
Proof.
  intros Hb Hf Ha Hvb Hvf Hab. cbv zeta.
  destruct (parseStats_rates reports now s) as (-> & -> & ->).
  set (timeDelta := (inject_Z (now - WSC.timestamp (WSC.stats s)) / 1000)%Q).
  assert ((now <= WSC.timestamp (WSC.stats s))%Z -> ltb 0 timeDelta = false) as Hguard.
  { intros Hle. apply ltb_ge. unfold timeDelta, Qle, Qdiv, Qmult, Qinv, inject_Z.
    cbn. lia. }
  split; [|split; [|split]].
  - destruct (WSC.lastVideo reports) as [v|]; [|exact Hb].
    destruct (WSC.previousStats s ≫= WSC.videoBytesReceived) as [before|]; [|exact Hb].
    destruct (ltb 0 timeDelta) eqn:Et; [|exact Hb].
    apply kbps_nonneg; [|exact Et]. specialize (Hvb _ _ eq_refl eq_refl). lia.
  - destruct (WSC.lastVideo reports) as [v|]; [|exact Hf].
    destruct (WSC.previousStats s ≫= WSC.videoFramesReceived) as [before|]; [|exact Hf].
    destruct (ltb 0 timeDelta) eqn:Et; [|exact Hf].
    apply Math_round_nonneg, rate_nonneg; [|exact Et].
    specialize (Hvf _ _ eq_refl eq_refl). lia.
  - destruct (WSC.lastAudio reports) as [a|]; [|exact Ha].
    destruct (WSC.previousStats s ≫= WSC.audioBytesReceived) as [before|]; [|exact Ha].
    destruct (ltb 0 timeDelta) eqn:Et; [|exact Ha].
    apply kbps_nonneg; [|exact Et]. specialize (Hab _ _ eq_refl eq_refl). lia.
  - intros Hle. rewrite (Hguard Hle).
    destruct (WSC.lastVideo reports), (WSC.lastAudio reports);
      repeat split;
      repeat match goal with |- context [match ?o with Some _ => _ | None => _ end] =>
        destruct o end; reflexivity.
Qed.

(** X23 on a second report, one second after the first, whose counters
    have advanced. *)
Lemma rates_stay_nonnegative_witness :
  let first :=
    WSC.parseStats
      [WSC.InboundVideo
         {| WSC.bytesReceived := 312500; WSC.r_framesReceived := 30;
            WSC.frameWidth := 1280; WSC.frameHeight := 720;
            WSC.r_packetsLost := 0; WSC.r_packetsReceived := 1000;
            WSC.r_jitter := 0.01; WSC.r_framesDropped := 0 |};
       WSC.InboundAudio 8000] 1001000 (WSC.new 1000000) in
  let second :=
    [WSC.InboundVideo
       {| WSC.bytesReceived := 625000; WSC.r_framesReceived := 60;
          WSC.frameWidth := 1280; WSC.frameHeight := 720;
          WSC.r_packetsLost := 0; WSC.r_packetsReceived := 2000;
          WSC.r_jitter := 0.01; WSC.r_framesDropped := 0 |};
     WSC.InboundAudio 16000] in
  let st := WSC.stats (WSC.parseStats second 1002000 first) in
  (0 <= WSC.videoBitrate st)%Z /\ (0 <= WSC.videoFps st)%Z /\
  (0 <= WSC.audioBitrate st)%Z /\
  WSC.videoBitrate st = 2500%Z /\ WSC.videoFps st = 30%Z /\ WSC.audioBitrate st = 64%Z.
Proof.
  cbv zeta.
  match goal with |- (0 <= WSC.videoBitrate (WSC.stats (WSC.parseStats ?r ?n ?s)))%Z /\ _ =>
    pose proof (rates_stay_nonnegative r n s
      ltac:(vm_compute; discriminate) ltac:(vm_compute; discriminate)
      ltac:(vm_compute; discriminate)
      ltac:(intros v b [= <-] [= <-]; vm_compute; discriminate)
      ltac:(intros v b [= <-] [= <-]; vm_compute; discriminate)
      ltac:(intros a b [= <-] [= <-]; vm_compute; discriminate)) as (H1 & H2 & H3 & _)
  end.
  split; [exact H1|]. split; [exact H2|]. split; [exact H3|].
  repeat split; vm_compute; reflexivity.
Defined.
